(** * Commission system: calculation rule, validators, invoice series,
      filing locks and the transaction controller

    A shallow embedding of the commission/GST core of the repository.  The
    modules follow the source files (paths under [src/]):

    - [Calc]: [calculateCommission] and [validateCalculations], the
      second file of [backend/utils/gstValidation.js] (imported by the
      controller as [utils/calculateCommission.js]);
    - [GstValidation]: [validateGSTCompliance] and
      [validateTransactionForGST], the first file of
      [backend/utils/gstValidation.js];
    - [InvoiceNumber]: [backend/models/InvoiceNumber.model.js]
      ([getFinancialYear], [getNextInvoiceNumber]) and [unnamed/part_004]
      ([utils/invoiceNumber.js]: [generateInvoiceNumber]);
    - [Transaction]: the schema of [backend/models/Transaction.model.js];
    - [GSTFilingLock]: [backend/models/GSTFilingLock.model.js]
      ([isDateLocked], [lockMonth], [unlockMonth]);
    - [FilingLockController]: [backend/controllers/filingLock.controller.js];
    - [FilingLockMiddleware]: [unnamed/part_002] ([checkFilingLock]);
    - [TransactionController], [TransactionUpdates]: [unnamed/part_003]
      ([createTransaction], [updateTransaction], [deleteTransaction]);
    - [TransactionRoutes]: [unnamed/part_005] ([transaction.routes.js]);
    - [FilingUnlockController], [FilingLockStatus]: [unlockMonth] and
      [getFilingLockStatus] of [backend/controllers/filingLock.controller.js];
    - [PeriodLockMiddleware]: [checkPeriodLock] of [unnamed/part_002];
    - [TransactionQueries]: [getTransaction] and the summary of
      [getTransactions] in [unnamed/part_003];
    - [Binary64]: the numbers of the engine, with [Math.round]; on them
      [Calc64] ([calculateCommission] and [validateCalculations] again),
      [Create64] ([createTransaction] of [unnamed/part_003] from the request
      body to the call of [Transaction.create], with
      [validateTransactionForGST]) and [Compliance64]
      ([validateGSTCompliance] again).

    Modelling conventions.

    - Numbers are modelled twice.  The handlers, the store and what is
      reachable are modelled over exact rationals ([Q]); [NaN], which [Q]
      has not, appears there only where the configuration produces it (an
      unset [DEFAULT_COMMISSION_PERCENT]).  That model carries the
      statements on statuses, messages, effects on the store and the order
      of amounts.  Rounding, the 0.01 tolerances and [===] depend on the
      last bit of a result: what is stated on them is stated on IEEE 754
      binary64 numbers ([Binary64], from the [SpecFloat] of the standard
      library), with the two zeros, the infinities and [NaN].
    - A string is the sequence of its UTF-16 code units, all below 256;
      [String.length] is the [length] of the JavaScript string.
    - Integers (years, months, sequence numbers, ids) are [Z] or [N].
    - A [Date] is its local calendar fields, as [getFullYear], [getMonth] and
      [getDate] return them.
    - The MongoDB collections are explicit state: [gmap]s keyed as their
      unique index, or lists; every asynchronous handler is a function from
      the store to a response and a new store. *)

From Stdlib Require Import QArith Qround Qabs ZArith NArith Lia Lqa Ascii String.
From Stdlib Require Import Floats.SpecFloat.
From stdpp Require Import gmap strings list.

Set Default Proof Using "Type".

(** stdpp blocks the unfolding of string concatenation by [simpl]; the string
    lemmas below compute with it. *)
Arguments String.append !s1 s2 : simpl nomatch.

(* ===================================================================== *)
(** ** JavaScript primitives used by the code *)
(* ===================================================================== *)

Module JS.

(** [Math.round(x)]: the nearest integer, ties towards +infinity. *)
Definition Math_round (x : Q) : Z := Qfloor (x + (1 # 2)).

(** [Math.abs(x)]. *)
Definition Math_abs (x : Q) : Q := Qabs x.

(** [x < y] on numbers ([Qle_bool] is [x <= y]). *)
Definition Qlt_bool (x y : Q) : bool := negb (Qle_bool y x).

(** [!x] on a number: true for [0] (and for [NaN], which [Q] has not). *)
Definition falsy (x : Q) : bool := Qeq_bool x 0.

End JS.

(* ===================================================================== *)
(** ** [calculateCommission.js] (second file of [backend/utils/gstValidation.js]) *)
(* ===================================================================== *)

(** What a handler or a utility throws: [new Error(message)] and the errors
    raised by the store. *)
Inductive Error : Type :=
| InvalidInput (message : string)
| ValidationError (paths : list string)
| DuplicateKey (index : string).

Record Calculations : Type := mkCalculations {
  commissionAmount : Q;
  gstAmount : Q;
  netIncome : Q;
  returnAmount : Q
}.

(** Field-wise equality of numbers ([Qeq]: [1#2] and [2#4] are the same
    number). *)
Definition Calc_eq (a b : Calculations) : Prop :=
  (commissionAmount a == commissionAmount b)%Q /\
  (gstAmount a == gstAmount b)%Q /\
  (netIncome a == netIncome b)%Q /\
  (returnAmount a == returnAmount b)%Q.

Module Calc.
Import JS.
Local Open Scope Q_scope.

(** [Math.round(v * 100) / 100]. *)
Definition round_cents (v : Q) : Q := inject_Z (Math_round (v * 100)) / 100.

(** [calculateCommission(totalReceived, commissionPercent, gstRate)].
    The defaults [commissionPercent = 1] and [gstRate = 18] apply only to an
    omitted argument; every call site passes all three. *)
Definition calculateCommission (totalReceived commissionPercent gstRate : Q)
  : Error + Calculations :=
  if Qle_bool totalReceived 0 then
    inl (InvalidInput "Total received amount must be greater than 0")
  else if Qlt_bool commissionPercent 0 || Qlt_bool 100 commissionPercent then
    inl (InvalidInput "Commission percentage must be between 0 and 100")
  else if Qlt_bool gstRate 0 || Qlt_bool 100 gstRate then
    inl (InvalidInput "GST rate must be between 0 and 100")
  else
    let commissionAmount := (totalReceived * commissionPercent) / 100 in
    let gstAmount := (commissionAmount * gstRate) / 100 in
    let netIncome := commissionAmount - gstAmount in
    let returnAmount := totalReceived - commissionAmount in
    inr {| commissionAmount := round_cents commissionAmount;
           gstAmount := round_cents gstAmount;
           netIncome := round_cents netIncome;
           returnAmount := round_cents returnAmount |}.

(** [validateCalculations(totalReceived, calculations)]. *)
Definition validateCalculations (totalReceived : Q) (calculations : Calculations)
  : bool :=
  let sumCheck :=
    Qlt_bool (Math_abs ((commissionAmount calculations + returnAmount calculations)
                        - totalReceived)) (1 # 100) in
  let netCheck :=
    Qlt_bool (Math_abs ((commissionAmount calculations - gstAmount calculations)
                        - netIncome calculations)) (1 # 100) in
  sumCheck && netCheck.

(** The inputs [calculateCommission] accepts. *)
Definition valid_input (totalReceived commissionPercent gstRate : Q) : Prop :=
  0 < totalReceived /\ 0 <= commissionPercent <= 100 /\ 0 <= gstRate <= 100.

End Calc.

(* ===================================================================== *)
(** ** Numbers as the engine has them: IEEE 754 binary64 *)
(* ===================================================================== *)

Module Binary64.

Definition prec : Z := 53.
Definition emax : Z := 1024.

(** A JavaScript number: a signed zero, an infinity, [NaN], or
    [(-1)^s * m * 2^e]. *)
Definition Number : Type := spec_float.

(** The number an integer literal denotes. *)
Definition of_Z (z : Z) : Number := binary_normalize prec emax z 0 false.

(** [x * y], [x / y], [x + y] and [x - y], each rounded to nearest, ties to
    even. *)
Definition mul : Number -> Number -> Number := SFmul prec emax.
Definition div : Number -> Number -> Number := SFdiv prec emax.
Definition add : Number -> Number -> Number := SFadd prec emax.
Definition sub : Number -> Number -> Number := SFsub prec emax.

(** [Math.abs(x)]. *)
Definition abs : Number -> Number := SFabs.

(** [x < y], [x <= y] and [x === y] on numbers: false whenever an operand is
    [NaN]; the two zeros are equal. *)
Definition ltb : Number -> Number -> bool := SFltb.
Definition leb : Number -> Number -> bool := SFleb.
Definition eqb : Number -> Number -> bool := SFeqb.

Definition zero : Number := S754_zero false.
Definition hundred : Number := of_Z 100.

(** The number a decimal literal denotes: the binary64 number nearest to
    [n / d], for integers [n] and [d] below [2^53]. *)
Definition decimal (n d : Z) : Number := div (of_Z n) (of_Z d).

(** [!x] on a number: true for the zeros and for [NaN]. *)
Definition falsy (x : Number) : bool :=
  match x with
  | S754_zero _ | S754_nan => true
  | _ => false
  end.


(** A number below zero that is not an infinity. *)
Definition is_negative (x : Number) : bool :=
  match x with
  | S754_finite s _ _ => s
  | _ => false
  end.


(** [Math.round(x)]: [x] itself when it is an integer, a zero, an infinity
    or [NaN]; otherwise the integer nearest to [x], the upper one at a tie,
    and the zero of the sign of [x] when that integer is 0. *)
Definition Math_round (x : Number) : Number :=
  match x with
  | S754_finite s m e =>
      if (0 <=? e)%Z then x
      else
        let d := (2 ^ (- e))%Z in
        let n := if s then Z.neg m else Z.pos m in
        let k := ((2 * n + d) / (2 * d))%Z in
        if (k =? 0)%Z then S754_zero s else of_Z k
  | _ => x
  end.

(** Rounding to the nearest integer as the specification words it: a tie
    goes away from zero. *)
Definition round_half_away (x : Number) : Number :=
  match x with
  | S754_finite s m e =>
      if (0 <=? e)%Z then x
      else
        let d := (2 ^ (- e))%Z in
        let k := ((2 * Z.pos m + d) / (2 * d))%Z in
        if (k =? 0)%Z then S754_zero s else of_Z (if s then - k else k)
  | _ => x
  end.

End Binary64.

(* ===================================================================== *)
(** ** [calculateCommission.js] on binary64 numbers *)
(* ===================================================================== *)

Module Calc64.
Import Binary64.

Record Calculations : Type := mkCalculations {
  commissionAmount : Number;
  gstAmount : Number;
  netIncome : Number;
  returnAmount : Number
}.

(** [Math.round(v * 100) / 100]. *)
Definition round_cents (v : Number) : Number :=
  div (Math_round (mul v hundred)) hundred.

(** [calculateCommission(totalReceived, commissionPercent, gstRate)], with
    all three arguments given, as every call site gives them. *)
Definition calculateCommission (totalReceived commissionPercent gstRate : Number)
  : Error + Calculations :=
  if leb totalReceived zero then
    inl (InvalidInput "Total received amount must be greater than 0")
  else if ltb commissionPercent zero || ltb hundred commissionPercent then
    inl (InvalidInput "Commission percentage must be between 0 and 100")
  else if ltb gstRate zero || ltb hundred gstRate then
    inl (InvalidInput "GST rate must be between 0 and 100")
  else
    let commissionAmount := div (mul totalReceived commissionPercent) hundred in
    let gstAmount := div (mul commissionAmount gstRate) hundred in
    let netIncome := sub commissionAmount gstAmount in
    let returnAmount := sub totalReceived commissionAmount in
    inr {| commissionAmount := round_cents commissionAmount;
           gstAmount := round_cents gstAmount;
           netIncome := round_cents netIncome;
           returnAmount := round_cents returnAmount |}.

(** [validateCalculations(totalReceived, calculations)]. *)
Definition validateCalculations (totalReceived : Number) (calculations : Calculations)
  : bool :=
  let sumCheck :=
    ltb (abs (sub (add (commissionAmount calculations) (returnAmount calculations))
                  totalReceived)) (decimal 1 100) in
  let netCheck :=
    ltb (abs (sub (sub (commissionAmount calculations) (gstAmount calculations))
                  (netIncome calculations))) (decimal 1 100) in
  sumCheck && netCheck.

(** No guard of [calculateCommission] fires.  A comparison with [NaN] is
    false, so [NaN] passes every guard. *)
Definition valid_input (totalReceived commissionPercent gstRate : Number) : bool :=
  negb (leb totalReceived zero)
  && negb (ltb commissionPercent zero || ltb hundred commissionPercent)
  && negb (ltb gstRate zero || ltb hundred gstRate).

(** The rounding rule written from the specification's words: to two
    decimals, half away from zero. *)
Definition round2 (x : Number) : Number :=
  div (round_half_away (mul x hundred)) hundred.

(** The calculation rule as the specification words it: every step starts
    from the already rounded result of the step before. *)
Definition calculateCommission_per_step (totalReceived commissionPercent gstRate : Number)
  : Calculations :=
  let commissionAmount := round2 (div (mul totalReceived commissionPercent) hundred) in
  let gstAmount := round2 (div (mul commissionAmount gstRate) hundred) in
  let netIncome := round2 (sub commissionAmount gstAmount) in
  let returnAmount := round2 (sub totalReceived commissionAmount) in
  {| commissionAmount := commissionAmount; gstAmount := gstAmount;
     netIncome := netIncome; returnAmount := returnAmount |}.

(** The specification's rounding rule applied once to each field, from the
    unrounded intermediates. *)
Definition calculateCommission_end_rounded (totalReceived commissionPercent gstRate : Number)
  : Calculations :=
  let commissionAmount := div (mul totalReceived commissionPercent) hundred in
  let gstAmount := div (mul commissionAmount gstRate) hundred in
  {| commissionAmount := round2 commissionAmount;
     gstAmount := round2 gstAmount;
     netIncome := round2 (sub commissionAmount gstAmount);
     returnAmount := round2 (sub totalReceived commissionAmount) |}.

End Calc64.


(* ===================================================================== *)
(** ** Strings: [String(n)], [padStart], [slice] and the schema patterns *)
(* ===================================================================== *)

Module JSString.

Definition digit_char (d : N) : ascii := ascii_of_N (48 + d).

Definition is_digit (c : ascii) : bool :=
  ((48 <=? N_of_ascii c) && (N_of_ascii c <=? 57))%N.

(** Decimal digits of [n], most significant first, in front of [acc];
    [fuel] bounds the number of digits after the first. *)
Fixpoint decimal_aux (fuel : nat) (n : N) (acc : string) : string :=
  let acc' := String (digit_char (n mod 10)) acc in
  match fuel with
  | O => acc'
  | S fuel' => if (n <? 10)%N then acc' else decimal_aux fuel' (n / 10) acc'
  end.

(** [String(n)] for a natural number. *)
Definition String_of_N (n : N) : string :=
  decimal_aux (N.to_nat (N.log2 n)) n "".

(** [String(z)] for an integer. *)
Definition String_of_Z (z : Z) : string :=
  if (z <? 0)%Z then "-" +:+ String_of_N (Z.to_N (- z))
  else String_of_N (Z.to_N z).

Fixpoint repeat_char (c : ascii) (n : nat) : string :=
  match n with
  | O => ""
  | S n' => String c (repeat_char c n')
  end.

(** [s.padStart(targetLength, pad)] for a one-character [pad]: nothing is
    added, and nothing removed, once [s] is long enough. *)
Definition padStart (targetLength : nat) (pad : ascii) (s : string) : string :=
  repeat_char pad (targetLength - String.length s) +:+ s.

(** [s.slice(-k)]: the last [k] characters, all of [s] when it is shorter. *)
Definition slice_last (k : nat) (s : string) : string :=
  substring (String.length s - k) k s.

Fixpoint all_digits (s : string) : bool :=
  match s with
  | EmptyString => true
  | String c s' => is_digit c && all_digits s'
  end.

(** [s] without its prefix [p], when it has it: the literal head of an
    anchored pattern. *)
Fixpoint strip_prefix (p s : string) : option string :=
  match p with
  | EmptyString => Some s
  | String a p' =>
      match s with
      | String b s' => if Ascii.eqb a b then strip_prefix p' s' else None
      | EmptyString => None
      end
  end.

(** [/^FY\d{2}$/.test(s)] *)
Definition test_FY (s : string) : bool :=
  match strip_prefix "FY" s with
  | Some rest => (String.length rest =? 2)%nat && all_digits rest
  | None => false
  end.

(** [/^INV-FY\d{2}-\d{5}$/.test(s)] *)
Definition test_invoiceNumber (s : string) : bool :=
  match strip_prefix "INV-FY" s with
  | Some rest =>
      (String.length rest =? 8)%nat
      && all_digits (substring 0 2 rest)
      && String.eqb (substring 2 1 rest) "-"
      && all_digits (substring 3 5 rest)
  | None => false
  end.

(** [/^FY\d{2}-\d{2}$/.test(s)] *)
Definition test_filingPeriod (s : string) : bool :=
  match strip_prefix "FY" s with
  | Some rest =>
      (String.length rest =? 5)%nat
      && all_digits (substring 0 2 rest)
      && String.eqb (substring 2 1 rest) "-"
      && all_digits (substring 3 2 rest)
  | None => false
  end.

(** The white space [String.prototype.trim] removes, among the code units
    below 256: tab, line feed, vertical tab, form feed, carriage return,
    space and no-break space. *)
Definition is_blank (c : ascii) : bool :=
  let n := N_of_ascii c in
  ((n =? 32) || ((9 <=? n) && (n <=? 13)) || (n =? 160))%N.

Fixpoint trim_start (s : string) : string :=
  match s with
  | String c s' => if is_blank c then trim_start s' else s
  | EmptyString => EmptyString
  end.

Fixpoint trim_end (s : string) : string :=
  match s with
  | String c s' =>
      match trim_end s' with
      | EmptyString => if is_blank c then EmptyString else String c EmptyString
      | rest => String c rest
      end
  | EmptyString => EmptyString
  end.

(** [s.trim()], which the [trim: true] of a schema path applies to the
    value it is given, on save and on [findOneAndUpdate] alike. *)
Definition trim (s : string) : string := trim_end (trim_start s).

End JSString.


(* ===================================================================== *)
(** ** Dates *)
(* ===================================================================== *)

Module Date.

(** A [Date], by the local calendar fields its getters return:
    [getMonth] is the month index, 0 for January. *)
Record t : Type := mk {
  getFullYear : Z;
  getMonth : Z;
  getDate : Z
}.

(** [new Date(year, monthIndex, 1)]: a year from 0 to 99 means 1900 + year,
    and a month index outside 0..11 carries into the year. *)
Definition first_of_month (year monthIndex : Z) : t :=
  let y := if (0 <=? year)%Z && (year <=? 99)%Z then (1900 + year)%Z else year in
  {| getFullYear := (y + monthIndex / 12)%Z;
     getMonth := (monthIndex mod 12)%Z;
     getDate := 1 |}.

End Date.

(* ===================================================================== *)
(** ** [backend/models/Transaction.model.js] *)
(* ===================================================================== *)

Module Transaction.
Import JS JSString.

Record t : Type := mk {
  _id : N;
  date : Date.t;
  totalReceived : Q;
  commissionPercent : Q;
  commissionAmount : Q;
  gstAmount : Q;
  netIncome : Q;
  returnAmount : Q;
  paymentMode : string;
  createdBy : N;
  remarks : string;
  invoiceNumber : option string;
  financialYear : option string
}.

(** The [match] validator of a string path: an absent value passes. *)
Definition matches (test : string -> bool) (v : option string) : bool :=
  match v with
  | Some s => test s
  | None => true
  end.

(** The paths of a document that fail the schema's validators ([min],
    [max], [enum], [maxlength], [match]); [remarks] arrives trimmed. *)
Definition validate (doc : t) : list string :=
  (if Qle_bool (1 # 100) (totalReceived doc) then [] else ["totalReceived"])
  ++ (if Qle_bool 0 (commissionPercent doc) && Qle_bool (commissionPercent doc) 100
      then [] else ["commissionPercent"])
  ++ (if Qle_bool 0 (commissionAmount doc) then [] else ["commissionAmount"])
  ++ (if Qle_bool 0 (gstAmount doc) then [] else ["gstAmount"])
  ++ (if Qle_bool 0 (returnAmount doc) then [] else ["returnAmount"])
  ++ (if String.eqb (paymentMode doc) "QR" then [] else ["paymentMode"])
  ++ (if (String.length (remarks doc) <=? 500)%nat then [] else ["remarks"])
  ++ (if matches test_invoiceNumber (invoiceNumber doc) then [] else ["invoiceNumber"])
  ++ (if matches test_FY (financialYear doc) then [] else ["financialYear"]).

(** The unique sparse index on [invoiceNumber]. *)
Definition invoiceNumber_taken (v : option string) (collection : list t) : bool :=
  match v with
  | Some s =>
      existsb (fun tx => match invoiceNumber tx with
                         | Some s' => String.eqb s s'
                         | None => false
                         end) collection
  | None => false
  end.

Definition findById (id : N) (collection : list t) : option t :=
  List.find (fun tx => (_id tx =? id)%N) collection.

(** [Transaction.create(doc)]: validate, check the unique index, insert with
    the fresh id [id]. *)
Definition create (id : N) (doc : t) (collection : list t) : Error + (t * list t) :=
  match validate doc with
  | [] =>
      if invoiceNumber_taken (invoiceNumber doc) collection then
        inl (DuplicateKey "invoiceNumber")
      else
        let tx := {| _id := id; date := date doc;
                     totalReceived := totalReceived doc;
                     commissionPercent := commissionPercent doc;
                     commissionAmount := commissionAmount doc;
                     gstAmount := gstAmount doc;
                     netIncome := netIncome doc;
                     returnAmount := returnAmount doc;
                     paymentMode := paymentMode doc;
                     createdBy := createdBy doc;
                     remarks := remarks doc;
                     invoiceNumber := invoiceNumber doc;
                     financialYear := financialYear doc |} in
        inr (tx, collection ++ [tx])
  | paths => inl (ValidationError paths)
  end.

(** [transaction.save()]: validate and replace the stored document. *)
Definition save (tx : t) (collection : list t) : Error + list t :=
  match validate tx with
  | [] => inr (map (fun old => if (_id old =? _id tx)%N then tx else old) collection)
  | paths => inl (ValidationError paths)
  end.

(** [Transaction.findByIdAndDelete(id)]. *)
Definition findByIdAndDelete (id : N) (collection : list t) : list t :=
  match findById id collection with
  | Some _ =>
      (fix remove_first (l : list t) : list t :=
         match l with
         | [] => []
         | tx :: l' => if (_id tx =? id)%N then l' else tx :: remove_first l'
         end) collection
  | None => collection
  end.

End Transaction.

(* ===================================================================== *)
(** ** [gstValidation.js] (first file of [backend/utils/gstValidation.js]) *)
(* ===================================================================== *)

Module GstValidation.
Import JS.
Local Open Scope Q_scope.

Record ValidationResult : Type := {
  isValid : bool;
  errors : list string
}.

(** [validateTransactionForGST(transaction)], on the three fields it
    reads. *)
Definition validateTransactionForGST (commissionAmount gstAmount totalReceived : Q)
  : ValidationResult :=
  let errors :=
    (if falsy commissionAmount || Qle_bool commissionAmount 0
     then ["Commission amount must be positive for GST reporting"%string] else [])
    ++ (if falsy gstAmount || Qle_bool gstAmount 0
        then ["GST amount must be positive for GST reporting"%string] else [])
    ++ (if Qeq_bool totalReceived commissionAmount
        then ["Total received cannot equal commission amount - verify calculation"%string]
        else []) in
  {| isValid := (length errors =? 0)%nat; errors := errors |}.

(** An entry of [errors] or [warnings] in [validateGSTCompliance]; a
    warning has no [field].  The message text, which prints the numbers, is
    left out. *)
Record Finding : Type := {
  transactionIndex : nat;
  transactionId : N;
  field : option string
}.

Record ComplianceResult : Type := {
  compliant : bool;
  findings : list Finding;
  warnings : list Finding;
  totalTransactions : Z;
  validTransactions : Z;
  errorCount : Z;
  warningCount : Z
}.

Definition finding (index : nat) (tx : Transaction.t) (f : string) : Finding :=
  {| transactionIndex := index; transactionId := Transaction._id tx; field := Some f |}.

(** The errors one pass of the [forEach] body pushes. *)
Definition errors_of (index : nat) (transaction : Transaction.t) : list Finding :=
  let commissionAmount := Transaction.commissionAmount transaction in
  let gstAmount := Transaction.gstAmount transaction in
  let expectedGST := commissionAmount * (18 # 100) in
  let gstDifference := Math_abs (gstAmount - expectedGST) in
  let expectedNetIncome := commissionAmount - gstAmount in
  let netIncomeDifference :=
    Math_abs (Transaction.netIncome transaction - expectedNetIncome) in
  let expectedReturn := Transaction.totalReceived transaction - commissionAmount in
  let returnDifference :=
    Math_abs (Transaction.returnAmount transaction - expectedReturn) in
  (if falsy commissionAmount || Qle_bool commissionAmount 0
   then [finding index transaction "commissionAmount"] else [])
  ++ (if Qlt_bool (1 # 100) gstDifference
      then [finding index transaction "gstAmount"] else [])
  ++ (if Qlt_bool (1 # 100) netIncomeDifference
      then [finding index transaction "netIncome"] else [])
  ++ (if Qlt_bool (1 # 100) returnDifference
      then [finding index transaction "returnAmount"] else []).

(** The warnings one pass of the [forEach] body pushes. *)
Definition warnings_of (index : nat) (transaction : Transaction.t) : list Finding :=
  if Qlt_bool (Math_abs (Transaction.totalReceived transaction
                         - Transaction.commissionAmount transaction)) (1 # 100)
  then [{| transactionIndex := index;
           transactionId := Transaction._id transaction;
           field := None |}]
  else [].

(** [validateGSTCompliance(transactions)]; [compliant] is the result's
    [isValid] and [findings] its [errors]. *)
Definition validateGSTCompliance (transactions : list Transaction.t) : ComplianceResult :=
  let errors := concat (imap errors_of transactions) in
  let warnings := concat (imap warnings_of transactions) in
  {| compliant := (length errors =? 0)%nat;
     findings := errors;
     warnings := warnings;
     totalTransactions := Z.of_nat (length transactions);
     validTransactions := (Z.of_nat (length transactions) - Z.of_nat (length errors))%Z;
     errorCount := Z.of_nat (length errors);
     warningCount := Z.of_nat (length warnings) |}.

End GstValidation.

(* ===================================================================== *)
(** ** [validateGSTCompliance] on binary64 numbers *)
(* ===================================================================== *)

Module Compliance64.
Import Binary64 GstValidation.

(** The fields of a stored transaction [validateGSTCompliance] reads. *)
Record Document : Type := {
  _id : N;
  totalReceived : Number;
  commissionAmount : Number;
  gstAmount : Number;
  netIncome : Number;
  returnAmount : Number
}.

Definition finding (index : nat) (tx : Document) (f : string) : Finding :=
  {| transactionIndex := index; transactionId := _id tx; field := Some f |}.

(** The errors one pass of the [forEach] body pushes.  A difference that is
    [NaN] is not above 0.01. *)
Definition errors_of (index : nat) (transaction : Document) : list Finding :=
  let expectedGST := mul (commissionAmount transaction) (decimal 18 100) in
  let gstDifference := abs (sub (gstAmount transaction) expectedGST) in
  let expectedNetIncome := sub (commissionAmount transaction) (gstAmount transaction) in
  let netIncomeDifference := abs (sub (netIncome transaction) expectedNetIncome) in
  let expectedReturn := sub (totalReceived transaction) (commissionAmount transaction) in
  let returnDifference := abs (sub (returnAmount transaction) expectedReturn) in
  (if falsy (commissionAmount transaction) || leb (commissionAmount transaction) zero
   then [finding index transaction "commissionAmount"] else [])
  ++ (if ltb (decimal 1 100) gstDifference
      then [finding index transaction "gstAmount"] else [])
  ++ (if ltb (decimal 1 100) netIncomeDifference
      then [finding index transaction "netIncome"] else [])
  ++ (if ltb (decimal 1 100) returnDifference
      then [finding index transaction "returnAmount"] else []).

(** The warnings one pass of the [forEach] body pushes. *)
Definition warnings_of (index : nat) (transaction : Document) : list Finding :=
  if ltb (abs (sub (totalReceived transaction) (commissionAmount transaction)))
         (decimal 1 100)
  then [{| transactionIndex := index; transactionId := _id transaction; field := None |}]
  else [].

(** [validateGSTCompliance(transactions)]; [compliant] is the result's
    [isValid] and [findings] its [errors]. *)
Definition validateGSTCompliance (transactions : list Document) : ComplianceResult :=
  let errors := concat (imap errors_of transactions) in
  let warnings := concat (imap warnings_of transactions) in
  {| compliant := (length errors =? 0)%nat;
     findings := errors;
     warnings := warnings;
     totalTransactions := Z.of_nat (length transactions);
     validTransactions := (Z.of_nat (length transactions) - Z.of_nat (length errors))%Z;
     errorCount := Z.of_nat (length errors);
     warningCount := Z.of_nat (length warnings) |}.

(** Rules 1, 2, 4 and 5 as the comments of [validateGSTCompliance] state
    them: a positive commission, and no difference above 0.01 between the
    GST and 18% of the commission, between the net income and commission
    minus GST, and between the return amount and total minus commission. *)
Definition rules_hold (tx : Document) : bool :=
  ltb zero (commissionAmount tx)
  && negb (ltb (decimal 1 100)
               (abs (sub (gstAmount tx) (mul (commissionAmount tx) (decimal 18 100)))))
  && negb (ltb (decimal 1 100)
               (abs (sub (netIncome tx) (sub (commissionAmount tx) (gstAmount tx)))))
  && negb (ltb (decimal 1 100)
               (abs (sub (returnAmount tx) (sub (totalReceived tx) (commissionAmount tx))))).

(** The transactions of a batch that raise no error. *)
Definition error_free (txs : list Document) : list Document :=
  List.filter (fun tx => match errors_of 0 tx with [] => true | _ => false end) txs.

End Compliance64.

(* ===================================================================== *)
(** ** [backend/models/InvoiceNumber.model.js], [utils/invoiceNumber.js] *)
(* ===================================================================== *)

Module InvoiceNumber.
Import JSString.

(** A document of the collection; [financialYear], its unique key, is the
    key of the map that holds it. *)
Record t : Type := mk {
  lastSequenceNumber : Z;
  prefix : string
}.

(** [getFinancialYear(date)]. *)
Definition getFinancialYear (date : Date.t) : string :=
  let year := Date.getFullYear date in
  let month := (Date.getMonth date + 1)%Z in
  let financialYear := if (4 <=? month)%Z then year else (year - 1)%Z in
  let fyShort := slice_last 2 (String_of_Z financialYear) in
  "FY" +:+ fyShort.

(** The template string of [getNextInvoiceNumber]. *)
Definition format (prefix financialYear : string) (lastSequenceNumber : Z) : string :=
  let sequence := padStart 5 "0" (String_of_Z lastSequenceNumber) in
  prefix +:+ "-" +:+ financialYear +:+ "-" +:+ sequence.

(** [getNextInvoiceNumber(financialYear)]: [findOneAndUpdate] with [$inc],
    [upsert] and [new]: one atomic step that creates the series at 1 (with
    the schema default of [prefix]) or adds one, and returns the updated
    document. *)
Definition getNextInvoiceNumber (financialYear : string) (collection : gmap string t)
  : string * gmap string t :=
  let invoiceSeries :=
    match collection !! financialYear with
    | Some series => {| lastSequenceNumber := (lastSequenceNumber series + 1)%Z;
                        prefix := prefix series |}
    | None => {| lastSequenceNumber := 1; prefix := "INV" |}
    end in
  (format (prefix invoiceSeries) financialYear (lastSequenceNumber invoiceSeries),
   <[financialYear := invoiceSeries]> collection).

(** The counter of the fiscal year after one more [$inc]: what
    [getNextInvoiceNumber] stores and formats. *)
Definition counter_after (financialYear : string) (collection : gmap string t) : Z :=
  match collection !! financialYear with
  | Some series => (lastSequenceNumber series + 1)%Z
  | None => 1%Z
  end.

(** [generateInvoiceNumber(date)]. *)
Definition generateInvoiceNumber (date : Date.t) (collection : gmap string t)
  : string * gmap string t :=
  let financialYear := getFinancialYear date in
  getNextInvoiceNumber financialYear collection.

(** [validateInvoiceNumber(invoiceNumber)]. *)
Definition validateInvoiceNumber (invoiceNumber : string) : bool :=
  test_invoiceNumber invoiceNumber.

End InvoiceNumber.

(* ===================================================================== *)
(** ** [backend/models/GSTFilingLock.model.js] *)
(* ===================================================================== *)

Module GSTFilingLock.
Import JSString.

Record t : Type := mk {
  _id : N;
  financialYear : string;
  month : Z;
  year : Z;
  lockedAt : Z;
  lockedBy : N;
  filingPeriod : string;
  gstr1FilingDate : option Date.t;
  gstr3BFilingDate : option Date.t;
  remarks : string;
  isLocked : bool
}.

(** The [options] argument of [lockMonth]. *)
Record Options : Type := {
  opt_gstr1FilingDate : option Date.t;
  opt_gstr3BFilingDate : option Date.t;
  opt_remarks : option string
}.

(** The collection, keyed as its compound unique index
    [(financialYear, month, year)]. *)
Abbreviation Collection := (gmap (string * Z * Z) t).

(** [isDateLocked(date)]: is there a document for the date's period with
    [isLocked: true]? *)
Definition isDateLocked (date : Date.t) (collection : Collection) : bool :=
  let transactionDate := date in
  let year := Date.getFullYear transactionDate in
  let month := (Date.getMonth transactionDate + 1)%Z in
  let financialYear := InvoiceNumber.getFinancialYear transactionDate in
  match collection !! (financialYear, month, year) with
  | Some lock => isLocked lock
  | None => false
  end.

(** The unique index on [filingPeriod], checked when a document is
    inserted. *)
Definition filingPeriod_taken (period : string) (collection : Collection) : bool :=
  existsb (fun entry => String.eqb (filingPeriod (snd entry)) period)
          (map_to_list collection).

(** [lockMonth(month, year, lockedBy, options)]: an upsert on the period's
    key that sets every field; [now] is the clock and [id] the id of a
    document created by the upsert.  The update is cast by the schema:
    [remarks], [options.remarks || ''], is stored trimmed. *)
Definition lockMonth (month year : Z) (lockedBy : N) (options : Options)
    (now : Z) (id : N) (collection : Collection) : Error + (t * Collection) :=
  let transactionDate := Date.first_of_month year (month - 1) in
  let financialYear := InvoiceNumber.getFinancialYear transactionDate in
  let filingPeriod := financialYear +:+ "-" +:+ padStart 2 "0" (String_of_Z month) in
  let fields (id' : N) :=
    {| _id := id';
       financialYear := financialYear;
       month := month;
       year := year;
       lockedBy := lockedBy;
       filingPeriod := filingPeriod;
       isLocked := true;
       lockedAt := now;
       gstr1FilingDate := opt_gstr1FilingDate options;
       gstr3BFilingDate := opt_gstr3BFilingDate options;
       remarks := trim (default "" (opt_remarks options)) |} in
  match collection !! (financialYear, month, year) with
  | Some old =>
      let lock := fields (_id old) in
      inr (lock, <[(financialYear, month, year) := lock]> collection)
  | None =>
      if filingPeriod_taken filingPeriod collection then
        inl (DuplicateKey "filingPeriod")
      else
        let lock := fields id in
        inr (lock, <[(financialYear, month, year) := lock]> collection)
  end.

(** [unlockMonth(month, year)]: clears [isLocked] on the period's document
    and returns it, or [null] when there is none. *)
Definition unlockMonth (month year : Z) (collection : Collection)
  : option t * Collection :=
  let transactionDate := Date.first_of_month year (month - 1) in
  let financialYear := InvoiceNumber.getFinancialYear transactionDate in
  match collection !! (financialYear, month, year) with
  | Some old =>
      let lock :=
        match old with
        | mk id fy m y at_ by_ period gstr1 gstr3b rem _ =>
            mk id fy m y at_ by_ period gstr1 gstr3b rem false
        end in
      (Some lock, <[(financialYear, month, year) := lock]> collection)
  | None => (None, collection)
  end.

End GSTFilingLock.

(* ===================================================================== *)
(** ** [backend/models/GSTAuditLog.model.js] *)
(* ===================================================================== *)

Module GSTAuditLog.

(** The fields of an entry the handlers below set; the free-form [details]
    payload, the address and the user agent are left out. *)
Record t : Type := mk {
  action : string;
  performedBy : N;
  entityType : string;
  entityId : option N;
  status : string;
  errorMessage : option string
}.

(** [createLog(logData)]: append one entry. *)
Definition createLog (logData : t) (collection : list t) : list t :=
  collection ++ [logData].

End GSTAuditLog.

(* ===================================================================== *)
(** ** The store, requests and responses *)
(* ===================================================================== *)

(** The four collections, and the source of fresh document ids. *)
Record Store : Type := mkStore {
  invoiceNumbers : gmap string InvoiceNumber.t;
  filingLocks : gmap (string * Z * Z) GSTFilingLock.t;
  transactions : list Transaction.t;
  auditLogs : list GSTAuditLog.t;
  nextId : N
}.

(** [process.env], parsed: [None] is a variable that is unset or does not
    parse as a number ([parseFloat] gives [NaN]). *)
Record Env : Type := {
  DEFAULT_COMMISSION_PERCENT : option Q;
  GST_RATE : option Q
}.

(** The body of a transaction request. *)
Record Body : Type := {
  date : option Date.t;
  totalReceived : option Q;
  commissionPercent : option Q;
  paymentMode : option string;
  remarks : option string
}.

Record Request : Type := {
  params_id : option N;
  body : Body;
  user : N;
  method : string
}.

Inductive Payload : Type :=
| NoData
| TransactionData (transaction : Transaction.t)
| LockData (lock : GSTFilingLock.t)
| Errors (errors : list string)
| Code (code : string).

(** What a handler answers: [res.status(status).json({success, message, ...})],
    or [next(err)], which hands the error to the error middleware. *)
Inductive Response : Type :=
| Json (status : Z) (success : bool) (message : string) (payload : Payload)
| Next (err : Error).

(* ===================================================================== *)
(** ** [middleware/filingLock.middleware.js] ([unnamed/part_002]) *)
(* ===================================================================== *)

Module FilingLockMiddleware.
Import JSString.

(** [date.toLocaleString('en-US', { month: 'long' })]. *)
Definition month_long (date : Date.t) : string :=
  match Date.getMonth date with
  | 0 => "January" | 1 => "February" | 2 => "March" | 3 => "April"
  | 4 => "May" | 5 => "June" | 6 => "July" | 7 => "August"
  | 8 => "September" | 9 => "October" | 10 => "November" | _ => "December"
  end%Z.

(** [checkFilingLock(req, res, next)]: [None] is [next()].  [today] is the
    clock's date. *)
Definition checkFilingLock (today : Date.t) (req : Request) (st : Store)
  : option Response * Store :=
  let found :=
    match params_id req with
    | Some id =>
        match Transaction.findById id (transactions st) with
        | None => inl (Json 404 false "Transaction not found" NoData)
        | Some transaction => inr (Transaction.date transaction)
        end
    | None =>
        match date (body req) with
        | Some d => inr d
        | None => inr today
        end
    end in
  match found with
  | inl response => (Some response, st)
  | inr transactionDate =>
      let isLocked := GSTFilingLock.isDateLocked transactionDate (filingLocks st) in
      if isLocked then
        let month := month_long transactionDate in
        let year := String_of_Z (Date.getFullYear transactionDate) in
        let entry :=
          {| GSTAuditLog.action := "VALIDATION_FAILED";
             GSTAuditLog.performedBy := user req;
             GSTAuditLog.entityType := "TRANSACTION";
             GSTAuditLog.entityId := params_id req;
             GSTAuditLog.status := "FAILED";
             GSTAuditLog.errorMessage :=
               Some ("Transaction for " +:+ month +:+ " " +:+ year
                     +:+ " is locked due to GST filing") |} in
        (Some (Json 403 false
                 ("Transactions for " +:+ month +:+ " " +:+ year
                  +:+ " are locked due to GST filing. No modifications allowed.")
                 (Code "FILING_LOCKED")),
         mkStore (invoiceNumbers st) (filingLocks st) (transactions st)
                 (GSTAuditLog.createLog entry (auditLogs st)) (nextId st))
      else (None, st)
  end.

End FilingLockMiddleware.

(* ===================================================================== *)
(** ** [controllers/transaction.controller.js] ([unnamed/part_003]) *)
(* ===================================================================== *)

Module TransactionController.
Import JS JSString Calc GstValidation.

(** [parseFloat(process.env.GST_RATE) || 18]: [NaN] and [0] give 18. *)
Definition gstRate_of (env : Env) : Q :=
  match GST_RATE env with
  | Some g => if falsy g then 18 else g
  | None => 18
  end.

(** [commissionPercent ?? parseFloat(process.env.DEFAULT_COMMISSION_PERCENT) ?? 1]:
    [parseFloat] never gives [null] or [undefined], so the final [?? 1]
    is never taken; [None] is [NaN]. *)
Definition commissionPercentValue_of (env : Env) (b : Body) : option Q :=
  match commissionPercent b with
  | Some p => Some p
  | None => DEFAULT_COMMISSION_PERCENT env
  end.

(** [calculateCommission] followed by [validateCalculations] when
    [totalReceived] or [commissionPercent] is not a number ([None]): a
    comparison with [NaN] is false, so that argument passes its guard; the
    four results are [NaN] and [validateCalculations] answers [false].
    [inl] is the error thrown by a guard of the other arguments, [inr tt]
    the failed validation. *)
Definition calculate_not_a_number (totalReceived commissionPercent : option Q)
    (gstRate : Q) : Error + unit :=
  if match totalReceived with Some t => Qle_bool t 0 | None => false end then
    inl (InvalidInput "Total received amount must be greater than 0")
  else if match commissionPercent with
          | Some p => Qlt_bool p 0 || Qlt_bool 100 p
          | None => false
          end then
    inl (InvalidInput "Commission percentage must be between 0 and 100")
  else if Qlt_bool gstRate 0 || Qlt_bool 100 gstRate then
    inl (InvalidInput "GST rate must be between 0 and 100")
  else inr tt.

Definition with_invoiceNumbers (st : Store) (series : gmap string InvoiceNumber.t)
  : Store :=
  mkStore series (filingLocks st) (transactions st) (auditLogs st) (nextId st).

(** [createTransaction(req, res, next)]; [today] is [new Date()]. *)
Definition createTransaction (env : Env) (today : Date.t) (req : Request) (st : Store)
  : Response * Store :=
  let b := body req in
  let commissionPercentValue := commissionPercentValue_of env b in
  let gstRate := gstRate_of env in
  match totalReceived b, commissionPercentValue with
  | Some totalReceived, Some commissionPercentValue =>
      match calculateCommission totalReceived commissionPercentValue gstRate with
      | inl err => (Next err, st)
      | inr calculations =>
          if negb (validateCalculations totalReceived calculations) then
            (Json 400 false "Calculation validation failed" NoData, st)
          else
            let transactionDate := default today (date b) in
            let '(invoiceNumber, series) :=
              InvoiceNumber.generateInvoiceNumber transactionDate (invoiceNumbers st) in
            let st1 := with_invoiceNumbers st series in
            let financialYear := InvoiceNumber.getFinancialYear transactionDate in
            let gstValidation :=
              validateTransactionForGST (commissionAmount calculations)
                                        (gstAmount calculations) totalReceived in
            if negb (isValid gstValidation) then
              (Json 400 false "GST validation failed" (Errors (errors gstValidation)),
               st1)
            else
              let doc :=
                {| Transaction._id := nextId st;
                   Transaction.date := transactionDate;
                   Transaction.totalReceived := totalReceived;
                   Transaction.commissionPercent := commissionPercentValue;
                   Transaction.commissionAmount := commissionAmount calculations;
                   Transaction.gstAmount := gstAmount calculations;
                   Transaction.netIncome := netIncome calculations;
                   Transaction.returnAmount := returnAmount calculations;
                   Transaction.paymentMode :=
                     match paymentMode b with
                     | Some m => if String.eqb m "" then "QR" else m
                     | None => "QR"
                     end;
                   Transaction.createdBy := user req;
                   Transaction.remarks := trim (default "" (remarks b));
                   Transaction.invoiceNumber := Some invoiceNumber;
                   Transaction.financialYear := Some financialYear |} in
              match Transaction.create (nextId st) doc (transactions st) with
              | inl err => (Next err, st1)
              | inr (transaction, collection) =>
                  let entry :=
                    {| GSTAuditLog.action := "TRANSACTION_CREATED";
                       GSTAuditLog.performedBy := user req;
                       GSTAuditLog.entityType := "TRANSACTION";
                       GSTAuditLog.entityId := Some (Transaction._id transaction);
                       GSTAuditLog.status := "SUCCESS";
                       GSTAuditLog.errorMessage := None |} in
                  (Json 201 true "Transaction created successfully"
                        (TransactionData transaction),
                   mkStore series (filingLocks st) collection
                           (GSTAuditLog.createLog entry (auditLogs st))
                           (nextId st + 1)%N)
              end
      end
  | t, p =>
      match calculate_not_a_number t p gstRate with
      | inl err => (Next err, st)
      | inr _ => (Json 400 false "Calculation validation failed" NoData, st)
      end
  end.

End TransactionController.

(* ===================================================================== *)
(** ** [createTransaction] up to [Transaction.create], on binary64 numbers *)
(* ===================================================================== *)

Module Create64.
Import Binary64 Calc64.

(** A field of the request body as the handler receives it.  The route
    validation ([isFloat]) passes a JSON number and a string that reads as a
    number alike, and does not convert; [Str x] is a string that converts to
    the number [x].  Arithmetic and the comparisons [<], [<=] convert their
    operands, [===] does not. *)
Inductive Value : Type :=
| Num (x : Number)
| Str (x : Number)
| Undefined.

(** [ToNumber(v)]. *)
Definition ToNumber (v : Value) : Number :=
  match v with
  | Num x | Str x => x
  | Undefined => S754_nan
  end.

(** [v === y] for a number [y]. *)
Definition strict_equal (v : Value) (y : Number) : bool :=
  match v with
  | Num x => eqb x y
  | Str _ | Undefined => false
  end.

(** [process.env] as [parseFloat] reads it: [NaN] for a variable that is
    unset or does not start with a number. *)
Record Env : Type := {
  DEFAULT_COMMISSION_PERCENT : Number;
  GST_RATE : Number
}.

(** [commissionPercent ?? parseFloat(process.env.DEFAULT_COMMISSION_PERCENT) ?? 1]:
    [parseFloat] never gives [null] or [undefined], so the final [?? 1] is
    never taken. *)
Definition commissionPercentValue_of (env : Env) (commissionPercent : Value) : Value :=
  match commissionPercent with
  | Undefined => Num (DEFAULT_COMMISSION_PERCENT env)
  | v => v
  end.

(** [parseFloat(process.env.GST_RATE) || 18]. *)
Definition gstRate_of (env : Env) : Number :=
  if falsy (GST_RATE env) then of_Z 18 else GST_RATE env.

(** [validateTransactionForGST({commissionAmount, gstAmount, totalReceived})]:
    its [errors]. *)
Definition validateTransactionForGST (commissionAmount gstAmount : Number)
    (totalReceived : Value) : list string :=
  (if falsy commissionAmount || leb commissionAmount zero
   then ["Commission amount must be positive for GST reporting"%string] else [])
  ++ (if falsy gstAmount || leb gstAmount zero
      then ["GST amount must be positive for GST reporting"%string] else [])
  ++ (if strict_equal totalReceived commissionAmount
      then ["Total received cannot equal commission amount - verify calculation"%string]
      else []).

(** [createTransaction] from the request body to the call of
    [Transaction.create]: the response that ends the request before anything
    is stored, or the calculations handed to [Transaction.create].  The
    invoice number taken between the two validations has no part in the
    decision. *)
Definition createTransaction_validated (env : Env) (totalReceived commissionPercent : Value)
  : Response + Calculations :=
  let commissionPercentValue := commissionPercentValue_of env commissionPercent in
  let gstRate := gstRate_of env in
  match calculateCommission (ToNumber totalReceived) (ToNumber commissionPercentValue)
                            gstRate with
  | inl err => inl (Next err)
  | inr calculations =>
      if negb (validateCalculations (ToNumber totalReceived) calculations) then
        inl (Json 400 false "Calculation validation failed" NoData)
      else
        let errors :=
          validateTransactionForGST (commissionAmount calculations)
                                    (gstAmount calculations) totalReceived in
        if negb (length errors =? 0)%nat then
          inl (Json 400 false "GST validation failed" (Errors errors))
        else inr calculations
  end.

(** The environment with both variables unset. *)
Definition unset : Env :=
  {| DEFAULT_COMMISSION_PERCENT := S754_nan; GST_RATE := S754_nan |}.

End Create64.

Module TransactionUpdates.
Import JS JSString Calc TransactionController.

(** [updateTransaction(req, res, next)]. *)
Definition updateTransaction (env : Env) (req : Request) (st : Store)
  : Response * Store :=
  match params_id req with
  | None => (Json 404 false "Not found" NoData, st)
  | Some id =>
      match Transaction.findById id (transactions st) with
      | None => (Json 404 false "Not found" NoData, st)
      | Some transaction =>
          let b := body req in
          let total := default (Transaction.totalReceived transaction) (totalReceived b) in
          let percent :=
            default (Transaction.commissionPercent transaction) (commissionPercent b) in
          let gstRate := gstRate_of env in
          match calculateCommission total percent gstRate with
          | inl err => (Next err, st)
          | inr calculations =>
              let updated :=
                {| Transaction._id := Transaction._id transaction;
                   Transaction.date := default (Transaction.date transaction) (date b);
                   Transaction.totalReceived := total;
                   Transaction.commissionPercent := percent;
                   Transaction.commissionAmount := commissionAmount calculations;
                   Transaction.gstAmount := gstAmount calculations;
                   Transaction.netIncome := netIncome calculations;
                   Transaction.returnAmount := returnAmount calculations;
                   Transaction.paymentMode :=
                     default (Transaction.paymentMode transaction) (paymentMode b);
                   Transaction.createdBy := Transaction.createdBy transaction;
                   Transaction.remarks :=
                     trim (default (Transaction.remarks transaction) (remarks b));
                   Transaction.invoiceNumber := Transaction.invoiceNumber transaction;
                   Transaction.financialYear := Transaction.financialYear transaction |} in
              match Transaction.save updated (transactions st) with
              | inl err => (Next err, st)
              | inr collection =>
                  let entry :=
                    {| GSTAuditLog.action := "TRANSACTION_UPDATED";
                       GSTAuditLog.performedBy := user req;
                       GSTAuditLog.entityType := "TRANSACTION";
                       GSTAuditLog.entityId := Some (Transaction._id updated);
                       GSTAuditLog.status := "SUCCESS";
                       GSTAuditLog.errorMessage := None |} in
                  (Json 200 true "" (TransactionData updated),
                   mkStore (invoiceNumbers st) (filingLocks st) collection
                           (GSTAuditLog.createLog entry (auditLogs st)) (nextId st))
              end
          end
      end
  end.

(** [deleteTransaction(req, res, next)]. *)
Definition deleteTransaction (req : Request) (st : Store) : Response * Store :=
  let collection :=
    match params_id req with
    | Some id => Transaction.findByIdAndDelete id (transactions st)
    | None => transactions st
    end in
  (Json 200 true "Deleted" NoData,
   mkStore (invoiceNumbers st) (filingLocks st) collection (auditLogs st) (nextId st)).

End TransactionUpdates.

(* ===================================================================== *)
(** ** [routes/transaction.routes.js] ([unnamed/part_005]) *)
(* ===================================================================== *)

Module TransactionRoutes.
Import JS TransactionController TransactionUpdates FilingLockMiddleware.

(** The rule list [transactionValidation] of the router: [totalReceived]
    is required, the other fields optional. *)
Definition transactionValidation (b : Body) : bool :=
  match totalReceived b with
  | Some t => Qle_bool (1 # 100) t
  | None => false
  end
  && match commissionPercent b with
     | Some p => Qle_bool 0 p && Qle_bool p 100
     | None => true
     end
  && match paymentMode b with
     | Some m => String.eqb m "QR"
     | None => true
     end
  && match remarks b with
     | Some r => (String.length r <=? 500)%nat
     | None => true
     end.

Section Router.

(** The answer of [validateRequest] (in [validate.middleware.js], which is
    not among the sources) to a request that breaks a rule. *)
Variable rejected : Response.

Variable env : Env.
Variable today : Date.t.

(** [transactionValidation, validateRequest] as one middleware. *)
Definition validateRequest (req : Request) (st : Store) : option Response * Store :=
  if transactionValidation (body req) then (None, st) else (Some rejected, st).

(** A route: the middlewares in order, then the handler. *)
Fixpoint route (middlewares : list (Request -> Store -> option Response * Store))
    (handler : Request -> Store -> Response * Store)
    (req : Request) (st : Store) : Response * Store :=
  match middlewares with
  | [] => handler req st
  | m :: rest =>
      match m req st with
      | (Some response, st') => (response, st')
      | (None, st') => route rest handler req st'
      end
  end.

(** [router.post('/', transactionValidation, validateRequest, createTransaction)] *)
Definition post_transaction : Request -> Store -> Response * Store :=
  route [validateRequest] (createTransaction env today).

(** [router.put('/:id', checkFilingLock, transactionValidation,
                validateRequest, updateTransaction)] *)
Definition put_transaction : Request -> Store -> Response * Store :=
  route [checkFilingLock today; validateRequest] (updateTransaction env).

(** [router.delete('/:id', checkFilingLock, deleteTransaction)] *)
Definition delete_transaction : Request -> Store -> Response * Store :=
  route [checkFilingLock today] deleteTransaction.

End Router.

End TransactionRoutes.

(* ===================================================================== *)
(** ** [backend/controllers/filingLock.controller.js] *)
(* ===================================================================== *)

Module FilingLockController.
Import JSString.

(** The body of [POST /api/v1/filing-locks]; [month] and [year] as the
    numbers [parseInt] reads from them. *)
Record LockRequest : Type := {
  lock_month : option Z;
  lock_year : option Z;
  lock_gstr1FilingDate : option Date.t;
  lock_gstr3BFilingDate : option Date.t;
  lock_remarks : option string;
  lock_user : N
}.

(** [!v] for an optional number: absent or zero. *)
Definition missing (v : option Z) : bool :=
  match v with
  | Some n => (n =? 0)%Z
  | None => true
  end.

(** [lockMonth(req, res, next)]; [now] is the clock. *)
Definition lockMonth (now : Z) (req : LockRequest) (st : Store) : Response * Store :=
  if missing (lock_month req) || missing (lock_year req) then
    (Json 400 false "Month and year are required" NoData, st)
  else
    let month := default 0%Z (lock_month req) in
    let year := default 0%Z (lock_year req) in
    let transactionDate := Date.first_of_month year (month - 1) in
    let isLocked := GSTFilingLock.isDateLocked transactionDate (filingLocks st) in
    if isLocked then
      (Json 400 false
            ("Month " +:+ String_of_Z month +:+ "/" +:+ String_of_Z year
             +:+ " is already locked") NoData,
       st)
    else
      let options :=
        {| GSTFilingLock.opt_gstr1FilingDate := lock_gstr1FilingDate req;
           GSTFilingLock.opt_gstr3BFilingDate := lock_gstr3BFilingDate req;
           GSTFilingLock.opt_remarks := Some (default "" (lock_remarks req)) |} in
      match GSTFilingLock.lockMonth month year (lock_user req) options now
                                    (nextId st) (filingLocks st) with
      | inl err => (Next err, st)
      | inr (lock, collection) =>
          let entry :=
            {| GSTAuditLog.action := "FILING_LOCKED";
               GSTAuditLog.performedBy := lock_user req;
               GSTAuditLog.entityType := "FILING_LOCK";
               GSTAuditLog.entityId := Some (GSTFilingLock._id lock);
               GSTAuditLog.status := "SUCCESS";
               GSTAuditLog.errorMessage := None |} in
          (Json 201 true
                ("Month " +:+ String_of_Z month +:+ "/" +:+ String_of_Z year
                 +:+ " locked successfully") (LockData lock),
           mkStore (invoiceNumbers st) collection (transactions st)
                   (GSTAuditLog.createLog entry (auditLogs st))
                   (nextId st + 1)%N)
      end.

End FilingLockController.

(* ===================================================================== *)
(** ** The ways [createTransaction] can end *)
(* ===================================================================== *)

Module CreateOutcome.
Import JS JSString Calc GstValidation TransactionController.

(** The document [createTransaction] hands to [Transaction.create]. *)
Definition document (today : Date.t) (req : Request) (st : Store)
    (t p : Q) (c : Calculations) : Transaction.t :=
  let transactionDate := default today (date (body req)) in
  {| Transaction._id := nextId st;
     Transaction.date := transactionDate;
     Transaction.totalReceived := t;
     Transaction.commissionPercent := p;
     Transaction.commissionAmount := commissionAmount c;
     Transaction.gstAmount := gstAmount c;
     Transaction.netIncome := netIncome c;
     Transaction.returnAmount := returnAmount c;
     Transaction.paymentMode :=
       match paymentMode (body req) with
       | Some m => if String.eqb m "" then "QR" else m
       | None => "QR"
       end;
     Transaction.createdBy := user req;
     Transaction.remarks := trim (default "" (remarks (body req)));
     Transaction.invoiceNumber :=
       Some (fst (InvoiceNumber.generateInvoiceNumber transactionDate
                    (invoiceNumbers st)));
     Transaction.financialYear :=
       Some (InvoiceNumber.getFinancialYear transactionDate) |}.

(** The store after the invoice number of the request has been taken. *)
Definition numbered (today : Date.t) (req : Request) (st : Store) : Store :=
  with_invoiceNumbers st
    (snd (InvoiceNumber.generateInvoiceNumber (default today (date (body req)))
            (invoiceNumbers st))).

Inductive Outcome (env : Env) (today : Date.t) (req : Request) (st : Store)
  : Response * Store -> Prop :=
| Thrown_before (m : string) :
    (* a guard of calculateCommission threw: nothing has happened *)
    Outcome env today req st (Next (InvalidInput m), st)
| Calculation_failed :
    Outcome env today req st
      (Json 400 false "Calculation validation failed" NoData, st)
| Gst_failed (t p : Q) (c : Calculations) :
    totalReceived (body req) = Some t ->
    commissionPercentValue_of env (body req) = Some p ->
    calculateCommission t p (gstRate_of env) = inr c ->
    isValid (validateTransactionForGST (commissionAmount c) (gstAmount c) t) = false ->
    Outcome env today req st
      (Json 400 false "GST validation failed"
         (Errors (errors (validateTransactionForGST (commissionAmount c)
                                                    (gstAmount c) t))),
       numbered today req st)
| Thrown_by_store (err : Error) :
    (forall m, err <> InvalidInput m) ->
    Outcome env today req st (Next err, numbered today req st)
| Created (t p : Q) (c : Calculations) (entry : GSTAuditLog.t) :
    totalReceived (body req) = Some t ->
    commissionPercentValue_of env (body req) = Some p ->
    calculateCommission t p (gstRate_of env) = inr c ->
    validateCalculations t c = true ->
    isValid (validateTransactionForGST (commissionAmount c) (gstAmount c) t) = true ->
    Transaction.validate (document today req st t p c) = [] ->
    Outcome env today req st
      (Json 201 true "Transaction created successfully"
         (TransactionData (document today req st t p c)),
       mkStore (invoiceNumbers (numbered today req st)) (filingLocks st)
               (transactions st ++ [document today req st t p c])
               (auditLogs st ++ [entry]) (nextId st + 1)%N).

(** A request is refused when no transaction is stored and the answer is
    not the 201 of a creation. *)
Definition refused (st : Store) (r : Response * Store) : Prop :=
  transactions (snd r) = transactions st /\
  forall tx, fst r <> Json 201 true "Transaction created successfully"
                                (TransactionData tx).

End CreateOutcome.

(* ===================================================================== *)
(** ** The fiscal year in the specification's words *)
(* ===================================================================== *)

Module FiscalYear.
Import JSString.

(** The year in which the fiscal year of [date] starts: the calendar year
    from April on, the year before until March. *)
Definition start_year (date : Date.t) : Z :=
  if (4 <=? Date.getMonth date + 1)%Z then Date.getFullYear date
  else (Date.getFullYear date - 1)%Z.

(** The last two decimal digits of a year: its tens and its units. *)
Definition last_two_digits (y : Z) : string :=
  String (digit_char (Z.to_N ((y / 10) mod 10)))
         (String (digit_char (Z.to_N (y mod 10))) "").

(** [fiscalYear(date)] of the specification: "FY" and the two-digit year. *)
Definition fiscalYear (date : Date.t) : string :=
  "FY" +:+ last_two_digits (start_year date).

End FiscalYear.

(* ===================================================================== *)
(** ** Sequential allocation, and reading a sequence number back *)
(* ===================================================================== *)

Module Allocation.

(** [n] sequential allocations for one fiscal year: the invoice numbers in
    the order they were issued, and the collection afterwards. *)
Fixpoint allocate (n : nat) (financialYear : string)
    (collection : gmap string InvoiceNumber.t)
  : list string * gmap string InvoiceNumber.t :=
  match n with
  | O => ([], collection)
  | S n' =>
      let '(invoiceNumber, collection') :=
        InvoiceNumber.getNextInvoiceNumber financialYear collection in
      let '(rest, final) := allocate n' financialYear collection' in
      (invoiceNumber :: rest, final)
  end.

(** The number a string of decimal digits denotes. *)
Definition digit_value (c : ascii) : N := (N_of_ascii c - 48)%N.

Fixpoint parse_from (acc : N) (s : string) : N :=
  match s with
  | EmptyString => acc
  | String c s' => parse_from (10 * acc + digit_value c)%N s'
  end.

Definition parse_decimal (s : string) : N := parse_from 0 s.

End Allocation.

(* ===================================================================== *)
(** ** Concrete configurations, stores and requests *)
(* ===================================================================== *)

Module Scenario.

(** [GST_RATE=18], [DEFAULT_COMMISSION_PERCENT=1]. *)
Definition env18 : Env :=
  {| DEFAULT_COMMISSION_PERCENT := Some 1%Q; GST_RATE := Some 18%Q |}.

(** [GST_RATE=5]. *)
Definition env5 : Env :=
  {| DEFAULT_COMMISSION_PERCENT := Some 1%Q; GST_RATE := Some 5%Q |}.

Definition empty_store : Store := mkStore ∅ ∅ [] [] 1.

(** 10 June 2024, the day of the requests. *)
Definition today : Date.t := Date.mk 2024 5 10.

(** 15 January 2024 and 1 February 2025, both in the fiscal year FY23 resp.
    FY24. *)
Definition jan15 : Date.t := Date.mk 2024 0 15.
Definition feb1_2025 : Date.t := Date.mk 2025 1 1.

(** [POST /] with the given date, amount and percentage, by user 7. *)
Definition post (d : option Date.t) (t : Q) (p : option Q) : Request :=
  {| params_id := None;
     body := {| date := d; totalReceived := Some t; commissionPercent := p;
                paymentMode := None; remarks := None |};
     user := 7%N; method := "POST" |}.

(** [PUT /:id] and [DELETE /:id]. *)
Definition put (id : N) (t : Q) : Request :=
  {| params_id := Some id;
     body := {| date := None; totalReceived := Some t; commissionPercent := None;
                paymentMode := None; remarks := None |};
     user := 7%N; method := "PUT" |}.

Definition delete (id : N) : Request :=
  {| params_id := Some id;
     body := {| date := None; totalReceived := None; commissionPercent := None;
                paymentMode := None; remarks := None |};
     user := 7%N; method := "DELETE" |}.

(** The request that locks January 2024. *)
Definition lock_january : FilingLockController.LockRequest :=
  {| FilingLockController.lock_month := Some 1%Z;
     FilingLockController.lock_year := Some 2024%Z;
     FilingLockController.lock_gstr1FilingDate := None;
     FilingLockController.lock_gstr3BFilingDate := None;
     FilingLockController.lock_remarks := Some "filed"%string;
     FilingLockController.lock_user := 7%N |}.

(** A store with one transaction dated 15 January 2024 (id 1), in which
    January 2024 has then been locked. *)
Definition january_locked : Store :=
  let st1 := snd (TransactionController.createTransaction env18 today
                    (post (Some jan15) 10000 (Some 1%Q)) empty_store) in
  snd (FilingLockController.lockMonth 1000 lock_january st1).

End Scenario.

(* ===================================================================== *)
(** ** [unlockMonth] of [backend/controllers/filingLock.controller.js] *)
(* ===================================================================== *)

Module FilingUnlockController.
Import JSString.

(** The parameters of [DELETE /api/v1/filing-locks/:month/:year]: the two
    path segments as they are written, and the numbers [parseInt] reads
    from them (a segment that is not a number is left out). *)
Record UnlockRequest : Type := {
  unlock_month_param : string;
  unlock_year_param : string;
  unlock_month : Z;
  unlock_year : Z;
  unlock_user : N
}.

(** [unlockMonth(req, res, next)]. *)
Definition unlockMonth (req : UnlockRequest) (st : Store) : Response * Store :=
  match GSTFilingLock.unlockMonth (unlock_month req) (unlock_year req)
                                  (filingLocks st) with
  | (None, _) => (Json 404 false "Filing lock not found" NoData, st)
  | (Some lock, collection) =>
      let entry :=
        {| GSTAuditLog.action := "FILING_UNLOCKED";
           GSTAuditLog.performedBy := unlock_user req;
           GSTAuditLog.entityType := "FILING_LOCK";
           GSTAuditLog.entityId := Some (GSTFilingLock._id lock);
           GSTAuditLog.status := "SUCCESS";
           GSTAuditLog.errorMessage := None |} in
      (Json 200 true
            ("Month " +:+ unlock_month_param req +:+ "/" +:+ unlock_year_param req
             +:+ " unlocked successfully") (LockData lock),
       mkStore (invoiceNumbers st) collection (transactions st)
               (GSTAuditLog.createLog entry (auditLogs st)) (nextId st))
  end.

End FilingUnlockController.

(* ===================================================================== *)
(** ** [checkPeriodLock] of [middleware/filingLock.middleware.js] *)
(* ===================================================================== *)

Module PeriodLockMiddleware.
Import JSString.

(** [req.query] of a bulk request: [month] and [year] as they are written,
    and the numbers [parseInt] reads from them when both are given. *)
Record PeriodQuery : Type := {
  query_month : option string;
  query_year : option string;
  parsed_month : Z;
  parsed_year : Z
}.

(** [!v] for an optional string: absent or empty. *)
Definition not_given (v : option string) : bool :=
  match v with
  | Some s => String.eqb s ""
  | None => true
  end.

(** [checkPeriodLock(req, res, next)]: [None] is [next()]. *)
Definition checkPeriodLock (query : PeriodQuery) (st : Store)
  : option Response * Store :=
  if not_given (query_month query) || not_given (query_year query) then (None, st)
  else
    let transactionDate :=
      Date.first_of_month (parsed_year query) (parsed_month query - 1) in
    let isLocked := GSTFilingLock.isDateLocked transactionDate (filingLocks st) in
    if isLocked then
      (Some (Json 403 false
               ("Period " +:+ default "" (query_month query) +:+ "/"
                +:+ default "" (query_year query)
                +:+ " is locked due to GST filing")
               (Code "FILING_LOCKED")),
       st)
    else (None, st).

End PeriodLockMiddleware.

(* ===================================================================== *)
(** ** [getTransaction] and the summary of [getTransactions] *)
(* ===================================================================== *)

Module TransactionQueries.
Local Open Scope Q_scope.

(** [getTransaction(req, res, next)]; the [populate] of [createdBy] is
    left out. *)
Definition getTransaction (req : Request) (st : Store) : Response * Store :=
  match params_id req with
  | None => (Json 404 false "Not found" NoData, st)
  | Some id =>
      match Transaction.findById id (transactions st) with
      | None => (Json 404 false "Not found" NoData, st)
      | Some transaction => (Json 200 true "" (TransactionData transaction), st)
      end
  end.



Section Query.

(** The [$match] stage: does a document satisfy the [query] built from
    [req.query]? *)
Variable matches : Transaction.t -> bool.



End Query.

End TransactionQueries.

(* ===================================================================== *)
(** ** The ways [updateTransaction] can end *)
(* ===================================================================== *)

Module UpdateOutcome.
Import JS JSString Calc TransactionController.

(** The document [updateTransaction] saves. *)
Definition updated (env : Env) (req : Request) (old : Transaction.t)
    (c : Calculations) : Transaction.t :=
  {| Transaction._id := Transaction._id old;
     Transaction.date := default (Transaction.date old) (date (body req));
     Transaction.totalReceived :=
       default (Transaction.totalReceived old) (totalReceived (body req));
     Transaction.commissionPercent :=
       default (Transaction.commissionPercent old) (commissionPercent (body req));
     Transaction.commissionAmount := commissionAmount c;
     Transaction.gstAmount := gstAmount c;
     Transaction.netIncome := netIncome c;
     Transaction.returnAmount := returnAmount c;
     Transaction.paymentMode :=
       default (Transaction.paymentMode old) (paymentMode (body req));
     Transaction.createdBy := Transaction.createdBy old;
     Transaction.remarks :=
       trim (default (Transaction.remarks old) (remarks (body req)));
     Transaction.invoiceNumber := Transaction.invoiceNumber old;
     Transaction.financialYear := Transaction.financialYear old |}.

(** [transaction.save()] on the collection. *)
Definition replaced (u : Transaction.t) (l : list Transaction.t) : list Transaction.t :=
  map (fun old => if (Transaction._id old =? Transaction._id u)%N then u else old) l.

(** The ways [updateTransaction] can end. *)
Inductive Updated (env : Env) (req : Request) (st : Store) : Response * Store -> Prop :=
| Not_found :
    (forall id, params_id req = Some id ->
                Transaction.findById id (transactions st) = None) ->
    Updated env req st (Json 404 false "Not found" NoData, st)
| Update_thrown (err : Error) :
    Updated env req st (Next err, st)
| Saved (id : N) (old : Transaction.t) (c : Calculations) (entry : GSTAuditLog.t) :
    params_id req = Some id ->
    Transaction.findById id (transactions st) = Some old ->
    calculateCommission
      (default (Transaction.totalReceived old) (totalReceived (body req)))
      (default (Transaction.commissionPercent old) (commissionPercent (body req)))
      (gstRate_of env) = inr c ->
    Transaction.validate (updated env req old c) = [] ->
    Updated env req st
      (Json 200 true "" (TransactionData (updated env req old c)),
       mkStore (invoiceNumbers st) (filingLocks st)
               (replaced (updated env req old c) (transactions st))
               (auditLogs st ++ [entry]) (nextId st)).

End UpdateOutcome.

(* ===================================================================== *)
(** ** The stores the handlers can reach, and what holds in them *)
(* ===================================================================== *)

Module Reachable.
Import Calc TransactionRoutes.

(** One request served: the store before and the store after. *)
Inductive step (st : Store) : Store -> Prop :=
| Post (rejected : Response) (env : Env) (today : Date.t) (req : Request) :
    step st (snd (post_transaction rejected env today req st))
| Put (rejected : Response) (env : Env) (today : Date.t) (req : Request) :
    step st (snd (put_transaction rejected env today req st))
| Delete (today : Date.t) (req : Request) :
    step st (snd (delete_transaction today req st))
| Lock (now : Z) (req : FilingLockController.LockRequest) :
    step st (snd (FilingLockController.lockMonth now req st))
| Unlock (req : FilingUnlockController.UnlockRequest) :
    step st (snd (FilingUnlockController.unlockMonth req st)).

(** The stores reached from the empty one by serving requests. *)
Inductive reachable : Store -> Prop :=
| reachable_empty : reachable Scenario.empty_store
| reachable_step (st st' : Store) : reachable st -> step st st' -> reachable st'.

(** The derived fields of a transaction are those [calculateCommission]
    gives for its [totalReceived] and [commissionPercent] at some rate. *)
Definition calculated (tx : Transaction.t) : Prop :=
  exists gstRate : Q,
    calculateCommission (Transaction.totalReceived tx)
                        (Transaction.commissionPercent tx) gstRate
    = inr {| commissionAmount := Transaction.commissionAmount tx;
             gstAmount := Transaction.gstAmount tx;
             netIncome := Transaction.netIncome tx;
             returnAmount := Transaction.returnAmount tx |}.

(** Every series carries the prefix "INV" and a counter of at least 1. *)
Definition well_formed (series : gmap string InvoiceNumber.t) : Prop :=
  forall fy s, series !! fy = Some s ->
    InvoiceNumber.prefix s = "INV"%string /\ (1 <= InvoiceNumber.lastSequenceNumber s)%Z.

(** The invoice number of a transaction was issued by the series of its
    fiscal year: it is formatted from a sequence number between 1 and the
    series' counter. *)
Definition issued (series : gmap string InvoiceNumber.t) (tx : Transaction.t) : Prop :=
  exists (fy : string) (n : Z) (s : InvoiceNumber.t),
    Transaction.invoiceNumber tx = Some (InvoiceNumber.format "INV" fy n)
    /\ series !! fy = Some s
    /\ (1 <= n <= InvoiceNumber.lastSequenceNumber s)%Z.

Record Inv (st : Store) : Prop := {
  ids_fresh : Forall (fun tx => (Transaction._id tx < nextId st)%N) (transactions st);
  ids_unique : List.NoDup (map Transaction._id (transactions st));
  series_wf : forall fy s, invoiceNumbers st !! fy = Some s ->
                InvoiceNumber.prefix s = "INV"%string
                /\ (1 <= InvoiceNumber.lastSequenceNumber s)%Z;
  numbers_issued : Forall (issued (invoiceNumbers st)) (transactions st);
  numbers_unique : List.NoDup (map Transaction.invoiceNumber (transactions st));
  all_calculated : Forall calculated (transactions st);
  all_valid : Forall (fun tx => Transaction.validate tx = []) (transactions st)
}.

End Reachable.

(* ===================================================================== *)
(** ** [getFilingLockStatus] of [backend/controllers/filingLock.controller.js] *)
(* ===================================================================== *)

Module FilingLockStatus.

(** [GSTFilingLock.findOne({ month, year })]: some document with the month
    and the year, or [null] when there is none.  The query does not say
    which one when there are several. *)
Definition findOne (month year : Z) (collection : GSTFilingLock.Collection)
    (result : option GSTFilingLock.t) : Prop :=
  match result with
  | Some lock =>
      (exists key, collection !! key = Some lock)
      /\ GSTFilingLock.month lock = month /\ GSTFilingLock.year lock = year
  | None =>
      forall key lock, collection !! key = Some lock ->
        ~ (GSTFilingLock.month lock = month /\ GSTFilingLock.year lock = year)
  end.

(** The [data] of the answer: [{ isLocked, lock: lock || null }]. *)
Record Status : Type := {
  isLocked : bool;
  lock : option GSTFilingLock.t
}.

(** [getFilingLockStatus(req, res, next)], for the numbers [parseInt]
    reads from the two path segments: the answers it can give.  It changes
    nothing. *)
Definition getFilingLockStatus (month year : Z) (st : Store) (data : Status) : Prop :=
  let transactionDate := Date.first_of_month year (month - 1) in
  isLocked data = GSTFilingLock.isDateLocked transactionDate (filingLocks st)
  /\ findOne month year (filingLocks st) (lock data).

(** Every lock document is stored under the key made of its own fields, and
    its fiscal year and filing period are those of its month and year. *)
Definition lock_keys_consistent (collection : GSTFilingLock.Collection) : Prop :=
  forall key lock, collection !! key = Some lock ->
    key = (GSTFilingLock.financialYear lock, GSTFilingLock.month lock,
           GSTFilingLock.year lock)
    /\ GSTFilingLock.financialYear lock
       = InvoiceNumber.getFinancialYear
           (Date.first_of_month (GSTFilingLock.year lock)
                                (GSTFilingLock.month lock - 1)).

End FilingLockStatus.

(* ===================================================================== *)
(** * Properties *)
(* ===================================================================== *)

(* ===================================================================== *)
(** ** Facts about the JavaScript primitives *)
(* ===================================================================== *)

Module JSFacts.
Import JS.

Lemma Qlt_bool_iff (x y : Q) : Qlt_bool x y = true <-> (x < y)%Q.
Proof.
  unfold Qlt_bool. rewrite negb_true_iff.
  destruct (Qle_bool y x) eqn:E.
  - apply Qle_bool_iff in E. split; [discriminate | intros H; exfalso; lra].
  - split; [intros _ | reflexivity].
    destruct (Qlt_le_dec x y) as [H | H]; [exact H |].
    apply Qle_bool_iff in H. congruence.
Qed.

Lemma Qlt_bool_false_iff (x y : Q) : Qlt_bool x y = false <-> (y <= x)%Q.
Proof.
  unfold Qlt_bool. rewrite negb_false_iff. apply Qle_bool_iff.
Qed.

Lemma Qle_bool_false_iff (x y : Q) : Qle_bool x y = false <-> (y < x)%Q.
Proof.
  rewrite <- Qlt_bool_iff. unfold Qlt_bool.
  destruct (Qle_bool x y); simpl; split; congruence.
Qed.

(** The two inequalities that characterise [Math.round]. *)
Lemma Math_round_lower (x : Q) : (x - (1 # 2) < inject_Z (Math_round x))%Q.
Proof.
  unfold Math_round.
  pose proof (Qlt_floor (x + (1 # 2))) as H.
  rewrite inject_Z_plus in H. change (inject_Z 1) with 1%Q in H. lra.
Qed.

Lemma Math_round_upper (x : Q) : (inject_Z (Math_round x) <= x + (1 # 2))%Q.
Proof. unfold Math_round. apply Qfloor_le. Qed.

Lemma Math_round_nonneg (x : Q) : (0 <= x)%Q -> (0 <= Math_round x)%Z.
Proof.
  intros Hx. unfold Math_round.
  change 0%Z with (Qfloor 0). apply Qfloor_resp_le. lra.
Qed.

Lemma Math_round_comp (x y : Q) : (x == y)%Q -> Math_round x = Math_round y.
Proof. intros H. unfold Math_round. apply Qfloor_comp. rewrite H. reflexivity. Qed.

Lemma Math_round_Z (z : Z) : Math_round (inject_Z z) = z.
Proof.
  unfold Math_round.
  pose proof (Qfloor_le (inject_Z z + (1 # 2))) as Hle.
  pose proof (Qlt_floor (inject_Z z + (1 # 2))) as Hlt.
  set (f := Qfloor (inject_Z z + (1 # 2))) in *.
  assert (H1 : (inject_Z f < inject_Z (z + 1))%Q).
  { rewrite inject_Z_plus. change (inject_Z 1) with 1%Q. lra. }
  assert (H2 : (inject_Z z < inject_Z (f + 1))%Q).
  { eapply Qle_lt_trans; [| exact Hlt]. lra. }
  rewrite <- Zlt_Qlt in H1, H2. lia.
Qed.

End JSFacts.

(* ===================================================================== *)
(** ** Arithmetic of the calculation rule *)
(* ===================================================================== *)

Module CalcFacts.
Import JS JSFacts Calc.
Local Open Scope Q_scope.

(** Division by the constant 100, as a product: the form linear arithmetic
    over [Q] works with. *)
Lemma Qdiv_100 (x : Q) : x / 100 == x * (1 # 100).
Proof. unfold Qdiv. reflexivity. Qed.

Ltac div100 := repeat rewrite Qdiv_100 in *.

(** Rounding to cents moves a value by at most half a cent, and up on a
    tie. *)
Lemma round_cents_bounds (v : Q) :
  v - (1 # 200) < round_cents v /\ round_cents v <= v + (1 # 200).
Proof.
  unfold round_cents.
  pose proof (Math_round_lower (v * 100)) as Hl.
  pose proof (Math_round_upper (v * 100)) as Hu.
  set (m := inject_Z (Math_round (v * 100))) in *.
  div100. split; lra.
Qed.

Lemma round_cents_nonneg (v : Q) : 0 <= v -> 0 <= round_cents v.
Proof.
  intros Hv. unfold round_cents.
  assert (H : (0 <= Math_round (v * 100))%Z) by (apply Math_round_nonneg; lra).
  rewrite Zle_Qle in H. change (inject_Z 0) with 0 in H.
  set (m := inject_Z (Math_round (v * 100))) in *. div100. lra.
Qed.

Lemma round_cents_comp (v w : Q) : v == w -> round_cents v == round_cents w.
Proof.
  intros H. unfold round_cents.
  rewrite (Math_round_comp (v * 100) (w * 100)); [reflexivity |].
  rewrite H. reflexivity.
Qed.

(** [calculateCommission] on an accepted input: the guards fall through. *)
Lemma calculateCommission_valid (t p g : Q) :
  valid_input t p g ->
  calculateCommission t p g =
    inr {| commissionAmount := round_cents (t * p / 100);
           gstAmount := round_cents (t * p / 100 * g / 100);
           netIncome := round_cents (t * p / 100 - t * p / 100 * g / 100);
           returnAmount := round_cents (t - t * p / 100) |}.
Proof.
  intros (Ht & [Hp0 Hp1] & [Hg0 Hg1]). unfold calculateCommission.
  apply Qle_bool_false_iff in Ht. rewrite Ht.
  apply Qlt_bool_false_iff in Hp0, Hp1, Hg0, Hg1.
  rewrite Hp0, Hp1, Hg0, Hg1. reflexivity.
Qed.

(** The unrounded intermediates of an accepted input are non-negative. *)
Lemma intermediates_nonneg (t p g : Q) :
  valid_input t p g ->
  0 <= t * p / 100 /\
  0 <= t * p / 100 * g / 100 /\
  0 <= t * p / 100 - t * p / 100 * g / 100 /\
  0 <= t - t * p / 100.
Proof.
  intros (Ht & [Hp0 Hp1] & [Hg0 Hg1]).
  assert (Hc : 0 <= t * p) by (apply Qmult_le_0_compat; lra).
  assert (Hc' : t * p <= t * 100).
  { apply Qmult_le_l; [exact Ht | exact Hp1]. }
  div100. set (c := t * p * (1 # 100)) in *.
  assert (Hc0 : 0 <= c) by (unfold c; lra).
  assert (Hct : c <= t) by (unfold c; lra).
  assert (Hcg : 0 <= c * g) by (apply Qmult_le_0_compat; lra).
  assert (Hcg' : g * c <= 100 * c).
  { apply Qmult_le_compat_r; lra. }
  assert (Hcomm : c * g == g * c) by ring.
  repeat split; lra.
Qed.

End CalcFacts.

(* ===================================================================== *)
(** ** Facts about the strings *)
(* ===================================================================== *)

Module StringFacts.
Import JSString.

Lemma length_app (s t : string) :
  String.length (s +:+ t) = (String.length s + String.length t)%nat.
Proof. induction s as [| a s IH]; simpl; [reflexivity | now rewrite IH]. Qed.

Lemma app_assoc (s t u : string) : (s +:+ t) +:+ u = s +:+ (t +:+ u).
Proof. induction s as [| a s IH]; simpl; [reflexivity | f_equal; exact IH]. Qed.

Lemma app_empty_r (s : string) : s +:+ "" = s.
Proof. induction s as [| a s IH]; simpl; [reflexivity | f_equal; exact IH]. Qed.

Lemma substring_all (s : string) : substring 0 (String.length s) s = s.
Proof. induction s as [| a s IH]; simpl; [reflexivity | f_equal; exact IH]. Qed.

Lemma substring_prefix (s t : string) :
  substring 0 (String.length s) (s +:+ t) = s.
Proof.
  induction s as [| a s IH]; simpl; [now destruct t | f_equal; exact IH].
Qed.

Lemma substring_skip (s t : string) (m : nat) :
  substring (String.length s) m (s +:+ t) = substring 0 m t.
Proof. induction s as [| a s IH]; simpl; [reflexivity | exact IH]. Qed.

Lemma slice_last_app (s t : string) :
  slice_last (String.length t) (s +:+ t) = t.
Proof.
  unfold slice_last. rewrite length_app.
  replace (String.length s + String.length t - String.length t)%nat
    with (String.length s) by lia.
  rewrite substring_skip. apply substring_all.
Qed.

Lemma length_repeat_char (c : ascii) (n : nat) :
  String.length (repeat_char c n) = n.
Proof. induction n as [| n IH]; simpl; [reflexivity | now rewrite IH]. Qed.

Lemma all_digits_app (s t : string) :
  all_digits (s +:+ t) = all_digits s && all_digits t.
Proof.
  induction s as [| a s IH]; simpl; [reflexivity |].
  rewrite IH. now rewrite andb_assoc.
Qed.

Lemma all_digits_repeat_zero (n : nat) : all_digits (repeat_char "0" n) = true.
Proof. induction n as [| n IH]; simpl; [reflexivity | exact IH]. Qed.

(** [padStart] never shortens: the result has the longer of the two
    lengths. *)
Lemma length_padStart (k : nat) (c : ascii) (s : string) :
  String.length (padStart k c s) = Nat.max k (String.length s).
Proof. unfold padStart. rewrite length_app, length_repeat_char. lia. Qed.

Lemma padStart_long (k : nat) (c : ascii) (s : string) :
  (k <= String.length s)%nat -> padStart k c s = s.
Proof.
  intros H. unfold padStart.
  replace (k - String.length s)%nat with 0%nat by lia. reflexivity.
Qed.

Lemma all_digits_padStart (k : nat) (s : string) :
  all_digits (padStart k "0" s) = all_digits s.
Proof.
  unfold padStart. now rewrite all_digits_app, all_digits_repeat_zero.
Qed.

Lemma is_digit_digit_char (d : N) : (d < 10)%N -> is_digit (digit_char d) = true.
Proof.
  intros H. unfold is_digit, digit_char.
  rewrite N_ascii_embedding by lia.
  apply andb_true_intro. split; apply N.leb_le; lia.
Qed.

(** *** The digits of [String(n)] *)

Lemma div10_lt (n m : N) : (n / 10 < m)%N <-> (n < 10 * m)%N.
Proof.
  split; intros H.
  - pose proof (N.div_mod' n 10) as E.
    assert (Hr : (n mod 10 < 10)%N) by (apply N.mod_lt; lia).
    set (q := (n / 10)%N) in *. set (r := (n mod 10)%N) in *. lia.
  - apply N.Div0.div_lt_upper_bound. exact H.
Qed.

Lemma decimal_aux_acc (fuel : nat) : forall (n : N) (acc : string),
  decimal_aux fuel n acc = decimal_aux fuel n "" +:+ acc.
Proof.
  induction fuel as [| fuel IH]; intros n acc; simpl; [reflexivity |].
  destruct (n <? 10)%N; [reflexivity |].
  rewrite (IH _ (String _ acc)), (IH _ (String _ "")).
  now rewrite app_assoc.
Qed.

Lemma decimal_aux_fuel (f1 : nat) : forall (f2 : nat) (n : N) (acc : string),
  (n < 10 ^ N.of_nat (S f1))%N -> (n < 10 ^ N.of_nat (S f2))%N ->
  decimal_aux f1 n acc = decimal_aux f2 n acc.
Proof.
  induction f1 as [| f1 IH]; intros f2 n acc H1 H2.
  - change (10 ^ N.of_nat 1)%N with 10%N in H1.
    destruct f2 as [| f2]; simpl; [reflexivity |].
    apply N.ltb_lt in H1. now rewrite H1.
  - destruct f2 as [| f2].
    + change (10 ^ N.of_nat 1)%N with 10%N in H2.
      simpl. apply N.ltb_lt in H2. now rewrite H2.
    + simpl. destruct (n <? 10)%N eqn:E; [reflexivity |].
      apply IH.
      * rewrite Nat2N.inj_succ, N.pow_succ_r' in H1.
        now apply div10_lt.
      * rewrite Nat2N.inj_succ, N.pow_succ_r' in H2.
        now apply div10_lt.
Qed.

Lemma log2_fuel (n : N) : (n < 10 ^ N.of_nat (S (N.to_nat (N.log2 n))))%N.
Proof.
  rewrite Nat2N.inj_succ, N2Nat.id.
  destruct (N.eq_dec n 0%N) as [-> | Hn].
  - reflexivity.
  - destruct (N.log2_spec n) as [_ Hlt]; [lia |].
    eapply N.lt_le_trans; [exact Hlt |].
    apply N.pow_le_mono_l. lia.
Qed.

Lemma String_of_N_small (n : N) :
  (n < 10)%N -> String_of_N n = String (digit_char n) "".
Proof.
  intros H. unfold String_of_N.
  rewrite (decimal_aux_fuel _ 0 n "" (log2_fuel n)) by exact H.
  simpl. now rewrite N.mod_small.
Qed.

Lemma String_of_N_step (n : N) :
  (10 <= n)%N ->
  String_of_N n = String_of_N (n / 10) +:+ String (digit_char (n mod 10)) "".
Proof.
  intros H. unfold String_of_N at 1.
  pose proof (log2_fuel n) as Hf.
  destruct (N.to_nat (N.log2 n)) as [| f] eqn:Ef.
  - change (10 ^ N.of_nat 1)%N with 10%N in Hf. lia.
  - simpl. assert (E : (n <? 10)%N = false) by (apply N.ltb_ge; exact H).
    rewrite E, decimal_aux_acc. f_equal.
    apply decimal_aux_fuel; [| apply log2_fuel].
    rewrite Nat2N.inj_succ, N.pow_succ_r' in Hf.
    now apply div10_lt.
Qed.

(** Induction along the digits. *)
Lemma decimal_ind (P : N -> Prop) :
  (forall n, (n < 10)%N -> P n) ->
  (forall n, (10 <= n)%N -> P (n / 10)%N -> P n) ->
  forall n, P n.
Proof.
  intros Hsmall Hstep n.
  induction n as [n IH] using (well_founded_induction N.lt_wf_0).
  destruct (N.lt_ge_cases n 10) as [H | H]; [now apply Hsmall |].
  apply Hstep; [exact H |]. apply IH. apply N.div_lt; lia.
Qed.

Lemma all_digits_String_of_N (n : N) : all_digits (String_of_N n) = true.
Proof.
  induction n as [n H | n H IH] using decimal_ind.
  - rewrite String_of_N_small by exact H. simpl.
    now rewrite is_digit_digit_char.
  - rewrite String_of_N_step by exact H.
    rewrite all_digits_app, IH. simpl.
    rewrite is_digit_digit_char; [reflexivity |].
    apply N.mod_lt. lia.
Qed.

(** [String(n)] has at most [k + 1] digits exactly when [n < 10^(k+1)]. *)
Lemma length_String_of_N (n : N) : forall k : nat,
  (String.length (String_of_N n) <= S k)%nat <-> (n < 10 ^ N.of_nat (S k))%N.
Proof.
  induction n as [n H | n H IH] using decimal_ind; intros k.
  - rewrite String_of_N_small by exact H. simpl.
    split; [intros _ | lia].
    eapply N.lt_le_trans; [exact H |].
    rewrite Nat2N.inj_succ, N.pow_succ_r'.
    assert (0 < 10 ^ N.of_nat k)%N by (apply N.neq_0_lt_0, N.pow_nonzero; lia).
    lia.
  - rewrite String_of_N_step by exact H.
    rewrite length_app. simpl.
    rewrite Nat2N.inj_succ, N.pow_succ_r'.
    destruct k as [| k].
    + change (10 ^ N.of_nat 0)%N with 1%N.
      assert (1 <= String.length (String_of_N (n / 10)))%nat.
      { destruct (String_of_N (n / 10)) eqn:E; simpl; [| lia].
        pose proof (IH 0%nat) as [_ IH0].
        destruct (N.lt_ge_cases (n / 10) 10) as [Hs | Hs].
        - rewrite String_of_N_small in E by exact Hs. discriminate.
        - rewrite String_of_N_step in E by exact Hs.
          destruct (String_of_N (n / 10 / 10)); discriminate. }
      lia.
    + specialize (IH k).
      split; intros Hk.
      * assert (Hd : (n / 10 < 10 ^ N.of_nat (S k))%N) by (apply IH; lia).
        now apply div10_lt.
      * assert (Hd : (n / 10 < 10 ^ N.of_nat (S k))%N) by now apply div10_lt.
        apply IH in Hd. lia.
Qed.

Lemma length_String_of_N_pos (n : N) : (1 <= String.length (String_of_N n))%nat.
Proof.
  destruct (N.lt_ge_cases n 10) as [H | H].
  - rewrite String_of_N_small by exact H. simpl. lia.
  - rewrite String_of_N_step by exact H. rewrite length_app. simpl. lia.
Qed.

(** The last two characters of [String(n)] for [n >= 10] are its tens and
    units digits. *)
Lemma slice_last_2_String_of_N (n : N) :
  (10 <= n)%N ->
  slice_last 2 (String_of_N n) =
    String (digit_char ((n / 10) mod 10)) (String (digit_char (n mod 10)) "").
Proof.
  intros H. rewrite String_of_N_step by exact H.
  set (u := digit_char (n mod 10)).
  destruct (N.lt_ge_cases (n / 10) 10) as [Hs | Hs].
  - rewrite String_of_N_small by exact Hs.
    rewrite (N.mod_small (n / 10)) by exact Hs. reflexivity.
  - rewrite String_of_N_step by exact Hs. rewrite app_assoc. simpl.
    apply (slice_last_app _ (String _ (String u ""))).
Qed.

End StringFacts.

(* ===================================================================== *)
(** ** The primitives on concrete values *)
(* ===================================================================== *)

Module Checks.
Import JSString.

Example String_of_Z_2024 : String_of_Z 2024 = "2024". Proof. reflexivity. Qed.
Example String_of_Z_0 : String_of_Z 0 = "0". Proof. reflexivity. Qed.
Example String_of_Z_neg : String_of_Z (-7) = "-7". Proof. reflexivity. Qed.
Example String_of_Z_big : String_of_Z 100000 = "100000". Proof. reflexivity. Qed.
Example padStart_1 : padStart 5 "0" (String_of_Z 1) = "00001". Proof. reflexivity. Qed.
Example padStart_keeps_longer : padStart 5 "0" "123456" = "123456". Proof. reflexivity. Qed.
Example slice_last_2024 : slice_last 2 "2024" = "24". Proof. reflexivity. Qed.
Example slice_last_short : slice_last 2 "5" = "5". Proof. reflexivity. Qed.
Example test_invoiceNumber_ok : test_invoiceNumber "INV-FY24-00001" = true.
Proof. reflexivity. Qed.
Example test_invoiceNumber_long : test_invoiceNumber "INV-FY24-100000" = false.
Proof. reflexivity. Qed.

Example first_of_month_jan_2024 :
  Date.first_of_month 2024 0 = {| Date.getFullYear := 2024; Date.getMonth := 0; Date.getDate := 1 |}.
Proof. reflexivity. Qed.

Example first_of_month_carry :
  Date.first_of_month 2024 12 = {| Date.getFullYear := 2025; Date.getMonth := 0; Date.getDate := 1 |}.
Proof. reflexivity. Qed.

Example getFinancialYear_may_2024 :
  InvoiceNumber.getFinancialYear (Date.mk 2024 4 15) = "FY24".
Proof. reflexivity. Qed.

Example getFinancialYear_jan_2024 :
  InvoiceNumber.getFinancialYear (Date.mk 2024 0 15) = "FY23".
Proof. reflexivity. Qed.

Example generateInvoiceNumber_first :
  fst (InvoiceNumber.generateInvoiceNumber (Date.mk 2024 4 15) ∅) = "INV-FY24-00001".
Proof. reflexivity. Qed.

End Checks.

(* ===================================================================== *)
(** ** Binary64 arithmetic: signs and classes of results *)
(* ===================================================================== *)

Module Binary64Facts.
Import Binary64.

Lemma binary_round_aux_sign (sx : bool) (mx ex : Z) (lx : location) :
  match binary_round_aux prec emax sx mx ex lx with
  | S754_finite s _ _ => s = sx
  | _ => True
  end.
Proof.
  unfold binary_round_aux.
  destruct (shr_fexp prec emax mx ex lx) as [mrs' e'].
  destruct (shr_fexp prec emax _ e' loc_Exact) as [mrs'' e''].
  destruct (shr_m mrs''); [exact I | | exact I].
  destruct (e'' <=? emax - prec)%Z; [reflexivity | exact I].
Qed.

Lemma mul_not_negative (x y : Number) :
  is_negative x = false -> is_negative y = false -> is_negative (mul x y) = false.
Proof.
  intros Hx Hy. destruct x as [sx | sx | | sx mx ex], y as [sy | sy | | sy my ey];
    try reflexivity.
  cbn in Hx, Hy. subst. unfold mul, SFmul. cbn [xorb].
  pose proof (binary_round_aux_sign false (Z.pos (mx * my)) (ex + ey) loc_Exact) as H.
  destruct (binary_round_aux _ _ _ _ _ _); try reflexivity. exact H.
Qed.

Lemma div_not_negative (x y : Number) :
  is_negative x = false -> is_negative y = false -> is_negative (div x y) = false.
Proof.
  intros Hx Hy. destruct x as [sx | sx | | sx mx ex], y as [sy | sy | | sy my ey];
    try reflexivity.
  cbn in Hx, Hy. subst. unfold div, SFdiv. cbn [xorb].
  destruct (SFdiv_core_binary _ _ _ _ _ _) as [[mz ez] lz].
  pose proof (binary_round_aux_sign false mz ez lz) as H.
  destruct (binary_round_aux _ _ _ _ _ _); try reflexivity. exact H.
Qed.

Lemma hundred_finite : hundred = S754_finite false 7036874417766400 (-46).
Proof. reflexivity. Qed.

Lemma hundred_not_negative : is_negative hundred = false.
Proof. reflexivity. Qed.

(** [x < 0] is false: [x] is not a negative finite number. *)
Lemma not_below_zero (x : Number) : ltb x zero = false -> is_negative x = false.
Proof. destruct x as [s | s | | [|] m e]; cbn; congruence. Qed.

Lemma not_at_most_zero (x : Number) : leb x zero = false -> is_negative x = false.
Proof. destruct x as [s | s | | [|] m e]; cbn; congruence. Qed.

(** On what is not negative the two rounding rules agree. *)
Lemma Math_round_half_away (x : Number) :
  is_negative x = false -> Math_round x = round_half_away x.
Proof.
  destruct x as [s | s | | s m e]; try reflexivity.
  cbn. intros ->. reflexivity.
Qed.

(** Where they part: a negative tie. *)
Example Math_round_negative_tie :
  Math_round (decimal (-5) 2) = of_Z (-2) /\ round_half_away (decimal (-5) 2) = of_Z (-3).
Proof. split; reflexivity. Qed.





End Binary64Facts.

(* ===================================================================== *)
(** ** C2, C8: the calculation rule in binary64 *)
(* ===================================================================== *)

Module Calc64Theorems.
Import Binary64 Calc64 Binary64Facts.

Lemma valid_input_guards (t p g : Number) :
  valid_input t p g = true ->
  leb t zero = false
  /\ (ltb p zero = false /\ ltb hundred p = false)
  /\ (ltb g zero = false /\ ltb hundred g = false).
Proof.
  unfold valid_input. intros H.
  apply andb_prop in H as [H Hg]. apply andb_prop in H as [Ht Hp].
  apply negb_true_iff in Ht, Hp, Hg.
  apply orb_false_elim in Hp, Hg. tauto.
Qed.

Lemma calculateCommission_accepts (t p g : Number) :
  valid_input t p g = true ->
  calculateCommission t p g
  = inr {| commissionAmount := round_cents (div (mul t p) hundred);
           gstAmount := round_cents (div (mul (div (mul t p) hundred) g) hundred);
           netIncome := round_cents (sub (div (mul t p) hundred)
                                         (div (mul (div (mul t p) hundred) g) hundred));
           returnAmount := round_cents (sub t (div (mul t p) hundred)) |}.
Proof.
  intros H. apply valid_input_guards in H as (Ht & [Hp1 Hp2] & [Hg1 Hg2]).
  unfold calculateCommission. rewrite Ht, Hp1, Hp2, Hg1, Hg2. reflexivity.
Qed.

Lemma round_cents_round2 (v : Number) :
  is_negative (mul v hundred) = false -> round_cents v = round2 v.
Proof.
  intros H. unfold round_cents, round2. now rewrite Math_round_half_away.
Qed.

(** C2, as the code has it.  On every input it accepts, [calculateCommission]
    rounds each of the four results once, from the unrounded intermediates:
    the GST from the unrounded commission, the net income and the return
    amount from the unrounded differences.  The rounding is
    [Math.round(v * 100) / 100] on the binary64 product; for the commission
    and the GST, and for a difference whose product is not negative, that is
    the specification's half away from zero applied to the binary64
    product. *)
Theorem calculateCommission_rounds_at_the_end (t p g : Number) :
  valid_input t p g = true ->
  let commission := div (mul t p) hundred in
  let gst := div (mul commission g) hundred in
  exists c,
    calculateCommission t p g = inr c
    /\ commissionAmount c = round2 commission
    /\ gstAmount c = round2 gst
    /\ netIncome c = round_cents (sub commission gst)
    /\ returnAmount c = round_cents (sub t commission)
    /\ (is_negative (mul (sub commission gst) hundred) = false
        /\ is_negative (mul (sub t commission) hundred) = false ->
        c = calculateCommission_end_rounded t p g).
Proof.
  intros H commission gst.
  rewrite (calculateCommission_accepts t p g H). fold commission. fold gst.
  apply valid_input_guards in H as (Ht & [Hp _] & [Hg _]).
  apply not_at_most_zero in Ht. apply not_below_zero in Hp, Hg.
  assert (Hc : is_negative (mul commission hundred) = false).
  { apply mul_not_negative; [| exact hundred_not_negative].
    apply div_not_negative; [| exact hundred_not_negative].
    now apply mul_not_negative. }
  assert (Hc' : is_negative commission = false).
  { apply div_not_negative; [| exact hundred_not_negative].
    now apply mul_not_negative. }
  assert (Hgst : is_negative (mul gst hundred) = false).
  { apply mul_not_negative; [| exact hundred_not_negative].
    apply div_not_negative; [| exact hundred_not_negative].
    now apply mul_not_negative. }
  eexists. split; [reflexivity |]. cbn [commissionAmount gstAmount netIncome returnAmount].
  split; [now apply round_cents_round2 |].
  split; [now apply round_cents_round2 |].
  split; [reflexivity |]. split; [reflexivity |].
  intros [Hn Hr]. unfold calculateCommission_end_rounded.
  fold commission. fold gst.
  now rewrite !round_cents_round2.
Qed.

(** At 100.5 and 1% the unrounded commission times 100 is
    100.49999999999999 in binary64, and the commission is 1.00. *)
Lemma calculateCommission_rounds_at_the_end_witness :
  valid_input (decimal 1005 10) (of_Z 1) (of_Z 18) = true /\
  exists c,
    calculateCommission (decimal 1005 10) (of_Z 1) (of_Z 18) = inr c
    /\ commissionAmount c = of_Z 1
    /\ gstAmount c = decimal 18 100
    /\ netIncome c = decimal 82 100
    /\ returnAmount c = decimal 995 10.
Proof.
  assert (H : valid_input (decimal 1005 10) (of_Z 1) (of_Z 18) = true) by reflexivity.
  split; [exact H |].
  destruct (calculateCommission_rounds_at_the_end _ _ _ H) as (c & E & Hc & Hg & Hn & Hr & _).
  exists c. split; [exact E |].
  rewrite Hc, Hg, Hn, Hr. repeat split; vm_compute; reflexivity.
Defined.

(** C2, the claim as stated fails: at 2.60, 1% and 18% the unrounded
    commission is 0.026.  The code rounds the GST of 0.026, 0.00468, to 0;
    rounding after every step gives the GST of 0.03, 0.0054, rounded to
    0.01. *)
Lemma calculateCommission_not_per_step :
  valid_input (decimal 26 10) (of_Z 1) (of_Z 18) = true /\
  exists c,
    calculateCommission (decimal 26 10) (of_Z 1) (of_Z 18) = inr c
    /\ commissionAmount c = decimal 3 100
    /\ gstAmount c = zero
    /\ gstAmount (calculateCommission_per_step (decimal 26 10) (of_Z 1) (of_Z 18))
       = decimal 1 100
    /\ c <> calculateCommission_per_step (decimal 26 10) (of_Z 1) (of_Z 18).
Proof.
  split; [reflexivity |]. eexists. split; [reflexivity |].
  split; [vm_compute; reflexivity |]. split; [vm_compute; reflexivity |].
  split; [vm_compute; reflexivity |].
  vm_compute. discriminate.
Qed.


End Calc64Theorems.

(* ===================================================================== *)
(** ** The ways [createTransaction] ends *)
(* ===================================================================== *)

Module CreateFacts.
Import JS JSFacts JSString Calc CalcFacts GstValidation TransactionController CreateOutcome.
Local Open Scope Q_scope.

(** Every error [calculateCommission] throws is an [InvalidInput], and it
    throws exactly on an input outside the accepted ranges. *)
Lemma calculateCommission_error (t p g : Q) (e : Error) :
  calculateCommission t p g = inl e ->
  (exists m, e = InvalidInput m) /\
  (t <= 0 \/ p < 0 \/ 100 < p \/ g < 0 \/ 100 < g).
Proof.
  unfold calculateCommission.
  destruct (Qle_bool t 0) eqn:Et.
  { intros [= <-]. split; [eauto |]. left. now apply Qle_bool_iff. }
  destruct (Qlt_bool p 0) eqn:Ep0; simpl.
  { intros [= <-]. split; [eauto |]. right; left. now apply Qlt_bool_iff. }
  destruct (Qlt_bool 100 p) eqn:Ep1; simpl.
  { intros [= <-]. split; [eauto |]. right; right; left. now apply Qlt_bool_iff. }
  destruct (Qlt_bool g 0) eqn:Eg0; simpl.
  { intros [= <-]. split; [eauto |]. do 3 right; left. now apply Qlt_bool_iff. }
  destruct (Qlt_bool 100 g) eqn:Eg1; simpl.
  { intros [= <-]. split; [eauto |]. do 4 right. now apply Qlt_bool_iff. }
  discriminate.
Qed.

Lemma calculateCommission_ok (t p g : Q) (c : Calculations) :
  calculateCommission t p g = inr c -> valid_input t p g.
Proof.
  unfold calculateCommission, valid_input.
  destruct (Qle_bool t 0) eqn:Et; [discriminate |].
  destruct (Qlt_bool p 0) eqn:Ep0; [discriminate |].
  destruct (Qlt_bool 100 p) eqn:Ep1; [discriminate |].
  destruct (Qlt_bool g 0) eqn:Eg0; [discriminate |].
  destruct (Qlt_bool 100 g) eqn:Eg1; [discriminate |].
  intros _.
  apply Qle_bool_false_iff in Et.
  apply Qlt_bool_false_iff in Ep0, Ep1, Eg0, Eg1. tauto.
Qed.

Lemma calculate_not_a_number_error (t p : option Q) (g : Q) (e : Error) :
  calculate_not_a_number t p g = inl e -> exists m, e = InvalidInput m.
Proof.
  unfold calculate_not_a_number.
  repeat match goal with
         | |- context [if ?b then _ else _] => destruct b
         end; intros [= <-]; eauto.
Qed.

Lemma createTransaction_outcome (env : Env) (today : Date.t) (req : Request)
    (st : Store) :
  Outcome env today req st (createTransaction env today req st).
Proof.
  unfold createTransaction.
  destruct (totalReceived (body req)) as [t |] eqn:Et;
    destruct (commissionPercentValue_of env (body req)) as [p |] eqn:Ep.
  2-4: match goal with
       | |- context [calculate_not_a_number ?a ?b ?g] =>
           destruct (calculate_not_a_number a b g) as [e |] eqn:E
       end;
       [ destruct (calculate_not_a_number_error _ _ _ _ E) as [m ->];
         apply Thrown_before
       | apply Calculation_failed ].
  destruct (calculateCommission t p (gstRate_of env)) as [e | c] eqn:Ec.
  { destruct (calculateCommission_error _ _ _ _ Ec) as [[m ->] _].
    apply Thrown_before. }
  destruct (validateCalculations t c) eqn:Ev; cbn [negb].
  2: apply Calculation_failed.
  destruct (InvoiceNumber.generateInvoiceNumber
              (default today (date (body req))) (invoiceNumbers st))
    as [invoiceNumber series] eqn:Eg.
  destruct (isValid (validateTransactionForGST (commissionAmount c) (gstAmount c) t))
    eqn:Ei; cbn [negb].
  2: { replace (with_invoiceNumbers st series) with (numbered today req st)
         by (unfold numbered; now rewrite Eg).
       eapply Gst_failed; eassumption. }
  pose proof (Created env today req st t p c) as HC.
  unfold document, numbered in HC. rewrite Eg in HC. simpl fst in HC. simpl snd in HC.
  unfold Transaction.create.
  match goal with
  | |- context [Transaction.validate ?d] =>
      destruct (Transaction.validate d) as [| path paths] eqn:Eval
  end.
  - match goal with
    | |- context [Transaction.invoiceNumber_taken ?a ?b] =>
        destruct (Transaction.invoiceNumber_taken a b)
    end.
    + replace (with_invoiceNumbers st series) with (numbered today req st)
        by (unfold numbered; now rewrite Eg).
      apply Thrown_by_store. discriminate.
    + eapply HC; eauto.
  - replace (with_invoiceNumbers st series) with (numbered today req st)
      by (unfold numbered; now rewrite Eg).
    apply Thrown_by_store. discriminate.
Qed.

End CreateFacts.

(* ===================================================================== *)
(** ** Theorems: [createTransaction] and the calculation guards *)
(* ===================================================================== *)

Module CreateTheorems.
Import JS JSFacts JSString Calc CalcFacts GstValidation TransactionController.
Import CreateOutcome CreateFacts.
Local Open Scope Q_scope.

(** [!x || x <= 0] fails exactly on a positive number. *)
Lemma not_positive_false (x : Q) :
  falsy x || Qle_bool x 0 = false <-> 0 < x.
Proof.
  rewrite orb_false_iff, Qle_bool_false_iff. unfold falsy. split.
  - tauto.
  - intros H. split; [| exact H].
    destruct (Qeq_bool x 0) eqn:E; [| reflexivity].
    apply Qeq_bool_iff in E. exfalso. lra.
Qed.

(** [validateTransactionForGST] accepts exactly a positive commission, a
    positive GST and a total different from the commission. *)
Lemma validateTransactionForGST_valid (c g t : Q) :
  isValid (validateTransactionForGST c g t) = true <->
  0 < c /\ 0 < g /\ ~ t == c.
Proof.
  unfold validateTransactionForGST. cbn [isValid].
  rewrite <- !not_positive_false.
  destruct (falsy c || Qle_bool c 0); destruct (falsy g || Qle_bool g 0);
    destruct (Qeq_bool t c) eqn:Et; cbn;
    try (split; [discriminate | intros (H1 & H2 & H3); discriminate]).
  - apply Qeq_bool_iff in Et. split; [discriminate | tauto].
  - apply Qeq_bool_neq in Et. tauto.
Qed.

Lemma calculateCommission_fields (t p g : Q) (c : Calculations) :
  calculateCommission t p g = inr c ->
  valid_input t p g /\
  commissionAmount c = round_cents (t * p / 100) /\
  gstAmount c = round_cents (t * p / 100 * g / 100) /\
  netIncome c = round_cents (t * p / 100 - t * p / 100 * g / 100) /\
  returnAmount c = round_cents (t - t * p / 100).
Proof.
  intros H. pose proof (calculateCommission_ok _ _ _ _ H) as Hv.
  rewrite (calculateCommission_valid _ _ _ Hv) in H.
  injection H as <-. split; [exact Hv |]. cbn. tauto.
Qed.

(** C5.  [calculateCommission] throws an [InvalidInput] exactly when
    [totalReceived <= 0] or the commission percentage or the GST rate is
    outside [0, 100]; when it throws inside [createTransaction] the handler
    passes the error on and the store is unchanged (no invoice number is
    taken, nothing is persisted, nothing is logged); and whenever
    [createTransaction] ends with an [InvalidInput] the store is
    unchanged. *)
Theorem invalid_input_before_any_side_effect :
  (forall t p g : Q,
      (exists m, calculateCommission t p g = inl (InvalidInput m)) <->
      (t <= 0 \/ p < 0 \/ 100 < p \/ g < 0 \/ 100 < g))
  /\ (forall env today req st t p e,
         totalReceived (body req) = Some t ->
         commissionPercentValue_of env (body req) = Some p ->
         calculateCommission t p (gstRate_of env) = inl e ->
         createTransaction env today req st = (Next e, st))
  /\ (forall env today req st m,
         fst (createTransaction env today req st) = Next (InvalidInput m) ->
         snd (createTransaction env today req st) = st).
Proof.
  split; [| split].
  - intros t p g. split.
    + intros [m H]. apply (calculateCommission_error _ _ _ _ H).
    + intros H. destruct (calculateCommission t p g) as [e | c] eqn:E.
      * destruct (calculateCommission_error _ _ _ _ E) as [[m ->] _]. eauto.
      * apply calculateCommission_ok in E.
        destruct E as (Ht & [Hp0 Hp1] & [Hg0 Hg1]). exfalso.
        destruct H as [H | [H | [H | [H | H]]]]; lra.
  - intros env today req st t p e Ht Hp He.
    unfold createTransaction. rewrite Ht, Hp, He. reflexivity.
  - intros env today req st m.
    destruct (createTransaction_outcome env today req st)
      as [m' | | t p c _ _ _ _ | err Hne | t p c entry _ _ _ _ _ _];
      cbn [fst snd]; try discriminate; try reflexivity.
    intros [= ->]. now destruct (Hne m).
Qed.

Lemma invalid_input_before_any_side_effect_witness :
  totalReceived (body (Scenario.post None 0 None)) = Some 0 /\
  commissionPercentValue_of Scenario.env18 (body (Scenario.post None 0 None)) = Some 1 /\
  calculateCommission 0 1 (gstRate_of Scenario.env18)
    = inl (InvalidInput "Total received amount must be greater than 0") /\
  createTransaction Scenario.env18 Scenario.today (Scenario.post None 0 None)
                    Scenario.empty_store
    = (Next (InvalidInput "Total received amount must be greater than 0"),
       Scenario.empty_store).
Proof.
  split; [reflexivity |]. split; [reflexivity |]. split; [reflexivity |].
  apply (proj1 (proj2 invalid_input_before_any_side_effect)
           Scenario.env18 Scenario.today (Scenario.post None 0 None)
           Scenario.empty_store 0 1); reflexivity.
Defined.

(** Every way [createTransaction] ends, except the creation, refuses the
    request. *)
Lemma refused_unless_valid (env : Env) (today : Date.t) (req : Request) (st : Store) :
  (forall t p c,
      totalReceived (body req) = Some t ->
      commissionPercentValue_of env (body req) = Some p ->
      calculateCommission t p (gstRate_of env) = inr c ->
      isValid (validateTransactionForGST (commissionAmount c) (gstAmount c) t)
        = false) ->
  refused st (createTransaction env today req st).
Proof.
  intros Hinvalid.
  destruct (createTransaction_outcome env today req st)
    as [m | | t p c _ _ _ _ | err Hne | t p c entry Ht Hp Hc _ Hi _];
    unfold refused; cbn [fst snd]; try (split; [reflexivity | discriminate]).
  rewrite (Hinvalid t p c Ht Hp Hc) in Hi. discriminate.
Qed.

End CreateTheorems.

(* ===================================================================== *)
(** ** C8, C9: what [createTransaction] lets through, in binary64 *)
(* ===================================================================== *)

Module Create64Theorems.
Import Binary64 Calc64 Create64 Binary64Facts.

(** The three outcomes of [createTransaction_validated], by the two
    validations. *)
Lemma createTransaction_validated_inr (env : Env) (t p : Value) (c : Calculations) :
  createTransaction_validated env t p = inr c ->
  calculateCommission (ToNumber t) (ToNumber (commissionPercentValue_of env p))
                      (gstRate_of env) = inr c
  /\ validateCalculations (ToNumber t) c = true
  /\ validateTransactionForGST (commissionAmount c) (gstAmount c) t = [].
Proof.
  unfold createTransaction_validated.
  destruct (calculateCommission _ _ _) as [err | c']; [discriminate |].
  destruct (validateCalculations _ c') eqn:V; cbn [negb]; [| discriminate].
  destruct (validateTransactionForGST _ _ _) as [| e errors] eqn:G; cbn; [| discriminate].
  intros [= <-]. auto.
Qed.

Lemma positive_of_checks (x : Number) :
  falsy x || leb x zero = false -> ltb zero x = true.
Proof. destruct x as [s | [|] | | [|] m e]; cbn; congruence. Qed.

Lemma validateTransactionForGST_nil (commission gst : Number) (t : Value) :
  validateTransactionForGST commission gst t = [] ->
  ltb zero commission = true /\ ltb zero gst = true /\ strict_equal t commission = false.
Proof.
  unfold validateTransactionForGST.
  destruct (falsy commission || leb commission zero) eqn:Hc; [discriminate |].
  destruct (falsy gst || leb gst zero) eqn:Hg; [discriminate |].
  destruct (strict_equal t commission); [discriminate |].
  intros _. auto using positive_of_checks.
Qed.

(** Whatever the total, the commission at zero percent is a zero or [NaN]. *)
Lemma zero_percent_commission (t : Number) (s : bool) :
  falsy (round_cents (div (mul t (S754_zero s)) hundred)) = true.
Proof. destruct t as [s' | s' | | s' m e]; reflexivity. Qed.

Lemma eqb_zero (x : Number) : eqb x zero = true -> exists s, x = S754_zero s.
Proof. destruct x as [s | [|] | | [|] m e]; cbn; try discriminate. eauto. Qed.



(** At 515.5 and 1% the commission and the return amount, 5.16 and 510.35,
    are as decimals one cent more than the total.  In binary64
    [5.16 + 510.35 - 515.5] is below 0.01, and the create is let through. *)
Example cent_over_is_let_through :
  createTransaction_validated unset (Num (decimal 5155 10)) (Num (of_Z 1))
    = inr {| commissionAmount := decimal 516 100; gstAmount := decimal 93 100;
             netIncome := decimal 423 100; returnAmount := decimal 51035 100 |}
  /\ ltb (abs (sub (add (decimal 516 100) (decimal 51035 100)) (decimal 5155 10)))
         (decimal 1 100) = true.
Proof. split; vm_compute; reflexivity. Qed.

(** C9, as the code has it.  A commission percent of zero, from the body as
    a number or a numeric string or from the default, is always refused: by
    a guard of [calculateCommission], by [validateCalculations], or by
    [validateTransactionForGST] with its first error.  What is let through
    to [Transaction.create] has a positive commission and a positive GST,
    and a total that is not a number equal to the commission.  The last rule
    compares with [===]: it never refuses a total sent as a string, and a
    total sent as a number only when it equals the rounded commission. *)
Theorem boundary_percent_refused (env : Env) (t p : Value) :
  (eqb (ToNumber (commissionPercentValue_of env p)) zero = true ->
   exists response,
     createTransaction_validated env t p = inl response
     /\ ((exists message, response = Next (InvalidInput message))
         \/ response = Json 400 false "Calculation validation failed" NoData
         \/ exists errors,
              response = Json 400 false "GST validation failed" (Errors errors)
              /\ In "Commission amount must be positive for GST reporting"%string errors))
  /\ (forall c, createTransaction_validated env t p = inr c ->
        ltb zero (commissionAmount c) = true
        /\ ltb zero (gstAmount c) = true
        /\ strict_equal t (commissionAmount c) = false
        /\ eqb (ToNumber (commissionPercentValue_of env p)) zero = false).
Proof.
  assert (Hzero : eqb (ToNumber (commissionPercentValue_of env p)) zero = true ->
     exists response,
     createTransaction_validated env t p = inl response
     /\ ((exists message, response = Next (InvalidInput message))
         \/ response = Json 400 false "Calculation validation failed" NoData
         \/ exists errors,
              response = Json 400 false "GST validation failed" (Errors errors)
              /\ In "Commission amount must be positive for GST reporting"%string errors)).
  { intros Hp. apply eqb_zero in Hp as [s Hp].
    unfold createTransaction_validated. rewrite Hp.
    unfold calculateCommission.
    destruct (leb (ToNumber t) zero); [eauto 6 |].
    replace (ltb (S754_zero s) zero || ltb hundred (S754_zero s)) with false
      by (destruct s; reflexivity).
    destruct (ltb (gstRate_of env) zero || ltb hundred (gstRate_of env)); [eauto 6 |].
    match goal with
    | |- context [validateCalculations ?x ?c] => destruct (validateCalculations x c)
    end; cbn [negb]; [| eauto 6].
    cbn [commissionAmount gstAmount]. unfold validateTransactionForGST.
    rewrite zero_percent_commission. cbn [orb].
    eexists. split; [reflexivity |]. right. right.
    eexists. split; [reflexivity |]. left. reflexivity. }
  split; [exact Hzero |].
  intros c H.
  destruct (eqb (ToNumber (commissionPercentValue_of env p)) zero) eqn:Hp.
  { destruct (Hzero eq_refl) as (response & E & _). congruence. }
  apply createTransaction_validated_inr in H as (_ & _ & G).
  apply validateTransactionForGST_nil in G as (Hc & Hg & Ht). auto.
Qed.

Lemma boundary_percent_refused_witness :
  eqb (ToNumber (commissionPercentValue_of unset (Num zero))) zero = true /\
  exists response,
    createTransaction_validated unset (Num (of_Z 1000)) (Num zero) = inl response.
Proof.
  assert (H : eqb (ToNumber (commissionPercentValue_of unset (Num zero))) zero = true)
    by reflexivity.
  split; [exact H |].
  destruct (proj1 (boundary_percent_refused unset (Num (of_Z 1000)) (Num zero)) H)
    as (response & E & _).
  exists response. exact E.
Defined.

(** At 100 percent the rounded commission of a total with a fraction of a
    cent differs from the total, and a total sent as a string is never
    [===] to a number: both are let through.  A total sent as the number
    100 is refused. *)
Lemma full_commission_let_through :
  createTransaction_validated unset (Num (decimal 100004 1000)) (Num hundred)
    = inr {| commissionAmount := hundred; gstAmount := of_Z 18;
             netIncome := of_Z 82; returnAmount := zero |}
  /\ createTransaction_validated unset (Str hundred) (Num hundred)
    = inr {| commissionAmount := hundred; gstAmount := of_Z 18;
             netIncome := of_Z 82; returnAmount := zero |}
  /\ createTransaction_validated unset (Num hundred) (Num hundred)
    = inl (Json 400 false "GST validation failed"
             (Errors ["Total received cannot equal commission amount - verify calculation"%string])).
Proof. repeat split; vm_compute; reflexivity. Qed.

End Create64Theorems.

(* ===================================================================== *)
(** ** Theorems: the filing lock as a write guard *)
(* ===================================================================== *)

Module GuardTheorems.
Import JS JSString TransactionController TransactionUpdates TransactionRoutes.
Import FilingLockMiddleware Scenario.

(** [createTransaction] never reads the filing locks: with any other lock
    collection it gives the same answer and leaves the same transactions,
    invoice series and audit log. *)
Lemma createTransaction_ignores_locks (env : Env) (today : Date.t) (req : Request)
    (st : Store) (locks : gmap (string * Z * Z) GSTFilingLock.t) :
  let st' := mkStore (invoiceNumbers st) locks (transactions st) (auditLogs st)
                     (nextId st) in
  let r := createTransaction env today req st in
  let r' := createTransaction env today req st' in
  fst r' = fst r /\
  filingLocks (snd r') = locks /\
  filingLocks (snd r) = filingLocks st /\
  transactions (snd r') = transactions (snd r) /\
  invoiceNumbers (snd r') = invoiceNumbers (snd r) /\
  auditLogs (snd r') = auditLogs (snd r).
Proof.
  cbv zeta. unfold createTransaction, with_invoiceNumbers.
  cbn [invoiceNumbers filingLocks transactions auditLogs nextId].
  destruct (totalReceived (body req)) as [t |];
    destruct (commissionPercentValue_of env (body req)) as [p |].
  2-4: destruct (calculate_not_a_number _ _ _); cbn; auto 10.
  destruct (Calc.calculateCommission t p (gstRate_of env)) as [e | c]; [cbn; auto 10 |].
  destruct (negb (Calc.validateCalculations t c)); [cbn; auto 10 |].
  destruct (InvoiceNumber.generateInvoiceNumber _ _) as [invoiceNumber series].
  destruct (negb (GstValidation.isValid _)); [cbn; auto 10 |].
  destruct (Transaction.create _ _ _) as [err | [tx coll]]; cbn; auto 10.
Qed.

(** On a request for a stored transaction whose date is locked,
    [checkFilingLock] answers 403 with code [FILING_LOCKED]; it writes an
    audit entry and leaves transactions and locks alone. *)
Lemma checkFilingLock_blocks (today : Date.t) (req : Request) (st : Store)
    (id : N) (tx : Transaction.t) :
  params_id req = Some id ->
  Transaction.findById id (transactions st) = Some tx ->
  GSTFilingLock.isDateLocked (Transaction.date tx) (filingLocks st) = true ->
  exists message st',
    checkFilingLock today req st
      = (Some (Json 403 false message (Code "FILING_LOCKED")), st') /\
    transactions st' = transactions st /\
    filingLocks st' = filingLocks st /\
    invoiceNumbers st' = invoiceNumbers st.
Proof.
  intros Hid Hfind Hlocked. unfold checkFilingLock.
  rewrite Hid, Hfind, Hlocked. eauto 10.
Qed.

(** The update and delete routes refuse a transaction of a locked period. *)
Lemma update_and_delete_guarded (rejected : Response) (env : Env) (today : Date.t)
    (req : Request) (st : Store) (id : N) (tx : Transaction.t) :
  params_id req = Some id ->
  Transaction.findById id (transactions st) = Some tx ->
  GSTFilingLock.isDateLocked (Transaction.date tx) (filingLocks st) = true ->
  (exists message st',
      put_transaction rejected env today req st
        = (Json 403 false message (Code "FILING_LOCKED"), st') /\
      transactions st' = transactions st) /\
  (exists message st',
      delete_transaction today req st
        = (Json 403 false message (Code "FILING_LOCKED"), st') /\
      transactions st' = transactions st).
Proof.
  intros Hid Hfind Hlocked.
  destruct (checkFilingLock_blocks today req st id tx Hid Hfind Hlocked)
    as (message & st' & E & Htx & _).
  split; exists message, st'; (split; [| exact Htx]).
  - unfold put_transaction. cbn [route]. now rewrite E.
  - unfold delete_transaction. cbn [route]. now rewrite E.
Qed.

(** C1, on the code.  January 2024 is locked ([isDateLocked] answers [true]
    for 15 January 2024).  [POST /] with that date is answered 201 and the
    transaction is stored, while [PUT] and [DELETE] of the stored January
    transaction are answered 403 [FILING_LOCKED] and change no
    transaction. *)
Theorem create_in_locked_period :
  GSTFilingLock.isDateLocked jan15 (filingLocks january_locked) = true /\
  (forall rejected, exists tx st',
      post_transaction rejected env18 today (post (Some jan15) 5000 (Some 1%Q))
                       january_locked
        = (Json 201 true "Transaction created successfully" (TransactionData tx), st') /\
      Transaction.date tx = jan15 /\
      Transaction.invoiceNumber tx = Some "INV-FY23-00002"%string /\
      transactions st' = transactions january_locked ++ [tx]) /\
  (forall rejected, exists message st',
      put_transaction rejected env18 today (put 1 5000) january_locked
        = (Json 403 false message (Code "FILING_LOCKED"), st') /\
      transactions st' = transactions january_locked) /\
  (exists message st',
      delete_transaction today (delete 1) january_locked
        = (Json 403 false message (Code "FILING_LOCKED"), st') /\
      transactions st' = transactions january_locked).
Proof.
  split; [reflexivity |]. split; [| split].
  - intros rejected. eexists. eexists. split; [reflexivity |].
    split; [reflexivity |]. split; reflexivity.
  - intros rejected.
    refine (proj1 (update_and_delete_guarded rejected env18 today (put 1 5000)
                     january_locked 1 _ eq_refl eq_refl eq_refl)).
  - refine (proj2 (update_and_delete_guarded (Next (InvalidInput "")) env18 today
                     (delete 1) january_locked 1 _ eq_refl eq_refl eq_refl)).
Qed.

End GuardTheorems.

(* ===================================================================== *)
(** ** Theorems: created transactions and the compliance validator *)
(* ===================================================================== *)

Module ComplianceTheorems.
Import JS JSFacts JSString Calc CalcFacts GstValidation TransactionController.
Import CreateOutcome CreateFacts CreateTheorems Scenario.
Local Open Scope Q_scope.

(** C9, as the claim states it, fails for 100%.  With
    [totalReceived = 100.004] and [commissionPercent = 100] the commission
    rounds to 100.00, which differs from the total, the GST is 18.00, and
    the transaction is created. *)
Lemma full_commission_created :
  TransactionRoutes.transactionValidation
    (body (post None (100004 # 1000) (Some 100))) = true /\
  exists tx st',
    createTransaction env18 today (post None (100004 # 1000) (Some 100)) empty_store
      = (Json 201 true "Transaction created successfully" (TransactionData tx), st') /\
    Transaction.commissionPercent tx = 100 /\
    Transaction.commissionAmount tx == 100 /\
    transactions st' = [tx] /\
    (refused empty_store
       (createTransaction env18 today (post None (100004 # 1000) (Some 100))
                          empty_store) -> False).
Proof.
  split; [reflexivity |].
  eexists. eexists. split; [reflexivity |].
  split; [reflexivity |]. split; [reflexivity |]. split; [reflexivity |].
  intros [H _]. vm_compute in H. discriminate H.
Qed.

(** C3, on the code.  With [GST_RATE=5] a create of 10000 at 1% succeeds
    with [gstAmount = 5.00]; [validateGSTCompliance] on the batch of that
    one transaction expects 18% of the commission, reports one error on
    [gstAmount] and answers [isValid = false]. *)
Theorem created_at_other_rate_fails_compliance :
  exists tx st',
    createTransaction env5 today (post None 10000 (Some 1)) empty_store
      = (Json 201 true "Transaction created successfully" (TransactionData tx), st') /\
    Transaction.commissionAmount tx == 100 /\
    Transaction.gstAmount tx == 5 /\
    compliant (validateGSTCompliance [tx]) = false /\
    findings (validateGSTCompliance [tx]) = [finding 0 tx "gstAmount"].
Proof.
  eexists. eexists. split; [reflexivity |].
  split; [reflexivity |]. split; [reflexivity |]. split; reflexivity.
Qed.

(** A batch is compliant when no transaction of it raises an error. *)
Lemma concat_imap_nil {A B : Type} (f : nat -> A -> list B) (l : list A) :
  (forall i x, In x l -> f i x = []) -> concat (imap f l) = [].
Proof.
  revert f. induction l as [| x l IH]; intros f H; [reflexivity |].
  cbn. rewrite (H 0%nat x) by (left; reflexivity).
  cbn. apply IH. intros i y Hy. apply H. right. exact Hy.
Qed.

Lemma compliant_batch (txs : list Transaction.t) :
  (forall i tx, In tx txs -> errors_of i tx = []) ->
  compliant (validateGSTCompliance txs) = true /\
  findings (validateGSTCompliance txs) = [].
Proof.
  intros H. unfold validateGSTCompliance. cbn [compliant findings].
  rewrite (concat_imap_nil errors_of txs H). split; reflexivity.
Qed.

End ComplianceTheorems.

(* ===================================================================== *)
(** ** Theorems: the fiscal year *)
(* ===================================================================== *)

Module FiscalYearTheorems.
Import JSString StringFacts FiscalYear.

Lemma String_of_Z_nonneg (z : Z) : (0 <= z)%Z -> String_of_Z z = String_of_N (Z.to_N z).
Proof.
  intros H. unfold String_of_Z.
  destruct (z <? 0)%Z eqn:E; [apply Z.ltb_lt in E; lia | reflexivity].
Qed.

(** For a year of at least two digits, [String(year).slice(-2)] is the tens
    and the units digit. *)
Lemma slice_last_2_year (y : Z) :
  (10 <= y)%Z -> slice_last 2 (String_of_Z y) = last_two_digits y.
Proof.
  intros H. rewrite String_of_Z_nonneg by lia.
  rewrite slice_last_2_String_of_N by lia.
  unfold last_two_digits.
  assert (Hd : (0 <= y / 10)%Z) by (apply Z.div_pos; lia).
  rewrite (Z2N.inj_mod (y / 10)), Z2N.inj_div, (Z2N.inj_mod y) by lia.
  reflexivity.
Qed.

(** From the year 11 on the code's fiscal year is the two-digit form. *)
Lemma getFinancialYear_two_digits (date : Date.t) :
  (10 <= start_year date)%Z -> InvoiceNumber.getFinancialYear date = fiscalYear date.
Proof.
  intros H. unfold InvoiceNumber.getFinancialYear, fiscalYear.
  fold (start_year date). now rewrite slice_last_2_year.
Qed.




End FiscalYearTheorems.

(* ===================================================================== *)
(** ** Theorems: the invoice sequence *)
(* ===================================================================== *)

Module InvoiceTheorems.
Import JSString StringFacts Allocation InvoiceNumber FiscalYearTheorems.

Lemma getNextInvoiceNumber_absent (fy : string) (coll : gmap string InvoiceNumber.t) :
  coll !! fy = None ->
  getNextInvoiceNumber fy coll
    = (format "INV" fy 1, <[fy := InvoiceNumber.mk 1 "INV"]> coll).
Proof. intros H. unfold getNextInvoiceNumber. now rewrite H. Qed.

Lemma getNextInvoiceNumber_present (fy : string) (coll : gmap string InvoiceNumber.t)
    (s : InvoiceNumber.t) :
  coll !! fy = Some s ->
  getNextInvoiceNumber fy coll
    = (format (prefix s) fy (lastSequenceNumber s + 1),
       <[fy := InvoiceNumber.mk (lastSequenceNumber s + 1) (prefix s)]> coll).
Proof. intros H. unfold getNextInvoiceNumber. now rewrite H. Qed.

(** From an existing series, [n] allocations issue the next [n] numbers. *)
Lemma allocate_present (fy : string) (n : nat) :
  forall (coll : gmap string InvoiceNumber.t) (s : InvoiceNumber.t),
    coll !! fy = Some s ->
    fst (allocate n fy coll)
      = map (fun k => format (prefix s) fy (lastSequenceNumber s + Z.of_nat k))
            (seq 1 n)
    /\ snd (allocate n fy coll) !! fy
       = Some (InvoiceNumber.mk (lastSequenceNumber s + Z.of_nat n) (prefix s)).
Proof.
  induction n as [| n IH]; intros coll s Hs.
  - cbn. rewrite Z.add_0_r. split; [reflexivity |]. rewrite Hs. now destruct s.
  - cbn [allocate]. rewrite (getNextInvoiceNumber_present fy coll s Hs).
    set (s' := InvoiceNumber.mk (lastSequenceNumber s + 1) (prefix s)).
    destruct (IH (<[fy := s']> coll) s' (lookup_insert_eq _ _ _)) as [IH1 IH2].
    destruct (allocate n fy (<[fy := s']> coll)) as [rest final].
    cbn [fst snd] in *. split.
    + cbn [seq map]. f_equal.
      rewrite IH1, <- (seq_shift n 1), map_map.
      apply map_ext. intros k. cbn [lastSequenceNumber prefix s'].
      f_equal. lia.
    + rewrite IH2. cbn [lastSequenceNumber prefix s']. f_equal. f_equal. lia.
Qed.

Lemma allocate_absent (fy : string) (n : nat) (coll : gmap string InvoiceNumber.t) :
  coll !! fy = None ->
  fst (allocate n fy coll) = map (fun k => format "INV" fy (Z.of_nat k)) (seq 1 n)
  /\ (forall k, n = S k ->
        snd (allocate n fy coll) !! fy = Some (InvoiceNumber.mk (Z.of_nat n) "INV")).
Proof.
  intros H. destruct n as [| n]; [split; [reflexivity | discriminate] |].
  cbn [allocate]. rewrite (getNextInvoiceNumber_absent fy coll H).
  set (s' := InvoiceNumber.mk 1 "INV").
  destruct (allocate_present fy n (<[fy := s']> coll) s' (lookup_insert_eq _ _ _))
    as [A1 A2].
  destruct (allocate n fy (<[fy := s']> coll)) as [rest final].
  cbn [fst snd] in *. split.
  - cbn [seq map]. f_equal.
    rewrite A1, <- (seq_shift n 1), map_map.
    apply map_ext. intros k. cbn [lastSequenceNumber prefix s']. f_equal. lia.
  - intros k _. rewrite A2. cbn [lastSequenceNumber prefix s']. f_equal. f_equal. lia.
Qed.

(** *** Reading the sequence back: the formatted numbers are distinct *)

Lemma parse_from_app (s t : string) : forall acc,
  parse_from acc (s +:+ t) = parse_from (parse_from acc s) t.
Proof. induction s as [| c s IH]; intros acc; cbn; [reflexivity | apply IH]. Qed.

Lemma parse_from_zeros (n : nat) : parse_from 0 (repeat_char "0" n) = 0%N.
Proof. induction n as [| n IH]; cbn; [reflexivity | exact IH]. Qed.

Lemma digit_value_digit_char (d : N) : (d < 10)%N -> digit_value (digit_char d) = d.
Proof.
  intros H. unfold digit_value, digit_char. rewrite N_ascii_embedding by lia. lia.
Qed.

Lemma parse_String_of_N (n : N) : parse_decimal (String_of_N n) = n.
Proof.
  unfold parse_decimal.
  induction n as [n H | n H IH] using decimal_ind.
  - rewrite String_of_N_small by exact H. cbn.
    rewrite digit_value_digit_char by exact H. lia.
  - rewrite String_of_N_step by exact H. rewrite parse_from_app, IH. cbn.
    rewrite digit_value_digit_char by (apply N.mod_lt; lia).
    symmetry. apply N.div_mod'.
Qed.

Lemma parse_padStart (k : nat) (n : N) :
  parse_decimal (padStart k "0" (String_of_N n)) = n.
Proof.
  unfold parse_decimal, padStart.
  rewrite parse_from_app, parse_from_zeros. apply parse_String_of_N.
Qed.

Lemma format_inj (prefix fy : string) (a b : Z) :
  (0 <= a)%Z -> (0 <= b)%Z -> format prefix fy a = format prefix fy b -> a = b.
Proof.
  intros Ha Hb H. unfold format in H.
  do 4 apply String.app_inj in H.
  rewrite !String_of_Z_nonneg in H by assumption.
  apply (f_equal parse_decimal) in H. rewrite !parse_padStart in H. lia.
Qed.

(** C7.  Starting from no series for the fiscal year, [n] sequential
    allocations issue the sequence numbers 1, 2, ..., n in this order, each
    formatted as prefix "INV", the fiscal year and the number padded with
    zeros to five digits; after the k-th allocation the stored counter is k;
    and no invoice number is issued twice. *)
Theorem sequential_allocation (fy : string) (coll : gmap string InvoiceNumber.t)
    (n : nat) :
  coll !! fy = None ->
  fst (allocate n fy coll)
    = map (fun k => "INV" +:+ "-" +:+ fy +:+ "-"
                    +:+ padStart 5 "0" (String_of_Z (Z.of_nat k)))
          (seq 1 n)
  /\ (forall k, (1 <= k <= n)%nat ->
        lastSequenceNumber <$> (snd (allocate k fy coll) !! fy) = Some (Z.of_nat k))
  /\ NoDup (fst (allocate n fy coll)).
Proof.
  intros H. destruct (allocate_absent fy n coll H) as [A1 _].
  split; [exact A1 |]. split.
  - intros k Hk. destruct k as [| k]; [lia |].
    destruct (allocate_absent fy (S k) coll H) as [_ A2].
    now rewrite (A2 k eq_refl).
  - rewrite A1. apply NoDup_fmap_2_strong; [| apply NoDup_seq].
    intros a b _ _ E. apply format_inj in E; lia.
Qed.

Lemma sequential_allocation_witness :
  (∅ : gmap string InvoiceNumber.t) !! "FY24"%string = None /\
  fst (allocate 2 "FY24" ∅) = ["INV-FY24-00001"%string; "INV-FY24-00002"%string] /\
  fst (generateInvoiceNumber (Date.mk 2024 4 15) ∅) = "INV-FY24-00001"%string /\
  fst (generateInvoiceNumber (Date.mk 2025 1 1)
         (snd (generateInvoiceNumber (Date.mk 2024 4 15) ∅)))
    = "INV-FY24-00002"%string.
Proof.
  assert (H : (∅ : gmap string InvoiceNumber.t) !! "FY24"%string = None)
    by reflexivity.
  split; [exact H |].
  split; [exact (proj1 (sequential_allocation "FY24" ∅ 2 H)) |].
  split; reflexivity.
Defined.

End InvoiceTheorems.

(* ===================================================================== *)
(** ** Theorems: the invoice number format *)
(* ===================================================================== *)

Module FormatTheorems.
Import JSString StringFacts FiscalYear InvoiceNumber FiscalYearTheorems.

Lemma strip_prefix_inv (p : string) : forall s r,
  strip_prefix p s = Some r -> s = p +:+ r.
Proof.
  induction p as [| a p IH]; intros s r H; cbn in H.
  - now injection H as ->.
  - destruct s as [| b s]; [discriminate |].
    destruct (Ascii.eqb a b) eqn:E; [| discriminate].
    apply Ascii.eqb_eq in E. subst b. cbn. f_equal. now apply IH.
Qed.

(** A string the pattern [/^FY\d{2}$/] accepts is "FY" and two digits. *)
Lemma test_FY_inv (fy : string) :
  test_FY fy = true ->
  exists a b, fy = String "F" (String "Y" (String a (String b "")))
              /\ is_digit a = true /\ is_digit b = true.
Proof.
  unfold test_FY. destruct (strip_prefix "FY" fy) as [rest |] eqn:E; [| discriminate].
  apply strip_prefix_inv in E. subst fy.
  destruct rest as [| a [| b [| c rest]]]; cbn; try discriminate.
  rewrite !andb_true_r. intros H. apply andb_true_iff in H.
  exists a, b. tauto.
Qed.

(** Behind the pattern's literal head, an invoice number of the series
    matches exactly when its sequence part has five characters. *)
Lemma test_invoiceNumber_format (fy : string) (n : N) :
  test_FY fy = true ->
  test_invoiceNumber (format "INV" fy (Z.of_N n))
    = (String.length (padStart 5 "0" (String_of_N n)) =? 5)%nat.
Proof.
  intros H. destruct (test_FY_inv fy H) as (a & b & -> & Ha & Hb).
  unfold format. rewrite String_of_Z_nonneg, N2Z.id by lia.
  set (pad := padStart 5 "0" (String_of_N n)).
  assert (Hd : all_digits pad = true).
  { unfold pad. rewrite all_digits_padStart. apply all_digits_String_of_N. }
  unfold test_invoiceNumber. cbn -[substring all_digits Nat.eqb].
  change (substring 0 2 (String a (String b (String "-" pad))))
    with (String a (String b "")).
  change (substring 2 1 (String a (String b (String "-" pad))))
    with (String "-" (substring 0 0 pad)).
  replace (substring 0 0 pad) with EmptyString by (now destruct pad).
  change (substring 3 5 (String a (String b (String "-" pad))))
    with (substring 0 5 pad).
  cbn [all_digits]. rewrite Ha, Hb. cbn [andb].
  change (("-" =? "-")%string) with true. rewrite andb_true_r.
  change (S (S (S (String.length pad))) =? 8)%nat with (String.length pad =? 5)%nat.
  destruct (String.length pad =? 5)%nat eqn:E; [| reflexivity].
  apply Nat.eqb_eq in E. rewrite <- E, substring_all, Hd. reflexivity.
Qed.

Lemma length_padStart_5 (n : N) :
  (String.length (padStart 5 "0" (String_of_N n)) =? 5)%nat = true
  <-> (n <= 99999)%N.
Proof.
  rewrite Nat.eqb_eq, length_padStart.
  pose proof (length_String_of_N n 4) as L.
  change (10 ^ N.of_nat 5)%N with 100000%N in L. lia.
Qed.

(** The fiscal year of a date from the year 11 on has the schema's form. *)
Lemma test_FY_getFinancialYear (date : Date.t) :
  (10 <= start_year date)%Z -> test_FY (getFinancialYear date) = true.
Proof.
  intros H.
  rewrite (getFinancialYear_two_digits date H).
  unfold fiscalYear, last_two_digits, test_FY. cbn.
  rewrite !is_digit_digit_char; [reflexivity | |].
  - assert (0 <= start_year date mod 10 < 10)%Z by (apply Z.mod_pos_bound; lia). lia.
  - assert (0 <= (start_year date / 10) mod 10 < 10)%Z
      by (apply Z.mod_pos_bound; lia). lia.
Qed.

Lemma invoiceNumber_path_fails (doc : Transaction.t) (inv : string) :
  Transaction.invoiceNumber doc = Some inv ->
  test_invoiceNumber inv = false ->
  In "invoiceNumber"%string (Transaction.validate doc).
Proof.
  intros Hinv Htest. unfold Transaction.validate.
  rewrite Hinv. cbn [Transaction.matches]. rewrite Htest.
  rewrite !in_app_iff. do 7 right. left. left. reflexivity.
Qed.

(** C10.  For a date from the year 11 on whose series, if there is one,
    carries the prefix "INV" and a non-negative counter, the number
    [generateInvoiceNumber] issues matches [/^INV-FY\d{2}-\d{5}$/] exactly
    when the counter after the increment is at most 99999.  From 100000 on
    [padStart] adds and removes nothing, the sequence part is longer than
    five characters, and [Transaction.create] rejects a document carrying the
    number with a validation error on [invoiceNumber]. *)
Theorem invoice_format_up_to_99999 (date : Date.t)
    (series : gmap string InvoiceNumber.t) :
  (10 <= start_year date)%Z ->
  (forall s, series !! getFinancialYear date = Some s ->
             prefix s = "INV"%string /\ (0 <= lastSequenceNumber s)%Z) ->
  let counter := counter_after (getFinancialYear date) series in
  let issued := fst (generateInvoiceNumber date series) in
  issued = format "INV" (getFinancialYear date) counter
  /\ (test_invoiceNumber issued = true <-> (counter <= 99999)%Z)
  /\ ((100000 <= counter)%Z ->
      padStart 5 "0" (String_of_Z counter) = String_of_Z counter
      /\ (5 < String.length (String_of_Z counter))%nat
      /\ forall id doc collection,
           Transaction.invoiceNumber doc = Some issued ->
           exists paths,
             Transaction.create id doc collection = inl (ValidationError paths)
             /\ In "invoiceNumber"%string paths).
Proof.
  intros Hy Hseries counter issued.
  assert (Hpos : (1 <= counter)%Z).
  { unfold counter, counter_after.
    destruct (series !! getFinancialYear date) as [s |] eqn:Es; [| lia].
    destruct (Hseries s eq_refl) as [_ Hn]. lia. }
  assert (Ei : issued = format "INV" (getFinancialYear date) counter).
  { unfold issued, counter, counter_after, generateInvoiceNumber.
    destruct (series !! getFinancialYear date) as [s |] eqn:Es.
    - destruct (Hseries s eq_refl) as [Hp _].
      rewrite (InvoiceTheorems.getNextInvoiceNumber_present _ _ _ Es), Hp.
      reflexivity.
    - rewrite (InvoiceTheorems.getNextInvoiceNumber_absent _ _ Es). reflexivity. }
  assert (Et : test_invoiceNumber issued
               = (String.length (padStart 5 "0" (String_of_N (Z.to_N counter))) =? 5)%nat).
  { rewrite Ei. rewrite <- (Z2N.id counter) at 1 by lia.
    apply test_invoiceNumber_format, test_FY_getFinancialYear, Hy. }
  split; [exact Ei |]. split.
  - rewrite Et, length_padStart_5. lia.
  - intros Hbig.
    assert (Hlen : (5 < String.length (String_of_Z counter))%nat).
    { rewrite String_of_Z_nonneg by lia.
      pose proof (length_String_of_N (Z.to_N counter) 4) as L.
      change (10 ^ N.of_nat 5)%N with 100000%N in L.
      destruct (le_lt_dec (String.length (String_of_N (Z.to_N counter))) 5)
        as [Hle | Hgt]; [| exact Hgt].
      apply L in Hle. lia. }
    split; [apply padStart_long; lia |]. split; [exact Hlen |].
    intros id doc collection Hdoc.
    assert (Hfalse : test_invoiceNumber issued = false).
    { rewrite Et.
      destruct (String.length _ =? 5)%nat eqn:E; [| reflexivity].
      apply length_padStart_5 in E. lia. }
    pose proof (invoiceNumber_path_fails doc issued Hdoc Hfalse) as Hin.
    unfold Transaction.create.
    destruct (Transaction.validate doc) as [| path paths]; [destruct Hin |].
    eexists. split; [reflexivity | exact Hin].
Qed.

Lemma invoice_format_up_to_99999_witness :
  let series : gmap string InvoiceNumber.t :=
    {[ "FY24"%string := InvoiceNumber.mk 99999 "INV" ]} in
  (10 <= start_year (Date.mk 2024 4 15))%Z /\
  fst (generateInvoiceNumber (Date.mk 2024 4 15) series) = "INV-FY24-100000"%string /\
  test_invoiceNumber (fst (generateInvoiceNumber (Date.mk 2024 4 15) series)) = false /\
  test_invoiceNumber (fst (generateInvoiceNumber (Date.mk 2024 4 15) ∅)) = true.
Proof.
  cbv zeta.
  assert (Hy : (10 <= start_year (Date.mk 2024 4 15))%Z) by (vm_compute; discriminate).
  split; [exact Hy |]. split; [reflexivity |].
  assert (Hs : forall s,
             ({[ "FY24"%string := InvoiceNumber.mk 99999 "INV" ]}
                : gmap string InvoiceNumber.t) !! getFinancialYear (Date.mk 2024 4 15)
             = Some s ->
             prefix s = "INV"%string /\ (0 <= lastSequenceNumber s)%Z).
  { intros s E. change (Some (InvoiceNumber.mk 99999 "INV") = Some s) in E.
    injection E as <-. split; [reflexivity | cbn; lia]. }
  assert (He : forall s,
             (∅ : gmap string InvoiceNumber.t) !! getFinancialYear (Date.mk 2024 4 15)
             = Some s ->
             prefix s = "INV"%string /\ (0 <= lastSequenceNumber s)%Z).
  { intros s E. change (None = Some s) in E. discriminate E. }
  split.
  - destruct (invoice_format_up_to_99999 (Date.mk 2024 4 15) _ Hy Hs)
      as (_ & Hiff & _).
    apply not_true_is_false. intros E. apply Hiff in E. vm_compute in E.
    apply E. reflexivity.
  - destruct (invoice_format_up_to_99999 (Date.mk 2024 4 15) _ Hy He)
      as (_ & Hiff & _).
    apply Hiff. vm_compute. discriminate.
Defined.

End FormatTheorems.

(* ===================================================================== *)
(** ** Theorems: locking a period again *)
(* ===================================================================== *)

Module LockTheorems.
Import JSString Scenario.

(** For a month from 1 to 12 and a year the router accepts,
    [new Date(year, month - 1, 1)] is that month of that year. *)
Lemma first_of_month_fields (month year : Z) :
  (1 <= month <= 12)%Z -> (2000 <= year <= 2100)%Z ->
  Date.first_of_month year (month - 1) = Date.mk year (month - 1) 1.
Proof.
  intros Hm Hy. unfold Date.first_of_month.
  replace ((0 <=? year)%Z && (year <=? 99)%Z) with false
    by (symmetry; apply andb_false_iff; right; apply Z.leb_gt; lia).
  rewrite Z.div_small, Z.mod_small by lia. f_equal. lia.
Qed.

(** For such a period [isDateLocked] reads the document under the key
    [lockMonth] writes. *)
Lemma isDateLocked_period (month year : Z)
    (locks : gmap (string * Z * Z) GSTFilingLock.t) :
  (1 <= month <= 12)%Z -> (2000 <= year <= 2100)%Z ->
  let date := Date.first_of_month year (month - 1) in
  GSTFilingLock.isDateLocked date locks
    = match locks !! (InvoiceNumber.getFinancialYear date, month, year) with
      | Some lock => GSTFilingLock.isLocked lock
      | None => false
      end.
Proof.
  intros Hm Hy date. subst date.
  rewrite first_of_month_fields by assumption.
  unfold GSTFilingLock.isDateLocked. cbn [Date.getFullYear Date.getMonth].
  replace (month - 1 + 1)%Z with month by lia. reflexivity.
Qed.

(** C4, as the code has it.  For a period that is already locked, the model
    operation [GSTFilingLock.lockMonth] succeeds and overwrites the record:
    [isLocked] stays true and [lockedAt], [lockedBy], the filing dates and
    the remarks, trimmed, are those of the new call.  The lock operation of the
    controller never reaches it: it answers 400 "already locked" and leaves
    the store as it is. *)
Theorem relock_upserts_in_model_refused_by_controller (month year : Z) (st : Store)
    (old : GSTFilingLock.t) :
  (1 <= month <= 12)%Z -> (2000 <= year <= 2100)%Z ->
  let fy := InvoiceNumber.getFinancialYear (Date.first_of_month year (month - 1)) in
  filingLocks st !! (fy, month, year) = Some old ->
  GSTFilingLock.isLocked old = true ->
  (forall lockedBy options now id, exists lock,
      GSTFilingLock.lockMonth month year lockedBy options now id (filingLocks st)
        = inr (lock, <[(fy, month, year) := lock]> (filingLocks st))
      /\ GSTFilingLock.isLocked lock = true
      /\ GSTFilingLock.lockedAt lock = now
      /\ GSTFilingLock.lockedBy lock = lockedBy
      /\ GSTFilingLock.gstr1FilingDate lock = GSTFilingLock.opt_gstr1FilingDate options
      /\ GSTFilingLock.gstr3BFilingDate lock = GSTFilingLock.opt_gstr3BFilingDate options
      /\ GSTFilingLock.remarks lock = trim (default "" (GSTFilingLock.opt_remarks options))
      /\ GSTFilingLock._id lock = GSTFilingLock._id old)
  /\ (forall now req,
        FilingLockController.lock_month req = Some month ->
        FilingLockController.lock_year req = Some year ->
        FilingLockController.lockMonth now req st
          = (Json 400 false
               ("Month " +:+ String_of_Z month +:+ "/" +:+ String_of_Z year
                +:+ " is already locked") NoData,
             st)).
Proof.
  intros Hm Hy fy Hold Hlocked. split.
  - intros lockedBy options now id. unfold GSTFilingLock.lockMonth.
    fold fy. rewrite Hold. eexists. split; [reflexivity |].
    cbn. tauto.
  - intros now req Emonth Eyear. unfold FilingLockController.lockMonth.
    rewrite Emonth, Eyear. cbn [FilingLockController.missing default from_option id].
    replace (month =? 0)%Z with false by (symmetry; apply Z.eqb_neq; lia).
    replace (year =? 0)%Z with false by (symmetry; apply Z.eqb_neq; lia).
    cbn [orb].
    rewrite (isDateLocked_period month year (filingLocks st) Hm Hy).
    fold fy. rewrite Hold, Hlocked. reflexivity.
Qed.

Lemma relock_upserts_in_model_refused_by_controller_witness :
  exists lock,
    GSTFilingLock.lockMonth 1 2024 9
        {| GSTFilingLock.opt_gstr1FilingDate := None;
           GSTFilingLock.opt_gstr3BFilingDate := None;
           GSTFilingLock.opt_remarks := Some " again "%string |}
        2000 50 (filingLocks january_locked)
      = inr (lock, <[("FY23"%string, 1%Z, 2024%Z) := lock]> (filingLocks january_locked))
    /\ GSTFilingLock.isLocked lock = true
    /\ GSTFilingLock.lockedAt lock = 2000%Z
    /\ GSTFilingLock.lockedBy lock = 9%N
    /\ GSTFilingLock.remarks lock = "again"%string.
Proof.
  assert (Hm : (1 <= 1 <= 12)%Z) by lia.
  assert (Hy : (2000 <= 2024 <= 2100)%Z) by lia.
  assert (Hold : exists old,
             filingLocks january_locked !! ("FY23"%string, 1%Z, 2024%Z) = Some old
             /\ GSTFilingLock.isLocked old = true).
  { eexists. split; reflexivity. }
  destruct Hold as (old & Hold & Hlocked).
  destruct (proj1 (relock_upserts_in_model_refused_by_controller
                     1 2024 january_locked old Hm Hy Hold Hlocked)
              9%N
              {| GSTFilingLock.opt_gstr1FilingDate := None;
                 GSTFilingLock.opt_gstr3BFilingDate := None;
                 GSTFilingLock.opt_remarks := Some " again "%string |}
              2000%Z 50%N)
    as (lock & E & H1 & H2 & H3 & _ & _ & H4 & _).
  exists lock. split; [exact E |]. tauto.
Defined.

(** Where the controller does reach the upsert on an existing record: the
    period was unlocked.  It answers 201 and the record is locked again with
    the metadata of this call. *)
Lemma lock_again_after_unlock (month year : Z) (st : Store) (old : GSTFilingLock.t)
    (now : Z) (req : FilingLockController.LockRequest) :
  (1 <= month <= 12)%Z -> (2000 <= year <= 2100)%Z ->
  let fy := InvoiceNumber.getFinancialYear (Date.first_of_month year (month - 1)) in
  filingLocks st !! (fy, month, year) = Some old ->
  GSTFilingLock.isLocked old = false ->
  FilingLockController.lock_month req = Some month ->
  FilingLockController.lock_year req = Some year ->
  exists message lock st',
    FilingLockController.lockMonth now req st
      = (Json 201 true message (LockData lock), st')
    /\ filingLocks st' = <[(fy, month, year) := lock]> (filingLocks st)
    /\ GSTFilingLock.isLocked lock = true
    /\ GSTFilingLock.lockedAt lock = now
    /\ GSTFilingLock.lockedBy lock = FilingLockController.lock_user req.
Proof.
  intros Hm Hy fy Hold Hunlocked Emonth Eyear.
  unfold FilingLockController.lockMonth.
  rewrite Emonth, Eyear. cbn [FilingLockController.missing default from_option id].
  replace (month =? 0)%Z with false by (symmetry; apply Z.eqb_neq; lia).
  replace (year =? 0)%Z with false by (symmetry; apply Z.eqb_neq; lia).
  cbn [orb].
  rewrite (isDateLocked_period month year (filingLocks st) Hm Hy).
  fold fy. rewrite Hold, Hunlocked.
  unfold GSTFilingLock.lockMonth. fold fy. rewrite Hold.
  eexists. eexists. eexists. split; [reflexivity |]. cbn. tauto.
Qed.

(** C4, as the claim states it, fails.  January 2024 is locked (at time
    1000).  The lock operation, called again at time 2000, is answered 400
    "Month 1/2024 is already locked"; the store, and with it the record's
    [lockedAt], is unchanged. *)
Lemma relock_refused :
  GSTFilingLock.isDateLocked (Date.first_of_month 2024 0) (filingLocks january_locked)
    = true /\
  FilingLockController.lockMonth 2000 lock_january january_locked
    = (Json 400 false "Month 1/2024 is already locked" NoData, january_locked) /\
  GSTFilingLock.lockedAt
    <$> (filingLocks (snd (FilingLockController.lockMonth 2000 lock_january
                             january_locked))
           !! ("FY23"%string, 1%Z, 2024%Z))
    = Some 1000%Z.
Proof. split; [reflexivity |]. split; reflexivity. Qed.

End LockTheorems.

(* ===================================================================== *)
(** ** The specification's concrete scenarios, run on the model *)
(* ===================================================================== *)

Module SpecScenarios.
Import JS Calc GstValidation TransactionController TransactionUpdates TransactionRoutes.
Import Scenario.
Local Open Scope Q_scope.

(** Scenario 1: 10000 at 1% and 18% gives 100.00, 18.00, 82.00, 9900.00. *)
Example scenario_1 :
  exists c, calculateCommission 10000 1 18 = inr c /\
            Calc_eq c (mkCalculations 100 18 82 9900).
Proof. eexists. split; [reflexivity |]. repeat split; reflexivity. Qed.

(** Scenario 2: a total of 0 is an invalid input. *)
Example scenario_2 :
  calculateCommission 0 1 18
    = inl (InvalidInput "Total received amount must be greater than 0").
Proof. reflexivity. Qed.

(** Scenario 3: a percentage of 150 is an invalid input. *)
Example scenario_3 :
  calculateCommission 5000 150 18
    = inl (InvalidInput "Commission percentage must be between 0 and 100").
Proof. reflexivity. Qed.

(** Scenario 4: with January 2024 locked, updating the transaction dated
    15 January 2024 is answered 403, and updating one dated 1 February 2024
    (id 3, created after the lock) succeeds. *)
Example scenario_4 :
  let rejected := Json 400 false "Validation failed" NoData in
  let with_february :=
    snd (createTransaction env18 today (post (Some (Date.mk 2024 1 1)) 2000 None)
                           january_locked) in
  (exists message st',
      put_transaction rejected env18 today (put 1 5000) with_february
        = (Json 403 false message (Code "FILING_LOCKED"), st')) /\
  (exists tx st',
      put_transaction rejected env18 today (put 3 5000) with_february
        = (Json 200 true "" (TransactionData tx), st') /\
      Transaction.totalReceived tx = 5000 /\
      Transaction.commissionAmount tx == 50).
Proof.
  cbv zeta. split.
  - eexists. eexists. reflexivity.
  - eexists. eexists. split; [reflexivity |]. split; reflexivity.
Qed.

(** Scenario 5: two creates in FY24, one after the other, are numbered
    INV-FY24-00001 and INV-FY24-00002. *)
Example scenario_5 :
  let first := createTransaction env18 today (post None 10000 None) empty_store in
  let second := createTransaction env18 today (post (Some feb1_2025) 500 None)
                                  (snd first) in
  Transaction.invoiceNumber <$> transactions (snd second)
    = [Some "INV-FY24-00001"%string; Some "INV-FY24-00002"%string].
Proof. reflexivity. Qed.

(** Scenario 6: a batch of one transaction whose GST was set to a wrong
    value is invalid, with one error on [gstAmount]. *)
Example scenario_6 :
  let tx := {| Transaction._id := 1; Transaction.date := today;
               Transaction.totalReceived := 10000;
               Transaction.commissionPercent := 1;
               Transaction.commissionAmount := 100;
               Transaction.gstAmount := 20;
               Transaction.netIncome := 80;
               Transaction.returnAmount := 9900;
               Transaction.paymentMode := "QR"; Transaction.createdBy := 7;
               Transaction.remarks := "";
               Transaction.invoiceNumber := Some "INV-FY24-00001"%string;
               Transaction.financialYear := Some "FY24"%string |} in
  compliant (validateGSTCompliance [tx]) = false /\
  findings (validateGSTCompliance [tx]) = [finding 0 tx "gstAmount"].
Proof. split; reflexivity. Qed.

(** An unset [DEFAULT_COMMISSION_PERCENT] makes the percentage of a request
    without one [NaN]: the create is answered 400 and nothing changes. *)
Example create_without_default_percent :
  createTransaction {| DEFAULT_COMMISSION_PERCENT := None; GST_RATE := Some 18 |}
                    today (post None 10000 None) empty_store
    = (Json 400 false "Calculation validation failed" NoData, empty_store).
Proof. reflexivity. Qed.

(** A create refused by [validateTransactionForGST] has already taken its
    invoice number. *)
Example refused_create_takes_a_number :
  InvoiceNumber.lastSequenceNumber
    <$> (invoiceNumbers (snd (createTransaction env18 today
                                (post None 100 (Some 0)) empty_store))
           !! "FY24"%string)
    = Some 1%Z.
Proof. reflexivity. Qed.

End SpecScenarios.

(* ===================================================================== *)
(** ** Further properties: the calculation rule and its validator *)
(* ===================================================================== *)

Module CalcExtras.
Import JS JSFacts Calc CalcFacts.
Local Open Scope Q_scope.




End CalcExtras.

(* ===================================================================== *)
(** ** Further properties: what [createTransaction] stores and changes *)
(* ===================================================================== *)

Module CreateExtras.
Import JS JSFacts JSString Calc CalcFacts GstValidation TransactionController.
Import CreateOutcome CreateFacts CreateTheorems CalcExtras.
Local Open Scope Q_scope.

Lemma if_nil_true {A : Type} (b : bool) (x : A) :
  (if b then [] else [x]) = [] -> b = true.
Proof. destruct b; [reflexivity | discriminate]. Qed.

(** A document with no failing path satisfies every validator of the
    schema. *)
Lemma validate_nil (doc : Transaction.t) :
  Transaction.validate doc = [] ->
  (1 # 100) <= Transaction.totalReceived doc /\
  0 <= Transaction.commissionPercent doc /\
  Transaction.commissionPercent doc <= 100 /\
  0 <= Transaction.commissionAmount doc /\
  0 <= Transaction.gstAmount doc /\
  0 <= Transaction.returnAmount doc /\
  Transaction.paymentMode doc = "QR"%string /\
  (String.length (Transaction.remarks doc) <= 500)%nat /\
  Transaction.matches test_invoiceNumber (Transaction.invoiceNumber doc) = true /\
  Transaction.matches test_FY (Transaction.financialYear doc) = true.
Proof.
  unfold Transaction.validate. intros H.
  repeat (apply app_eq_nil in H; let H1 := fresh "H" in destruct H as [H1 H];
          apply if_nil_true in H1).
  apply if_nil_true in H.
  repeat match goal with
         | E : _ && _ = true |- _ => apply andb_true_iff in E; destruct E
         | E : Qle_bool _ _ = true |- _ => apply Qle_bool_iff in E
         | E : String.eqb _ _ = true |- _ => apply String.eqb_eq in E
         | E : (_ <=? _)%nat = true |- _ => apply Nat.leb_le in E
         end.
  tauto.
Qed.

(** X3.  Every transaction [createTransaction] answers with a 201 has a
    positive commission and GST, an invoice number and a fiscal year of the
    schema's form (the fiscal year being that of its date), the requesting
    user as its creator, and passes the schema's bounds; it is the last
    element of the stored transactions, which are otherwise unchanged, and
    the filing locks are untouched. *)
Theorem created_transaction_invariants (env : Env) (today : Date.t) (req : Request)
    (st st' : Store) (tx : Transaction.t) :
  createTransaction env today req st
    = (Json 201 true "Transaction created successfully" (TransactionData tx), st') ->
  0 < Transaction.commissionAmount tx /\
  0 < Transaction.gstAmount tx /\
  (1 # 100) <= Transaction.totalReceived tx /\
  0 <= Transaction.commissionPercent tx <= 100 /\
  0 <= Transaction.returnAmount tx /\
  Transaction.paymentMode tx = "QR"%string /\
  (String.length (Transaction.remarks tx) <= 500)%nat /\
  (exists inv, Transaction.invoiceNumber tx = Some inv /\ test_invoiceNumber inv = true) /\
  Transaction.financialYear tx
    = Some (InvoiceNumber.getFinancialYear (Transaction.date tx)) /\
  test_FY (InvoiceNumber.getFinancialYear (Transaction.date tx)) = true /\
  Transaction.createdBy tx = user req /\
  transactions st' = transactions st ++ [tx] /\
  filingLocks st' = filingLocks st.
Proof.
  destruct (createTransaction_outcome env today req st)
    as [m | | t p c _ _ _ _ | err Hne | t p c entry Ht Hp Hc Hv Hi Hval];
    try discriminate.
  intros [= <- <-].
  apply validateTransactionForGST_valid in Hi. destruct Hi as (Hcpos & Hgpos & Hneq).
  destruct (validate_nil _ Hval)
    as (V1 & V2 & V3 & V4 & V5 & V6 & V7 & V8 & V9 & V10).
  cbn [document Transaction.commissionAmount Transaction.gstAmount
       Transaction.totalReceived Transaction.netIncome Transaction.returnAmount
       Transaction.commissionPercent Transaction.paymentMode Transaction.remarks
       Transaction.invoiceNumber Transaction.financialYear Transaction.date
       Transaction.createdBy Transaction.matches
       commissionAmount gstAmount netIncome returnAmount] in *.
  repeat split; try assumption; try reflexivity.
  eexists. split; [reflexivity | exact V9].
Qed.

Lemma created_transaction_invariants_witness :
  exists tx st',
    createTransaction Scenario.env18 Scenario.today
        (Scenario.post None 10000 (Some 1)) Scenario.empty_store
      = (Json 201 true "Transaction created successfully" (TransactionData tx), st') /\
    0 < Transaction.commissionAmount tx /\
    0 < Transaction.gstAmount tx /\
    transactions st' = [tx].
Proof.
  eexists. eexists.
  assert (E : createTransaction Scenario.env18 Scenario.today
                (Scenario.post None 10000 (Some 1)) Scenario.empty_store
              = (Json 201 true "Transaction created successfully"
                   (TransactionData _), _)) by reflexivity.
  split; [exact E |].
  destruct (created_transaction_invariants _ _ _ _ _ _ E)
    as (H1 & H2 & _ & _ & _ & _ & _ & _ & _ & _ & _ & H12 & _).
  split; [exact H1 |]. split; [exact H2 | exact H12].
Defined.

(** X4.  When [createTransaction] answers 400 "GST validation failed", the
    invoice number of the request has already been taken: the counter of the
    request's fiscal year is one higher than before (1 for a new series),
    while no transaction is stored and no audit entry written.  The sequence
    has a gap at that number. *)
Theorem gst_refusal_takes_invoice_number (env : Env) (today : Date.t) (req : Request)
    (st : Store) (payload : Payload) :
  fst (createTransaction env today req st)
    = Json 400 false "GST validation failed" payload ->
  let fy := InvoiceNumber.getFinancialYear (default today (date (body req))) in
  let st' := snd (createTransaction env today req st) in
  InvoiceNumber.lastSequenceNumber <$> (invoiceNumbers st' !! fy)
    = Some (InvoiceNumber.counter_after fy (invoiceNumbers st)) /\
  transactions st' = transactions st /\
  auditLogs st' = auditLogs st /\
  filingLocks st' = filingLocks st.
Proof.
  destruct (createTransaction_outcome env today req st)
    as [m | | t p c _ _ _ _ | err Hne | t p c entry _ _ _ _ _ _];
    cbn [fst snd]; try discriminate.
  intros _. cbv zeta.
  unfold numbered, with_invoiceNumbers.
  cbn [invoiceNumbers transactions auditLogs filingLocks].
  repeat split.
  unfold InvoiceNumber.generateInvoiceNumber, InvoiceNumber.getNextInvoiceNumber,
    InvoiceNumber.counter_after.
  cbn [snd]. rewrite lookup_insert_eq.
  destruct (invoiceNumbers st !! _); reflexivity.
Qed.

Lemma gst_refusal_takes_invoice_number_witness :
  fst (createTransaction Scenario.env18 Scenario.today
         (Scenario.post None 100 (Some 0)) Scenario.empty_store)
    = Json 400 false "GST validation failed"
        (Errors ["Commission amount must be positive for GST reporting"%string;
                 "GST amount must be positive for GST reporting"%string]) /\
  InvoiceNumber.lastSequenceNumber
    <$> (invoiceNumbers (snd (createTransaction Scenario.env18 Scenario.today
                                (Scenario.post None 100 (Some 0))
                                Scenario.empty_store))
           !! "FY24"%string)
    = Some 1%Z.
Proof.
  assert (E : fst (createTransaction Scenario.env18 Scenario.today
                     (Scenario.post None 100 (Some 0)) Scenario.empty_store)
              = Json 400 false "GST validation failed"
                  (Errors ["Commission amount must be positive for GST reporting"%string;
                           "GST amount must be positive for GST reporting"%string]))
    by reflexivity.
  split; [exact E |].
  exact (proj1 (gst_refusal_takes_invoice_number _ _ _ _ _ E)).
Defined.

(** X5.  Whatever the request, [createTransaction] leaves the filing locks
    and the invoice series of every other fiscal year as they are, and never
    lowers a counter; either it stores nothing and logs nothing, or it
    answers 201 and appends exactly one transaction and one audit entry. *)
Theorem createTransaction_effects (env : Env) (today : Date.t) (req : Request)
    (st : Store) :
  let r := createTransaction env today req st in
  let fy := InvoiceNumber.getFinancialYear (default today (date (body req))) in
  filingLocks (snd r) = filingLocks st
  /\ (forall fy', fy' <> fy -> invoiceNumbers (snd r) !! fy' = invoiceNumbers st !! fy')
  /\ (invoiceNumbers (snd r) = invoiceNumbers st
      \/ InvoiceNumber.lastSequenceNumber <$> (invoiceNumbers (snd r) !! fy)
         = Some (InvoiceNumber.counter_after fy (invoiceNumbers st)))
  /\ ((transactions (snd r) = transactions st /\ auditLogs (snd r) = auditLogs st
       /\ forall tx, fst r <> Json 201 true "Transaction created successfully"
                                       (TransactionData tx))
      \/ exists tx entry,
           fst r = Json 201 true "Transaction created successfully" (TransactionData tx)
           /\ transactions (snd r) = transactions st ++ [tx]
           /\ auditLogs (snd r) = auditLogs st ++ [entry]).
Proof.
  cbv zeta.
  assert (Hnum : forall fy', fy' <> InvoiceNumber.getFinancialYear
                                      (default today (date (body req))) ->
                 invoiceNumbers (numbered today req st) !! fy'
                 = invoiceNumbers st !! fy').
  { intros fy' Hne. unfold numbered, with_invoiceNumbers,
      InvoiceNumber.generateInvoiceNumber, InvoiceNumber.getNextInvoiceNumber.
    cbn [invoiceNumbers snd]. apply lookup_insert_ne. congruence. }
  assert (Hcnt : InvoiceNumber.lastSequenceNumber
                   <$> (invoiceNumbers (numbered today req st)
                          !! InvoiceNumber.getFinancialYear
                               (default today (date (body req))))
                 = Some (InvoiceNumber.counter_after
                           (InvoiceNumber.getFinancialYear
                              (default today (date (body req))))
                           (invoiceNumbers st))).
  { unfold numbered, with_invoiceNumbers, InvoiceNumber.generateInvoiceNumber,
      InvoiceNumber.getNextInvoiceNumber, InvoiceNumber.counter_after.
    cbn [invoiceNumbers snd]. rewrite lookup_insert_eq.
    destruct (invoiceNumbers st !! _); reflexivity. }
  destruct (createTransaction_outcome env today req st)
    as [m | | t p c _ _ _ _ | err Hne | t p c entry _ _ _ _ _ _];
    cbn [fst snd invoiceNumbers transactions auditLogs filingLocks].
  - split; [reflexivity |]. split; [reflexivity |]. split; [now left |].
    left. repeat split; discriminate.
  - split; [reflexivity |]. split; [reflexivity |]. split; [now left |].
    left. repeat split; discriminate.
  - split; [reflexivity |]. split; [exact Hnum |]. split; [right; exact Hcnt |].
    left. repeat split; discriminate.
  - split; [reflexivity |]. split; [exact Hnum |]. split; [right; exact Hcnt |].
    left. repeat split; discriminate.
  - split; [reflexivity |]. split; [exact Hnum |]. split; [right; exact Hcnt |].
    right. eexists. eexists. repeat split.
Qed.

End CreateExtras.

(* ===================================================================== *)
(** ** Further properties: [updateTransaction] and [deleteTransaction] *)
(* ===================================================================== *)

Module UpdateFacts.
Import JS JSFacts JSString Calc CalcFacts GstValidation TransactionController.
Import TransactionUpdates TransactionRoutes FilingLockMiddleware UpdateOutcome.
Import CalcExtras CreateExtras.
Local Open Scope Q_scope.

Lemma length_trim_start (s : string) :
  (String.length (trim_start s) <= String.length s)%nat.
Proof.
  induction s as [| c s IH]; [reflexivity |].
  cbn [trim_start]. destruct (is_blank c); cbn [String.length]; lia.
Qed.

Lemma length_trim_end (s : string) :
  (String.length (trim_end s) <= String.length s)%nat.
Proof.
  induction s as [| c s IH]; [reflexivity |].
  cbn [trim_end]. destruct (trim_end s) eqn:E.
  - destruct (is_blank c); cbn [String.length]; lia.
  - cbn [String.length] in *. lia.
Qed.

Lemma length_trim (s : string) : (String.length (trim s) <= String.length s)%nat.
Proof.
  unfold trim. pose proof (length_trim_end (trim_start s)).
  pose proof (length_trim_start s). lia.
Qed.

(** What [findById] finds is stored and has the id. *)
Lemma findById_Some (id : N) (l : list Transaction.t) (tx : Transaction.t) :
  Transaction.findById id l = Some tx -> In tx l /\ Transaction._id tx = id.
Proof.
  unfold Transaction.findById. intros H. apply find_some in H.
  destruct H as [Hin Hid]. apply N.eqb_eq in Hid. tauto.
Qed.

Lemma findById_None (id : N) (l : list Transaction.t) :
  Transaction.findById id l = None <-> ~ In id (map Transaction._id l).
Proof.
  unfold Transaction.findById. induction l as [| x l IH]; cbn.
  - tauto.
  - destruct (N.eqb_spec (Transaction._id x) id) as [E | E].
    + split; [discriminate | intros H; exfalso; apply H; now left].
    + rewrite IH. tauto.
Qed.

(** [updateTransaction] once the transaction is found. *)
Lemma updateTransaction_found (env : Env) (req : Request) (st : Store) (id : N)
    (old : Transaction.t) :
  params_id req = Some id ->
  Transaction.findById id (transactions st) = Some old ->
  updateTransaction env req st
  = match calculateCommission
            (default (Transaction.totalReceived old) (totalReceived (body req)))
            (default (Transaction.commissionPercent old) (commissionPercent (body req)))
            (gstRate_of env) with
    | inl err => (Next err, st)
    | inr c =>
        match Transaction.validate (updated env req old c) with
        | [] =>
            (Json 200 true "" (TransactionData (updated env req old c)),
             mkStore (invoiceNumbers st) (filingLocks st)
                     (replaced (updated env req old c) (transactions st))
                     (auditLogs st
                      ++ [ {| GSTAuditLog.action := "TRANSACTION_UPDATED";
                              GSTAuditLog.performedBy := user req;
                              GSTAuditLog.entityType := "TRANSACTION";
                              GSTAuditLog.entityId := Some (Transaction._id old);
                              GSTAuditLog.status := "SUCCESS";
                              GSTAuditLog.errorMessage := None |} ])
                     (nextId st))
        | paths => (Next (ValidationError paths), st)
        end
    end.
Proof.
  intros Hid Hfind. unfold updateTransaction. rewrite Hid, Hfind. cbv zeta.
  destruct (calculateCommission _ _ _) as [err | c]; [reflexivity |].
  unfold Transaction.save.
  change (Transaction.validate _) with (Transaction.validate (updated env req old c)).
  destruct (Transaction.validate (updated env req old c)); reflexivity.
Qed.

Lemma updateTransaction_outcome (env : Env) (req : Request) (st : Store) :
  Updated env req st (updateTransaction env req st).
Proof.
  destruct (params_id req) as [id |] eqn:Hid.
  2: { unfold updateTransaction. rewrite Hid.
       apply Not_found. intros id' H'. congruence. }
  destruct (Transaction.findById id (transactions st)) as [old |] eqn:Hfind.
  2: { unfold updateTransaction. rewrite Hid, Hfind.
       apply Not_found. intros id' H'. congruence. }
  rewrite (updateTransaction_found env req st id old Hid Hfind).
  destruct (calculateCommission _ _ _) as [err | c] eqn:Hc;
    [apply Update_thrown |].
  destruct (Transaction.validate (updated env req old c)) eqn:Hv;
    [| apply Update_thrown].
  eapply Saved; eauto.
Qed.

(** The guard and the validation of [PUT /:id] let a valid request for a
    stored, valid transaction of an open period through, and the update
    is saved. *)
Lemma put_saved (rejected : Response) (env : Env) (today : Date.t) (req : Request)
    (st : Store) (id : N) (old : Transaction.t) :
  params_id req = Some id ->
  Transaction.findById id (transactions st) = Some old ->
  Transaction.validate old = [] ->
  GSTFilingLock.isDateLocked (Transaction.date old) (filingLocks st) = false ->
  transactionValidation (body req) = true ->
  0 <= gstRate_of env <= 100 ->
  exists c entry,
    calculateCommission
      (default (Transaction.totalReceived old) (totalReceived (body req)))
      (default (Transaction.commissionPercent old) (commissionPercent (body req)))
      (gstRate_of env) = inr c /\
    put_transaction rejected env today req st
    = (Json 200 true "" (TransactionData (updated env req old c)),
       mkStore (invoiceNumbers st) (filingLocks st)
               (replaced (updated env req old c) (transactions st))
               (auditLogs st ++ [entry]) (nextId st)).
Proof.
  intros Hid Hfind Hold Hopen Hbody Hrate.
  destruct (validate_nil _ Hold)
    as (V1 & V2 & V3 & V4 & V5 & V6 & V7 & V8 & V9 & V10).
  pose proof Hbody as Hval.
  unfold transactionValidation in Hbody.
  apply andb_true_iff in Hbody. destruct Hbody as [Hbody B4].
  apply andb_true_iff in Hbody. destruct Hbody as [Hbody B3].
  apply andb_true_iff in Hbody. destruct Hbody as [B1 B2].
  set (T := default (Transaction.totalReceived old) (totalReceived (body req))).
  set (p := default (Transaction.commissionPercent old) (commissionPercent (body req))).
  assert (HT : (1 # 100) <= T).
  { subst T. destruct (totalReceived (body req)); [| discriminate].
    apply Qle_bool_iff in B1. exact B1. }
  assert (Hp : 0 <= p <= 100).
  { subst p. destruct (commissionPercent (body req)) as [p |];
      cbn [default from_option Datatypes.id]; [| tauto].
    apply andb_true_iff in B2. destruct B2 as [E1 E2].
    apply Qle_bool_iff in E1, E2. tauto. }
  assert (Hin : valid_input T p (gstRate_of env))
    by (unfold valid_input; split; [lra | tauto]).
  pose proof (calculateCommission_valid _ _ _ Hin) as Hc.
  destruct (intermediates_nonneg _ _ _ Hin) as (I1 & I2 & I3 & I4).
  eexists. eexists. split; [exact Hc |].
  assert (Hpm : default (Transaction.paymentMode old) (paymentMode (body req))
                = "QR"%string).
  { destruct (paymentMode (body req)) as [m |];
      cbn [default from_option Datatypes.id]; [| exact V7].
    apply String.eqb_eq in B3. exact B3. }
  assert (Hrem : (String.length
                    (trim (default (Transaction.remarks old) (remarks (body req))))
                  <= 500)%nat).
  { pose proof (length_trim
                  (default (Transaction.remarks old) (remarks (body req)))) as L.
    destruct (remarks (body req)) as [r |];
      cbn [default from_option Datatypes.id] in *; [| lia].
    apply Nat.leb_le in B4. lia. }
  match goal with
  | |- context [TransactionData (updated env req old ?c0)] => set (c := c0) in *
  end.
  assert (Hvalid : Transaction.validate (updated env req old c) = []).
  { unfold Transaction.validate, updated.
    cbn [Transaction.totalReceived Transaction.commissionPercent
         Transaction.commissionAmount Transaction.gstAmount
         Transaction.returnAmount Transaction.paymentMode Transaction.remarks
         Transaction.invoiceNumber Transaction.financialYear
         commissionAmount gstAmount returnAmount c].
    fold T p. rewrite Hpm, V9, V10.
    apply Nat.leb_le in Hrem. rewrite Hrem.
    rewrite (proj2 (Qle_bool_iff _ _) HT).
    rewrite (proj2 (Qle_bool_iff _ _) (proj1 Hp)).
    rewrite (proj2 (Qle_bool_iff _ _) (proj2 Hp)).
    rewrite (proj2 (Qle_bool_iff _ _) (round_cents_nonneg _ I1)).
    rewrite (proj2 (Qle_bool_iff _ _) (round_cents_nonneg _ I2)).
    rewrite (proj2 (Qle_bool_iff _ _) (round_cents_nonneg _ I4)).
    reflexivity. }
  assert (G : checkFilingLock today req st = (None, st)).
  { unfold checkFilingLock. rewrite Hid, Hfind, Hopen. reflexivity. }
  assert (R : validateRequest rejected req st = (None, st)).
  { unfold validateRequest. rewrite Hval. reflexivity. }
  unfold put_transaction. cbn [route]. rewrite G, R.
  rewrite (updateTransaction_found env req st id old Hid Hfind).
  fold T p. rewrite Hc. fold c. rewrite Hvalid. reflexivity.
Qed.

(** [save] keeps the ids in place, puts the saved document where its id
    is, and leaves every other document alone. *)
Lemma map_id_replaced (u : Transaction.t) (l : list Transaction.t) :
  map Transaction._id (replaced u l) = map Transaction._id l.
Proof.
  unfold replaced. rewrite map_map. apply map_ext. intros old.
  destruct (N.eqb_spec (Transaction._id old) (Transaction._id u)); congruence.
Qed.

Lemma findById_replaced (u old : Transaction.t) (l : list Transaction.t) :
  Transaction.findById (Transaction._id u) l = Some old ->
  Transaction.findById (Transaction._id u) (replaced u l) = Some u.
Proof.
  unfold Transaction.findById, replaced.
  induction l as [| x l IH]; cbn; [discriminate |].
  destruct (N.eqb_spec (Transaction._id x) (Transaction._id u)) as [E | E].
  - intros _. now rewrite N.eqb_refl.
  - intros H. apply N.eqb_neq in E. rewrite E. apply IH. exact H.
Qed.

Lemma In_replaced_other (u other : Transaction.t) (l : list Transaction.t) :
  Transaction._id other <> Transaction._id u ->
  In other (replaced u l) <-> In other l.
Proof.
  intros Hne. unfold replaced. rewrite in_map_iff. split.
  - intros (x & Hx & Hin).
    destruct (N.eqb_spec (Transaction._id x) (Transaction._id u)); congruence.
  - intros Hin. exists other. split; [| exact Hin].
    apply N.eqb_neq in Hne. now rewrite Hne.
Qed.

Lemma In_replaced (u : Transaction.t) (l : list Transaction.t) (x : Transaction.t) :
  In x (replaced u l) -> x = u \/ In x l.
Proof.
  unfold replaced. rewrite in_map_iff. intros (y & Hy & Hin).
  destruct (Transaction._id y =? Transaction._id u)%N; [left | right]; congruence.
Qed.

(** [findByIdAndDelete] takes out the first document with the id. *)
Lemma findByIdAndDelete_found (id : N) (l : list Transaction.t) (tx : Transaction.t) :
  Transaction.findById id l = Some tx ->
  exists l1 l2, l = l1 ++ tx :: l2
                /\ Transaction.findByIdAndDelete id l = l1 ++ l2
                /\ ~ In id (map Transaction._id l1).
Proof.
  unfold Transaction.findByIdAndDelete. intros H. rewrite H.
  unfold Transaction.findById in H.
  induction l as [| x l IH]; cbn in H; [discriminate |].
  destruct (Transaction._id x =? id)%N eqn:E.
  - injection H as <-. exists [], l. cbn. tauto.
  - destruct (IH H) as (l1 & l2 & E1 & E2 & E3).
    exists (x :: l1), l2. cbn. rewrite <- E1, E2.
    repeat split. apply N.eqb_neq in E. intros [F | F]; [exact (E F) | exact (E3 F)].
Qed.

Lemma findByIdAndDelete_missing (id : N) (l : list Transaction.t) :
  Transaction.findById id l = None -> Transaction.findByIdAndDelete id l = l.
Proof. unfold Transaction.findByIdAndDelete. intros H. now rewrite H. Qed.

(** A batch with a transaction that raises an error is not compliant. *)
Lemma concat_imap_not_nil {A B : Type} (f : nat -> A -> list B) (l : list A) (x : A) :
  In x l -> (forall i, f i x <> []) -> concat (imap f l) <> [].
Proof.
  revert f. induction l as [| y l IH]; intros f Hin Hx; [destruct Hin |].
  cbn. destruct Hin as [-> | Hin].
  - intros E. apply app_eq_nil in E. destruct E as [E _]. exact (Hx 0%nat E).
  - intros E. apply app_eq_nil in E. destruct E as [_ E]. revert E.
    apply IH; [exact Hin |]. intros i. apply Hx.
Qed.

Lemma noncompliant_member (txs : list Transaction.t) (tx : Transaction.t) :
  In tx txs -> (forall i, errors_of i tx <> []) ->
  compliant (validateGSTCompliance txs) = false.
Proof.
  intros Hin Herr. unfold validateGSTCompliance. cbn [compliant].
  pose proof (concat_imap_not_nil errors_of txs tx Hin Herr) as H.
  destruct (concat (imap errors_of txs)); [congruence | reflexivity].
Qed.

End UpdateFacts.

Module UpdateExtras.
Import JS JSFacts JSString Calc CalcFacts GstValidation TransactionController.
Import TransactionUpdates TransactionRoutes FilingLockMiddleware.
Import CreateTheorems GuardTheorems CalcExtras CreateExtras UpdateOutcome UpdateFacts.
Local Open Scope Q_scope.



(** X7.  [PUT /:id] does not run the GST validation of the create path.
    For a stored, valid transaction of an open period, a valid body with
    [commissionPercent] 0 is answered 200: the transaction is saved with
    commission and GST 0, which [validateTransactionForGST] (and so
    [createTransaction]) refuses, and the stored batch is no longer
    compliant for [validateGSTCompliance]. *)
Theorem update_to_zero_percent_is_saved (rejected : Response) (env : Env)
    (today : Date.t) (req : Request) (st : Store) (id : N) (old : Transaction.t) :
  params_id req = Some id ->
  Transaction.findById id (transactions st) = Some old ->
  Transaction.validate old = [] ->
  GSTFilingLock.isDateLocked (Transaction.date old) (filingLocks st) = false ->
  transactionValidation (body req) = true ->
  0 <= gstRate_of env <= 100 ->
  commissionPercent (body req) = Some 0 ->
  exists u st',
    put_transaction rejected env today req st
      = (Json 200 true "" (TransactionData u), st') /\
    Transaction.findById id (transactions st') = Some u /\
    Transaction.commissionAmount u == 0 /\
    Transaction.gstAmount u == 0 /\
    isValid (validateTransactionForGST (Transaction.commissionAmount u)
               (Transaction.gstAmount u) (Transaction.totalReceived u)) = false /\
    compliant (validateGSTCompliance (transactions st')) = false.
Proof.
  intros Hid Hfind Hold Hopen Hbody Hrate Hzero.
  destruct (put_saved rejected env today req st id old Hid Hfind Hold Hopen Hbody Hrate)
    as (c & entry & Hc & Hput).
  destruct (findById_Some _ _ _ Hfind) as [Hin Hidold].
  exists (updated env req old c). eexists. split; [exact Hput |].
  cbn [transactions].
  assert (Hfound : Transaction.findById id
                     (replaced (updated env req old c) (transactions st))
                   = Some (updated env req old c)).
  { rewrite <- Hidold.
    change (Transaction._id old) with (Transaction._id (updated env req old c)).
    apply (findById_replaced _ old). cbn [updated Transaction._id].
    rewrite Hidold. exact Hfind. }
  destruct (calculateCommission_fields _ _ _ _ Hc) as (Hin' & Fc & Fg & _ & _).
  rewrite Hzero in Fc, Fg. cbn [default from_option Datatypes.id] in Fc, Fg.
  assert (Ec : commissionAmount c == 0).
  { rewrite Fc. unfold round_cents.
    rewrite (Math_round_comp _ (inject_Z 0)) by (unfold Qdiv; ring).
    rewrite Math_round_Z. reflexivity. }
  assert (Eg : gstAmount c == 0).
  { rewrite Fg. unfold round_cents.
    rewrite (Math_round_comp _ (inject_Z 0)) by (unfold Qdiv; ring).
    rewrite Math_round_Z. reflexivity. }
  cbn [updated Transaction.commissionAmount Transaction.gstAmount
       Transaction.totalReceived].
  split; [exact Hfound |]. split; [exact Ec |]. split; [exact Eg |].
  assert (Hnot : falsy (commissionAmount c) || Qle_bool (commissionAmount c) 0 = true).
  { apply not_false_iff_true. intros F. apply not_positive_false in F.
    rewrite Ec in F. lra. }
  split.
  - apply not_true_is_false. intros V.
    apply validateTransactionForGST_valid in V. destruct V as (V & _).
    rewrite Ec in V. lra.
  - apply (noncompliant_member _ (updated env req old c)).
    + apply findById_Some in Hfound. tauto.
    + intros i. unfold errors_of.
      cbn [updated Transaction.commissionAmount]. rewrite Hnot. discriminate.
Qed.

Lemma update_to_zero_percent_is_saved_witness :
  exists u st',
    put_transaction (Json 400 false "Validation failed" NoData)
        Scenario.env18 Scenario.today
        {| params_id := Some 1%N;
           body := {| date := None; totalReceived := Some 10000;
                      commissionPercent := Some 0; paymentMode := None;
                      remarks := None |};
           user := 7%N; method := "PUT" |}
        (snd (createTransaction Scenario.env18 Scenario.today
                (Scenario.post None 10000 (Some 1)) Scenario.empty_store))
      = (Json 200 true "" (TransactionData u), st') /\
    Transaction.commissionAmount u == 0 /\
    compliant (validateGSTCompliance (transactions st')) = false.
Proof.
  set (st := snd (createTransaction Scenario.env18 Scenario.today
                    (Scenario.post None 10000 (Some 1)) Scenario.empty_store)).
  set (req := {| params_id := Some 1%N;
                 body := {| date := None; totalReceived := Some 10000;
                            commissionPercent := Some 0; paymentMode := None;
                            remarks := None |};
                 user := 7%N; method := "PUT" |}).
  assert (Hfind : exists old, Transaction.findById 1 (transactions st) = Some old
                              /\ Transaction.validate old = []
                              /\ GSTFilingLock.isDateLocked (Transaction.date old)
                                   (filingLocks st) = false).
  { eexists. split; [vm_compute; reflexivity |].
    split; vm_compute; reflexivity. }
  destruct Hfind as (old & Hfind & Hold & Hopen).
  assert (Hrate : 0 <= gstRate_of Scenario.env18 <= 100)
    by (split; vm_compute; discriminate).
  assert (Hbody : transactionValidation (body req) = true)
    by (vm_compute; reflexivity).
  destruct (update_to_zero_percent_is_saved
              (Json 400 false "Validation failed" NoData)
              Scenario.env18 Scenario.today req st 1%N old
              eq_refl Hfind Hold Hopen Hbody Hrate eq_refl)
    as (u & st' & Hput & _ & Hc & _ & _ & Hcomp).
  exists u, st'. tauto.
Defined.



(** X9.  [deleteTransaction] answers 200 "Deleted" whatever the id, also
    when no transaction has it.  It takes out the first transaction with
    the id and nothing else; it writes no audit entry and leaves the invoice
    series as they are, so the sequence number of a deleted transaction is
    not given out again.  When the ids are unique no transaction has the id
    afterwards. *)
Theorem deleteTransaction_effects (req : Request) (st : Store) :
  let r := deleteTransaction req st in
  fst r = Json 200 true "Deleted" NoData /\
  invoiceNumbers (snd r) = invoiceNumbers st /\
  filingLocks (snd r) = filingLocks st /\
  auditLogs (snd r) = auditLogs st /\
  (forall id, params_id req = Some id ->
     match Transaction.findById id (transactions st) with
     | None => transactions (snd r) = transactions st
     | Some tx =>
         exists l1 l2, transactions st = l1 ++ tx :: l2
                       /\ transactions (snd r) = l1 ++ l2
                       /\ ~ In id (map Transaction._id l1)
     end) /\
  (forall id, params_id req = Some id ->
     List.NoDup (map Transaction._id (transactions st)) ->
     Transaction.findById id (transactions (snd r)) = None).
Proof.
  cbv zeta. unfold deleteTransaction.
  cbn [fst snd invoiceNumbers filingLocks auditLogs transactions].
  repeat split.
  - intros id Hid. rewrite Hid.
    destruct (Transaction.findById id (transactions st)) as [tx |] eqn:Hfind.
    + apply findByIdAndDelete_found. exact Hfind.
    + apply findByIdAndDelete_missing. exact Hfind.
  - intros id Hid Hnodup. rewrite Hid.
    destruct (Transaction.findById id (transactions st)) as [tx |] eqn:Hfind.
    + destruct (findByIdAndDelete_found _ _ _ Hfind) as (l1 & l2 & E1 & E2 & E3).
      rewrite E2. apply findById_None. rewrite map_app, in_app_iff.
      intros [F | F]; [exact (E3 F) |].
      rewrite E1, map_app in Hnodup. cbn in Hnodup.
      apply NoDup_remove_2 in Hnodup. apply Hnodup. rewrite in_app_iff. right.
      apply findById_Some in Hfind. destruct Hfind as [_ <-]. exact F.
    + rewrite (findByIdAndDelete_missing _ _ Hfind). exact Hfind.
Qed.

End UpdateExtras.

(* ===================================================================== *)
(** ** Further properties: the lock guard, locking and unlocking *)
(* ===================================================================== *)

Module LockFacts.
Import JSString LockTheorems UpdateOutcome UpdateFacts.
Import TransactionController TransactionUpdates TransactionRoutes FilingLockMiddleware.

(** The key under which [isDateLocked] looks a date up is the key
    [lockMonth] and [unlockMonth] use for the date's month. *)
Lemma period_key (month year : Z) (date : Date.t) :
  (1 <= month <= 12)%Z -> (2000 <= year <= 2100)%Z ->
  Date.getFullYear date = year -> (Date.getMonth date + 1)%Z = month ->
  (InvoiceNumber.getFinancialYear date, (Date.getMonth date + 1)%Z,
   Date.getFullYear date)
  = (InvoiceNumber.getFinancialYear (Date.first_of_month year (month - 1)),
     month, year).
Proof.
  intros Hm Hy Ey Em. rewrite first_of_month_fields by assumption.
  unfold InvoiceNumber.getFinancialYear. cbn [Date.getFullYear Date.getMonth].
  rewrite Ey, Em. replace (month - 1 + 1)%Z with month by lia. reflexivity.
Qed.

Lemma isDateLocked_insert_same (month year : Z) (date : Date.t)
    (lock : GSTFilingLock.t) (locks : gmap (string * Z * Z) GSTFilingLock.t) :
  (1 <= month <= 12)%Z -> (2000 <= year <= 2100)%Z ->
  Date.getFullYear date = year -> (Date.getMonth date + 1)%Z = month ->
  GSTFilingLock.isDateLocked date
    (<[(InvoiceNumber.getFinancialYear (Date.first_of_month year (month - 1)),
        month, year) := lock]> locks)
  = GSTFilingLock.isLocked lock.
Proof.
  intros Hm Hy Ey Em. unfold GSTFilingLock.isDateLocked. cbv zeta.
  rewrite (period_key month year date Hm Hy Ey Em), lookup_insert_eq. reflexivity.
Qed.

Lemma isDateLocked_insert_other (fy : string) (month year : Z) (date : Date.t)
    (lock : GSTFilingLock.t) (locks : gmap (string * Z * Z) GSTFilingLock.t) :
  (Date.getFullYear date <> year \/ (Date.getMonth date + 1)%Z <> month) ->
  GSTFilingLock.isDateLocked date (<[(fy, month, year) := lock]> locks)
  = GSTFilingLock.isDateLocked date locks.
Proof.
  intros Hne. unfold GSTFilingLock.isDateLocked. cbv zeta.
  rewrite lookup_insert_ne; [reflexivity |]. intros [= _ E1 E2]. lia.
Qed.

(** With unique ids, [findById] finds each stored transaction by its id. *)
Lemma findById_In (l : list Transaction.t) (tx : Transaction.t) :
  List.NoDup (map Transaction._id l) -> In tx l ->
  Transaction.findById (Transaction._id tx) l = Some tx.
Proof.
  unfold Transaction.findById.
  induction l as [| x l IH]; cbn; intros Hnd Hin; [destruct Hin |].
  apply NoDup_cons_iff in Hnd. destruct Hnd as [Hx Hnd].
  destruct Hin as [-> | Hin].
  - now rewrite N.eqb_refl.
  - destruct (N.eqb_spec (Transaction._id x) (Transaction._id tx)) as [E | E].
    + exfalso. apply Hx. rewrite E. apply in_map. exact Hin.
    + apply IH; assumption.
Qed.

End LockFacts.

Module LockExtras.
Import JSString LockTheorems UpdateOutcome UpdateFacts LockFacts GuardTheorems.
Import TransactionController TransactionUpdates TransactionRoutes FilingLockMiddleware.

(** X10.  With unique ids, a stored transaction of a locked period is out
    of reach of [PUT /:id] and [DELETE /:id], whatever the request and
    whichever id it names: it is in the store afterwards as it was before,
    and the filing locks are as before. *)
Theorem locked_transaction_stays (rejected : Response) (env : Env) (today : Date.t)
    (req : Request) (st : Store) (tx : Transaction.t) :
  List.NoDup (map Transaction._id (transactions st)) ->
  In tx (transactions st) ->
  GSTFilingLock.isDateLocked (Transaction.date tx) (filingLocks st) = true ->
  In tx (transactions (snd (put_transaction rejected env today req st))) /\
  In tx (transactions (snd (delete_transaction today req st))) /\
  filingLocks (snd (put_transaction rejected env today req st)) = filingLocks st /\
  filingLocks (snd (delete_transaction today req st)) = filingLocks st.
Proof.
  intros Hnd Hin Hlocked.
  pose proof (findById_In _ _ Hnd Hin) as Hself.
  unfold put_transaction, delete_transaction. cbn [route].
  unfold checkFilingLock.
  destruct (params_id req) as [id |] eqn:Hid.
  - destruct (Transaction.findById id (transactions st)) as [found |] eqn:Hfind;
      [| cbn; tauto].
    destruct (GSTFilingLock.isDateLocked (Transaction.date found) (filingLocks st))
      eqn:Hopen; [cbn; tauto |].
    assert (Hne : Transaction._id tx <> id).
    { intros E. rewrite E, Hfind in Hself. injection Hself as ->. congruence. }
    destruct (findById_Some _ _ _ Hfind) as [_ Hidf].
    split; [| split; [| split]].
    + unfold validateRequest.
      destruct (transactionValidation (body req)); [| exact Hin].
      destruct (updateTransaction_outcome env req st)
        as [Hnf | err | id' old c entry Hid' Hfind' Hc Hv]; try exact Hin.
      cbn [snd transactions]. apply In_replaced_other; [| exact Hin].
      cbn [updated Transaction._id].
      assert (id' = id) by congruence. subst id'.
      destruct (findById_Some _ _ _ Hfind') as [_ ->]. exact Hne.
    + unfold deleteTransaction. rewrite Hid. cbn [snd transactions].
      destruct (findByIdAndDelete_found _ _ _ Hfind) as (l1 & l2 & E1 & E2 & _).
      rewrite E2. rewrite E1 in Hin. rewrite in_app_iff in *.
      destruct Hin as [Hin | [Hin | Hin]]; [tauto | | tauto].
      subst found. congruence.
    + unfold validateRequest.
      destruct (transactionValidation (body req)); [| reflexivity].
      destruct (updateTransaction_outcome env req st); reflexivity.
    + reflexivity.
  - assert (Ed : exists d, match date (body req) with
                          | Some d => inr d
                          | None => inr today
                          end = @inr Response Date.t d)
      by (destruct (date (body req)); eexists; reflexivity).
    destruct Ed as [d Ed]. rewrite Ed.
    destruct (GSTFilingLock.isDateLocked d (filingLocks st)); [cbn; tauto |].
    split; [| split; [| split]].
    + unfold validateRequest.
      destruct (transactionValidation (body req)); [| exact Hin].
      unfold updateTransaction. rewrite Hid. exact Hin.
    + unfold deleteTransaction. rewrite Hid. exact Hin.
    + unfold validateRequest.
      destruct (transactionValidation (body req)); [| reflexivity].
      unfold updateTransaction. rewrite Hid. reflexivity.
    + reflexivity.
Qed.

Lemma locked_transaction_stays_witness :
  exists tx,
    transactions Scenario.january_locked = [tx] /\
    GSTFilingLock.isDateLocked (Transaction.date tx)
      (filingLocks Scenario.january_locked) = true /\
    In tx (transactions
             (snd (put_transaction (Json 400 false "Validation failed" NoData)
                     Scenario.env18 Scenario.today (Scenario.put 1 20000)
                     Scenario.january_locked))) /\
    In tx (transactions
             (snd (delete_transaction Scenario.today (Scenario.delete 1)
                     Scenario.january_locked))).
Proof.
  assert (H : exists tx,
             transactions Scenario.january_locked = [tx] /\
             GSTFilingLock.isDateLocked (Transaction.date tx)
               (filingLocks Scenario.january_locked) = true).
  { eexists. split; [vm_compute; reflexivity |]. vm_compute. reflexivity. }
  destruct H as (tx & Htx & Hlocked). exists tx.
  split; [exact Htx |]. split; [exact Hlocked |].
  assert (Hnd : List.NoDup (map Transaction._id (transactions Scenario.january_locked))).
  { rewrite Htx. cbn. constructor; [intros [] | constructor]. }
  assert (Hin : In tx (transactions Scenario.january_locked))
    by (rewrite Htx; now left).
  destruct (locked_transaction_stays (Json 400 false "Validation failed" NoData)
              Scenario.env18 Scenario.today (Scenario.put 1 20000)
              Scenario.january_locked tx Hnd Hin Hlocked) as (H1 & _ & _ & _).
  destruct (locked_transaction_stays (Json 400 false "Validation failed" NoData)
              Scenario.env18 Scenario.today (Scenario.delete 1)
              Scenario.january_locked tx Hnd Hin Hlocked) as (_ & H2 & _ & _).
  split; [exact H1 | exact H2].
Defined.

(** X11.  When the lock operation answers 201 for a month from 1 to 12 of
    a year from 2000 to 2100, the month was open before and every date of
    it is locked afterwards, while every date of another month is locked
    or open as before; the record carries the user and the time of the
    call; transactions and invoice series are untouched and one audit entry
    is written.  From then on [PUT /:id] and [DELETE /:id] of a stored
    transaction of that month are answered 403 [FILING_LOCKED]. *)
Theorem lock_closes_the_month (now : Z) (req : FilingLockController.LockRequest)
    (st st' : Store) (month year : Z) (message : string) (lock : GSTFilingLock.t) :
  (1 <= month <= 12)%Z -> (2000 <= year <= 2100)%Z ->
  FilingLockController.lock_month req = Some month ->
  FilingLockController.lock_year req = Some year ->
  FilingLockController.lockMonth now req st
    = (Json 201 true message (LockData lock), st') ->
  GSTFilingLock.isDateLocked (Date.first_of_month year (month - 1)) (filingLocks st)
    = false /\
  (forall date, Date.getFullYear date = year -> (Date.getMonth date + 1)%Z = month ->
                GSTFilingLock.isDateLocked date (filingLocks st') = true) /\
  (forall date, Date.getFullYear date <> year \/ (Date.getMonth date + 1)%Z <> month ->
                GSTFilingLock.isDateLocked date (filingLocks st')
                = GSTFilingLock.isDateLocked date (filingLocks st)) /\
  GSTFilingLock.isLocked lock = true /\
  GSTFilingLock.lockedBy lock = FilingLockController.lock_user req /\
  GSTFilingLock.lockedAt lock = now /\
  transactions st' = transactions st /\
  invoiceNumbers st' = invoiceNumbers st /\
  length (auditLogs st') = S (length (auditLogs st)) /\
  (forall rejected env today req' id tx,
     params_id req' = Some id ->
     Transaction.findById id (transactions st') = Some tx ->
     Date.getFullYear (Transaction.date tx) = year ->
     (Date.getMonth (Transaction.date tx) + 1)%Z = month ->
     (exists message' st'',
        put_transaction rejected env today req' st'
          = (Json 403 false message' (Code "FILING_LOCKED"), st'')
        /\ transactions st'' = transactions st') /\
     (exists message' st'',
        delete_transaction today req' st'
          = (Json 403 false message' (Code "FILING_LOCKED"), st'')
        /\ transactions st'' = transactions st')).
Proof.
  intros Hm Hy Emonth Eyear. unfold FilingLockController.lockMonth.
  rewrite Emonth, Eyear.
  cbn [FilingLockController.missing default from_option Datatypes.id].
  replace (month =? 0)%Z with false by (symmetry; apply Z.eqb_neq; lia).
  replace (year =? 0)%Z with false by (symmetry; apply Z.eqb_neq; lia).
  cbn [orb].
  destruct (GSTFilingLock.isDateLocked (Date.first_of_month year (month - 1))
              (filingLocks st)) eqn:Hopen; [discriminate |].
  destruct (GSTFilingLock.lockMonth month year _ _ now (nextId st) (filingLocks st))
    as [err | [lock0 collection]] eqn:Hlock; [discriminate |].
  intros [= _ <- <-].
  assert (Hcoll : collection
                  = <[(InvoiceNumber.getFinancialYear
                         (Date.first_of_month year (month - 1)), month, year)
                      := lock0]> (filingLocks st)
                  /\ GSTFilingLock.isLocked lock0 = true
                  /\ GSTFilingLock.lockedBy lock0 = FilingLockController.lock_user req
                  /\ GSTFilingLock.lockedAt lock0 = now).
  { unfold GSTFilingLock.lockMonth in Hlock. cbv zeta in Hlock.
    destruct (filingLocks st !! _) as [old |].
    - injection Hlock as <- <-. cbn. tauto.
    - destruct (GSTFilingLock.filingPeriod_taken _ _); [discriminate |].
      injection Hlock as <- <-. cbn. tauto. }
  destruct Hcoll as (-> & Hl1 & Hl2 & Hl3).
  assert (Hin : forall date,
             Date.getFullYear date = year -> (Date.getMonth date + 1)%Z = month ->
             GSTFilingLock.isDateLocked date
               (<[(InvoiceNumber.getFinancialYear
                     (Date.first_of_month year (month - 1)), month, year)
                  := lock0]> (filingLocks st)) = true).
  { intros date Ey Em.
    rewrite (isDateLocked_insert_same month year date lock0 _ Hm Hy Ey Em).
    exact Hl1. }
  split; [reflexivity |]. split; [exact Hin |].
  split; [intros date Hne; cbn [filingLocks];
          apply isDateLocked_insert_other; exact Hne |].
  split; [exact Hl1 |]. split; [exact Hl2 |]. split; [exact Hl3 |].
  split; [reflexivity |]. split; [reflexivity |].
  split; [cbn [auditLogs]; unfold GSTAuditLog.createLog;
          rewrite length_app; cbn; lia |].
  intros rejected env today req' id tx Hid Hfind Ey Em.
  apply (update_and_delete_guarded rejected env today req' _ id tx Hid Hfind).
  cbn [filingLocks]. apply Hin; assumption.
Qed.

Lemma lock_closes_the_month_witness :
  exists message lock st',
    FilingLockController.lockMonth 1000 Scenario.lock_january Scenario.empty_store
      = (Json 201 true message (LockData lock), st') /\
    GSTFilingLock.isDateLocked Scenario.jan15 (filingLocks st') = true /\
    GSTFilingLock.isDateLocked Scenario.today (filingLocks st') = false.
Proof.
  assert (E : exists message lock st',
             FilingLockController.lockMonth 1000 Scenario.lock_january
               Scenario.empty_store
             = (Json 201 true message (LockData lock), st')).
  { eexists. eexists. eexists. vm_compute. reflexivity. }
  destruct E as (message & lock & st' & E). exists message, lock, st'.
  split; [exact E |].
  destruct (lock_closes_the_month 1000 Scenario.lock_january Scenario.empty_store st'
              1 2024 message lock ltac:(lia) ltac:(lia) eq_refl eq_refl E)
    as (_ & Hin & Hout & _).
  split.
  - apply Hin; reflexivity.
  - rewrite Hout; [vm_compute; reflexivity | right; cbn; lia].
Defined.

(** X12.  The unlock operation, for a month from 1 to 12 of a year from
    2000 to 2100.  Without a lock record for the month it answers 404 and
    changes nothing.  With one, locked or not, it answers 200: every date
    of the month is open afterwards and every date of another month is as
    before; the record is kept with its id, user, time and filing period,
    only [isLocked] is cleared; transactions and invoice series are
    untouched and one audit entry is written. *)
Theorem unlock_opens_the_month (req : FilingUnlockController.UnlockRequest)
    (st : Store) :
  let month := FilingUnlockController.unlock_month req in
  let year := FilingUnlockController.unlock_year req in
  (1 <= month <= 12)%Z -> (2000 <= year <= 2100)%Z ->
  match filingLocks st !! (InvoiceNumber.getFinancialYear
                             (Date.first_of_month year (month - 1)), month, year) with
  | None =>
      FilingUnlockController.unlockMonth req st
      = (Json 404 false "Filing lock not found" NoData, st)
  | Some old =>
      exists message lock st',
        FilingUnlockController.unlockMonth req st
          = (Json 200 true message (LockData lock), st') /\
        GSTFilingLock.isLocked lock = false /\
        GSTFilingLock._id lock = GSTFilingLock._id old /\
        GSTFilingLock.lockedBy lock = GSTFilingLock.lockedBy old /\
        GSTFilingLock.lockedAt lock = GSTFilingLock.lockedAt old /\
        GSTFilingLock.filingPeriod lock = GSTFilingLock.filingPeriod old /\
        (forall date, Date.getFullYear date = year ->
                      (Date.getMonth date + 1)%Z = month ->
                      GSTFilingLock.isDateLocked date (filingLocks st') = false) /\
        (forall date, Date.getFullYear date <> year
                      \/ (Date.getMonth date + 1)%Z <> month ->
                      GSTFilingLock.isDateLocked date (filingLocks st')
                      = GSTFilingLock.isDateLocked date (filingLocks st)) /\
        transactions st' = transactions st /\
        invoiceNumbers st' = invoiceNumbers st /\
        length (auditLogs st') = S (length (auditLogs st))
  end.
Proof.
  intros month year Hm Hy.
  unfold FilingUnlockController.unlockMonth, GSTFilingLock.unlockMonth.
  fold month year. cbv zeta.
  destruct (filingLocks st !! _) as [old |] eqn:Hold; [| reflexivity].
  eexists. eexists. eexists. split; [reflexivity |].
  cbn [filingLocks transactions invoiceNumbers auditLogs].
  destruct old as [id fy m y at_ by_ period gstr1 gstr3b rem locked].
  cbn [GSTFilingLock.isLocked GSTFilingLock._id GSTFilingLock.lockedBy
       GSTFilingLock.lockedAt GSTFilingLock.filingPeriod].
  repeat split.
  - intros date Ey Em.
    rewrite (isDateLocked_insert_same month year date _ _ Hm Hy Ey Em). reflexivity.
  - intros date Hne. apply isDateLocked_insert_other. exact Hne.
  - unfold GSTAuditLog.createLog. rewrite length_app. cbn. lia.
Qed.

Lemma unlock_opens_the_month_witness :
  exists message lock st',
    FilingUnlockController.unlockMonth
      {| FilingUnlockController.unlock_month_param := "1";
         FilingUnlockController.unlock_year_param := "2024";
         FilingUnlockController.unlock_month := 1;
         FilingUnlockController.unlock_year := 2024;
         FilingUnlockController.unlock_user := 7%N |}
      Scenario.january_locked
    = (Json 200 true message (LockData lock), st') /\
    GSTFilingLock.isLocked lock = false /\
    GSTFilingLock.isDateLocked Scenario.jan15 (filingLocks st') = false.
Proof.
  set (req := {| FilingUnlockController.unlock_month_param := "1";
                 FilingUnlockController.unlock_year_param := "2024";
                 FilingUnlockController.unlock_month := 1;
                 FilingUnlockController.unlock_year := 2024;
                 FilingUnlockController.unlock_user := 7%N |}).
  pose proof (unlock_opens_the_month req Scenario.january_locked
                ltac:(cbn; lia) ltac:(cbn; lia)) as H.
  assert (Hold : exists old,
             filingLocks Scenario.january_locked
               !! (InvoiceNumber.getFinancialYear
                     (Date.first_of_month (FilingUnlockController.unlock_year req)
                        (FilingUnlockController.unlock_month req - 1)),
                   FilingUnlockController.unlock_month req,
                   FilingUnlockController.unlock_year req) = Some old).
  { eexists. vm_compute. reflexivity. }
  destruct Hold as (old & Hold). rewrite Hold in H.
  destruct H as (message & lock & st' & E & Hl & _ & _ & _ & _ & Hin & _).
  exists message, lock, st'. split; [exact E |]. split; [exact Hl |].
  apply Hin; reflexivity.
Defined.

(** X13.  [checkPeriodLock] never changes the store: unlike
    [checkFilingLock] it writes no audit entry when it refuses.  It lets a
    request without [month] or [year] through; for a month from 1 to 12 of
    a year from 2000 to 2100 it answers 403 [FILING_LOCKED] exactly when
    the dates of that month are locked, and calls [next()] otherwise. *)
Theorem checkPeriodLock_decides (query : PeriodLockMiddleware.PeriodQuery)
    (st : Store) :
  let month := PeriodLockMiddleware.parsed_month query in
  let year := PeriodLockMiddleware.parsed_year query in
  let r := PeriodLockMiddleware.checkPeriodLock query st in
  snd r = st /\
  (PeriodLockMiddleware.not_given (PeriodLockMiddleware.query_month query)
   || PeriodLockMiddleware.not_given (PeriodLockMiddleware.query_year query) = true ->
   fst r = None) /\
  (PeriodLockMiddleware.not_given (PeriodLockMiddleware.query_month query)
   || PeriodLockMiddleware.not_given (PeriodLockMiddleware.query_year query) = false ->
   (1 <= month <= 12)%Z -> (2000 <= year <= 2100)%Z ->
   forall date, Date.getFullYear date = year -> (Date.getMonth date + 1)%Z = month ->
     (GSTFilingLock.isDateLocked date (filingLocks st) = false -> fst r = None) /\
     (GSTFilingLock.isDateLocked date (filingLocks st) = true ->
      exists message, fst r = Some (Json 403 false message (Code "FILING_LOCKED")))).
Proof.
  cbv zeta. unfold PeriodLockMiddleware.checkPeriodLock.
  destruct (PeriodLockMiddleware.not_given _ || PeriodLockMiddleware.not_given _)
    eqn:Hgiven.
  - cbn. split; [reflexivity |]. split; [reflexivity |]. discriminate.
  - cbv zeta. split; [| split; [discriminate |]].
    + destruct (GSTFilingLock.isDateLocked _ _); reflexivity.
    + intros _ Hm Hy date Ey Em.
      assert (E : GSTFilingLock.isDateLocked date (filingLocks st)
                  = GSTFilingLock.isDateLocked
                      (Date.first_of_month (PeriodLockMiddleware.parsed_year query)
                         (PeriodLockMiddleware.parsed_month query - 1))
                      (filingLocks st)).
      { unfold GSTFilingLock.isDateLocked at 1. cbv zeta.
        rewrite (period_key _ _ date Hm Hy Ey Em).
        rewrite (isDateLocked_period _ _ (filingLocks st) Hm Hy). reflexivity. }
      rewrite E. clear E.
      destruct (GSTFilingLock.isDateLocked
                  (Date.first_of_month (PeriodLockMiddleware.parsed_year query)
                     (PeriodLockMiddleware.parsed_month query - 1))
                  (filingLocks st)); cbn [fst]; split;
        try discriminate; try reflexivity.
      intros _. eexists. reflexivity.
Qed.

End LockExtras.

(* ===================================================================== *)
(** ** Further properties: what holds in every store the handlers reach *)
(* ===================================================================== *)

Module InvariantFacts.
Import JS JSFacts JSString StringFacts Calc CalcFacts GstValidation.
Import TransactionController TransactionUpdates TransactionRoutes FilingLockMiddleware.
Import CreateOutcome CreateFacts CreateTheorems InvoiceTheorems FiscalYearTheorems.
Import Allocation UpdateOutcome UpdateFacts LockFacts Reachable.

(** *** Invoice numbers of different series are different *)

Lemma dash_not_digit (s d : string) : all_digits (s +:+ String "-" d) = false.
Proof.
  rewrite all_digits_app. cbn. apply andb_false_r.
Qed.

Lemma app_dash_inj (s : string) : forall s' d d',
  all_digits d = true -> all_digits d' = true ->
  s +:+ "-" +:+ d = s' +:+ "-" +:+ d' -> s = s' /\ d = d'.
Proof.
  induction s as [| c s IH]; intros [| c' s'] d d' Hd Hd' E; cbn in E.
  - injection E as ->. tauto.
  - injection E as _ E. rewrite E, dash_not_digit in Hd. discriminate.
  - injection E as _ E. rewrite <- E, dash_not_digit in Hd'. discriminate.
  - injection E as -> E. destruct (IH s' d d' Hd Hd' E) as [-> ->]. tauto.
Qed.

Lemma format_inj_series (fy fy' : string) (n n' : Z) :
  (0 <= n)%Z -> (0 <= n')%Z ->
  InvoiceNumber.format "INV" fy n = InvoiceNumber.format "INV" fy' n' ->
  fy = fy' /\ n = n'.
Proof.
  intros Hn Hn' E. unfold InvoiceNumber.format in E.
  do 2 apply String.app_inj in E.
  rewrite !String_of_Z_nonneg in E by assumption.
  apply app_dash_inj in E.
  - destruct E as [-> E]. split; [reflexivity |].
    apply (f_equal parse_decimal) in E. rewrite !parse_padStart in E. lia.
  - rewrite all_digits_padStart. apply all_digits_String_of_N.
  - rewrite all_digits_padStart. apply all_digits_String_of_N.
Qed.

(** *** The invoice series after one more allocation *)

Lemma getNextInvoiceNumber_spec (fy : string) (series : gmap string InvoiceNumber.t) :
  well_formed series ->
  exists s',
    InvoiceNumber.getNextInvoiceNumber fy series
    = (InvoiceNumber.format "INV" fy (InvoiceNumber.lastSequenceNumber s'),
       <[fy := s']> series)
    /\ InvoiceNumber.prefix s' = "INV"%string
    /\ InvoiceNumber.lastSequenceNumber s' = InvoiceNumber.counter_after fy series
    /\ (1 <= InvoiceNumber.lastSequenceNumber s')%Z.
Proof.
  intros Hwf. unfold InvoiceNumber.getNextInvoiceNumber, InvoiceNumber.counter_after.
  destruct (series !! fy) as [s |] eqn:E.
  - destruct (Hwf fy s E) as [Hp Hl].
    exists {| InvoiceNumber.lastSequenceNumber :=
                (InvoiceNumber.lastSequenceNumber s + 1)%Z;
              InvoiceNumber.prefix := InvoiceNumber.prefix s |}.
    cbn [InvoiceNumber.prefix InvoiceNumber.lastSequenceNumber].
    split; [now rewrite Hp |]. split; [exact Hp |]. split; [reflexivity | lia].
  - exists {| InvoiceNumber.lastSequenceNumber := 1;
              InvoiceNumber.prefix := "INV" |}.
    cbn [InvoiceNumber.prefix InvoiceNumber.lastSequenceNumber].
    split; [reflexivity |]. split; [reflexivity |]. split; [reflexivity | lia].
Qed.

Lemma well_formed_next (fy : string) (series : gmap string InvoiceNumber.t) :
  well_formed series ->
  well_formed (snd (InvoiceNumber.getNextInvoiceNumber fy series)).
Proof.
  intros Hwf. destruct (getNextInvoiceNumber_spec fy series Hwf)
    as (s' & -> & Hp & _ & Hl).
  cbn [snd]. intros fy0 s0. destruct (decide (fy0 = fy)) as [-> | Hne].
  - rewrite lookup_insert_eq. intros [= <-]. tauto.
  - rewrite lookup_insert_ne by congruence. apply Hwf.
Qed.

Lemma counter_after_grows (fy : string) (series : gmap string InvoiceNumber.t)
    (s : InvoiceNumber.t) :
  series !! fy = Some s ->
  (InvoiceNumber.lastSequenceNumber s < InvoiceNumber.counter_after fy series)%Z.
Proof. intros E. unfold InvoiceNumber.counter_after. rewrite E. lia. Qed.

Lemma issued_next (fy : string) (series : gmap string InvoiceNumber.t)
    (tx : Transaction.t) :
  well_formed series -> issued series tx ->
  issued (snd (InvoiceNumber.getNextInvoiceNumber fy series)) tx.
Proof.
  intros Hwf (fy0 & n & s & Hinv & Hs & Hn).
  destruct (getNextInvoiceNumber_spec fy series Hwf) as (s' & -> & _ & Hc & _).
  cbn [snd]. destruct (decide (fy0 = fy)) as [-> | Hne].
  - exists fy, n, s'. rewrite lookup_insert_eq.
    pose proof (counter_after_grows fy series s Hs). repeat split; try tauto; lia.
  - exists fy0, n, s. rewrite lookup_insert_ne by congruence. tauto.
Qed.

(** The number an allocation issues is not the number of any transaction
    whose number was issued before. *)
Lemma next_number_fresh (fy : string) (series : gmap string InvoiceNumber.t)
    (tx : Transaction.t) :
  well_formed series -> issued series tx ->
  Transaction.invoiceNumber tx
  <> Some (fst (InvoiceNumber.getNextInvoiceNumber fy series)).
Proof.
  intros Hwf (fy0 & n & s & Hinv & Hs & Hn).
  destruct (getNextInvoiceNumber_spec fy series Hwf) as (s' & -> & _ & Hc & Hl).
  cbn [fst]. rewrite Hinv. intros E. apply (inj Some) in E.
  apply format_inj_series in E; [| lia | lia]. destruct E as [-> ->].
  pose proof (counter_after_grows fy series s Hs). lia.
Qed.

(** *** The invariant is kept by every handler *)

Lemma Inv_frame (st st' : Store) :
  invoiceNumbers st' = invoiceNumbers st ->
  transactions st' = transactions st ->
  (nextId st <= nextId st')%N ->
  Inv st -> Inv st'.
Proof.
  intros E1 E2 E3 [H1 H2 H3 H4 H5 H6 H7].
  split; rewrite ?E1, ?E2; try assumption.
  eapply List.Forall_impl; [| exact H1]. cbn. intros tx Htx. lia.
Qed.

Lemma Inv_empty : Inv Scenario.empty_store.
Proof.
  split; unfold Scenario.empty_store; cbn [transactions invoiceNumbers map].
  3: { intros fy s H. rewrite lookup_empty in H. discriminate. }
  all: constructor.
Qed.

Lemma Inv_numbered (today : Date.t) (req : Request) (st : Store) :
  Inv st -> Inv (numbered today req st).
Proof.
  intros [H1 H2 H3 H4 H5 H6 H7]. unfold numbered, with_invoiceNumbers.
  split; cbn [transactions invoiceNumbers nextId]; try assumption.
  - apply well_formed_next. exact H3.
  - eapply List.Forall_impl; [| exact H4]. intros tx. apply issued_next. exact H3.
Qed.

Lemma calculated_intro (tx : Transaction.t) (g : Q) (c : Calculations) :
  calculateCommission (Transaction.totalReceived tx) (Transaction.commissionPercent tx) g
    = inr c ->
  Transaction.commissionAmount tx = commissionAmount c ->
  Transaction.gstAmount tx = gstAmount c ->
  Transaction.netIncome tx = netIncome c ->
  Transaction.returnAmount tx = returnAmount c ->
  calculated tx.
Proof.
  intros Hc E1 E2 E3 E4. exists g. rewrite Hc, E1, E2, E3, E4. now destruct c.
Qed.

Lemma createTransaction_Inv (env : Env) (today : Date.t) (req : Request) (st : Store) :
  Inv st -> Inv (snd (createTransaction env today req st)).
Proof.
  intros HI.
  destruct (createTransaction_outcome env today req st)
    as [m | | t p c _ _ _ _ | err Hne | t p c entry Ht Hp Hc Hv Hi Hval];
    cbn [snd]; try exact HI; try (apply Inv_numbered; exact HI).
  pose proof (Inv_numbered today req st HI) as [N1 N2 N3 N4 N5 N6 N7].
  destruct HI as [H1 H2 H3 H4 H5 H6 H7].
  assert (Hnum : issued (invoiceNumbers (numbered today req st))
                        (document today req st t p c)
                 /\ forall tx, In tx (transactions st) ->
                      Transaction.invoiceNumber tx
                      <> Transaction.invoiceNumber (document today req st t p c)).
  { unfold numbered, with_invoiceNumbers, document,
      InvoiceNumber.generateInvoiceNumber.
    cbn [invoiceNumbers Transaction.invoiceNumber].
    split.
    - destruct (getNextInvoiceNumber_spec
                  (InvoiceNumber.getFinancialYear (default today (date (body req))))
                  (invoiceNumbers st) H3) as (s' & -> & Hp' & Hc' & Hl').
      cbn [fst snd]. eexists _, _, s'. split; [reflexivity |].
      rewrite lookup_insert_eq. split; [reflexivity | lia].
    - intros tx Hin. apply next_number_fresh; [exact H3 |].
      rewrite List.Forall_forall in H4. apply H4. exact Hin. }
  destruct Hnum as [Hiss Hfresh].
  split; cbn [transactions invoiceNumbers nextId].
  - apply List.Forall_app. split.
    + eapply List.Forall_impl; [| exact H1]. cbn. intros tx Htx. lia.
    + constructor; [| constructor]. cbn [document Transaction._id]. lia.
  - rewrite map_app. apply List.NoDup_app; [exact H2 | |].
    + cbn. constructor; [intros [] | constructor].
    + intros id Hin [<- | []]. cbn [document Transaction._id] in Hin.
      apply in_map_iff in Hin. destruct Hin as (tx & E & Hin).
      rewrite List.Forall_forall in H1. specialize (H1 tx Hin). cbn in H1. lia.
  - exact N3.
  - apply List.Forall_app. split; [exact N4 |]. constructor; [exact Hiss | constructor].
  - rewrite map_app. apply List.NoDup_app; [exact H5 | |].
    + cbn. constructor; [intros [] | constructor].
    + intros inv Hin [<- | []].
      apply in_map_iff in Hin. destruct Hin as (tx & E & Hin).
      exact (Hfresh tx Hin E).
  - apply List.Forall_app. split; [exact H6 |]. constructor; [| constructor].
    apply (calculated_intro _ (gstRate_of env) c); try reflexivity. exact Hc.
  - apply List.Forall_app. split; [exact H7 |]. constructor; [exact Hval | constructor].
Qed.

Lemma NoDup_map_inj {A B : Type} (f : A -> B) (l : list A) (a b : A) :
  List.NoDup (map f l) -> In a l -> In b l -> f a = f b -> a = b.
Proof.
  induction l as [| x l IH]; cbn; intros Hnd Ha Hb E; [destruct Ha |].
  apply NoDup_cons_iff in Hnd. destruct Hnd as [Hx Hnd].
  destruct Ha as [-> | Ha]; destruct Hb as [-> | Hb]; try reflexivity.
  - exfalso. apply Hx. rewrite E. apply in_map. exact Hb.
  - exfalso. apply Hx. rewrite <- E. apply in_map. exact Ha.
  - apply IH; assumption.
Qed.

Lemma updateTransaction_Inv (env : Env) (req : Request) (st : Store) :
  Inv st -> Inv (snd (updateTransaction env req st)).
Proof.
  intros HI.
  destruct (updateTransaction_outcome env req st)
    as [Hnf | err | id old c entry Hid Hfind Hc Hv]; cbn [snd]; try exact HI.
  destruct HI as [H1 H2 H3 H4 H5 H6 H7].
  destruct (findById_Some _ _ _ Hfind) as [Hin Hidold].
  set (u := updated env req old c) in *.
  assert (Hall : forall P : Transaction.t -> Prop,
             P u -> Forall P (transactions st) -> Forall P (replaced u (transactions st))).
  { intros P Pu HP. rewrite List.Forall_forall in *. intros x Hx.
    destruct (In_replaced _ _ _ Hx) as [-> | Hx']; [exact Pu | apply HP; exact Hx']. }
  rewrite List.Forall_forall in H1, H4.
  split; cbn [transactions invoiceNumbers nextId].
  - apply Hall; [| rewrite List.Forall_forall; exact H1]. apply (H1 old Hin).
  - rewrite map_id_replaced. exact H2.
  - exact H3.
  - apply Hall; [| rewrite List.Forall_forall; exact H4]. exact (H4 old Hin).
  - replace (map Transaction.invoiceNumber (replaced u (transactions st)))
      with (map Transaction.invoiceNumber (transactions st)); [exact H5 |].
    unfold replaced. rewrite map_map. apply map_ext_in. intros x Hx.
    destruct (N.eqb_spec (Transaction._id x) (Transaction._id u)) as [E | E];
      [| reflexivity].
    rewrite (NoDup_map_inj Transaction._id (transactions st) x old H2 Hx Hin E).
    reflexivity.
  - apply Hall; [| exact H6].
    apply (calculated_intro _ (gstRate_of env) c); try reflexivity. exact Hc.
  - apply Hall; [exact Hv | exact H7].
Qed.

Lemma deleteTransaction_Inv (req : Request) (st : Store) :
  Inv st -> Inv (snd (deleteTransaction req st)).
Proof.
  intros HI. unfold deleteTransaction. cbn [snd].
  destruct (params_id req) as [id |]; [| now destruct st].
  destruct (Transaction.findById id (transactions st)) as [tx |] eqn:Hfind.
  2: { rewrite (findByIdAndDelete_missing _ _ Hfind). now destruct st. }
  destruct (findByIdAndDelete_found _ _ _ Hfind) as (l1 & l2 & E1 & E2 & _).
  rewrite E2. destruct HI as [H1 H2 H3 H4 H5 H6 H7].
  rewrite E1 in H1, H2, H4, H5, H6, H7.
  assert (Hall : forall P : Transaction.t -> Prop,
             Forall P (l1 ++ tx :: l2) -> Forall P (l1 ++ l2)).
  { intros P HP. apply List.Forall_app in HP. destruct HP as [HP1 HP2].
    apply List.Forall_app. split; [exact HP1 |]. now inversion HP2. }
  rewrite map_app in H2, H5. cbn [map] in H2, H5.
  apply NoDup_remove_1 in H2, H5.
  split; cbn [transactions invoiceNumbers nextId]; rewrite ?map_app; auto.
Qed.

Lemma checkFilingLock_Inv (today : Date.t) (req : Request) (st : Store) :
  Inv st -> Inv (snd (checkFilingLock today req st)).
Proof.
  intros HI. apply (Inv_frame st); [| | | exact HI]; unfold checkFilingLock;
    repeat match goal with
           | |- context [match ?x with _ => _ end] => destruct x
           end; cbn; try reflexivity; lia.
Qed.

Lemma lockMonth_Inv (now : Z) (req : FilingLockController.LockRequest) (st : Store) :
  Inv st -> Inv (snd (FilingLockController.lockMonth now req st)).
Proof.
  intros HI. apply (Inv_frame st); [| | | exact HI];
    unfold FilingLockController.lockMonth;
    repeat match goal with
           | |- context [match ?x with _ => _ end] => destruct x
           end; cbn; try reflexivity; lia.
Qed.

Lemma unlockMonth_Inv (req : FilingUnlockController.UnlockRequest) (st : Store) :
  Inv st -> Inv (snd (FilingUnlockController.unlockMonth req st)).
Proof.
  intros HI. apply (Inv_frame st); [| | | exact HI];
    unfold FilingUnlockController.unlockMonth;
    destruct (GSTFilingLock.unlockMonth _ _ _) as [[lock |] collection];
    cbn; try reflexivity; lia.
Qed.

Lemma step_Inv (st st' : Store) : step st st' -> Inv st -> Inv st'.
Proof.
  intros [rejected env today req | rejected env today req | today req | now req | req]
         HI.
  - unfold post_transaction. cbn [route]. unfold validateRequest.
    destruct (transactionValidation (body req)); [| exact HI].
    apply createTransaction_Inv. exact HI.
  - unfold put_transaction. cbn [route].
    pose proof (checkFilingLock_Inv today req st HI) as HG.
    destruct (checkFilingLock today req st) as [[response |] st1]; [exact HG |].
    cbn [snd] in HG. unfold validateRequest.
    destruct (transactionValidation (body req)); [| exact HG].
    apply updateTransaction_Inv. exact HG.
  - unfold delete_transaction. cbn [route].
    pose proof (checkFilingLock_Inv today req st HI) as HG.
    destruct (checkFilingLock today req st) as [[response |] st1]; [exact HG |].
    cbn [snd] in HG. apply deleteTransaction_Inv. exact HG.
  - apply lockMonth_Inv. exact HI.
  - apply unlockMonth_Inv. exact HI.
Qed.

Lemma reachable_Inv (st : Store) : reachable st -> Inv st.
Proof.
  induction 1 as [| st st' _ IH Hstep]; [exact Inv_empty |].
  exact (step_Inv st st' Hstep IH).
Qed.

End InvariantFacts.

Module InvariantExtras.
Import JS JSFacts JSString StringFacts Calc CalcFacts GstValidation.
Import TransactionController TransactionUpdates TransactionRoutes FilingLockMiddleware.
Import CreateOutcome CreateFacts CreateTheorems CalcExtras.
Import UpdateOutcome UpdateFacts LockFacts Reachable InvariantFacts.
Local Open Scope Q_scope.




(** X15.  In a reachable store [createTransaction] never fails on the
    unique index of [invoiceNumber]: the number it takes from the series is
    the number of no stored transaction. *)
Theorem reachable_create_no_duplicate_key (st : Store) :
  reachable st ->
  forall env today req,
    Transaction.invoiceNumber_taken
      (Some (fst (InvoiceNumber.generateInvoiceNumber
                    (default today (date (body req))) (invoiceNumbers st))))
      (transactions st) = false /\
    forall key, fst (createTransaction env today req st) <> Next (DuplicateKey key).
Proof.
  intros Hr env today req. destruct (reachable_Inv st Hr) as [H1 H2 H3 H4 H5 H6 H7].
  assert (Hfree : Transaction.invoiceNumber_taken
                    (Some (fst (InvoiceNumber.generateInvoiceNumber
                                  (default today (date (body req)))
                                  (invoiceNumbers st))))
                    (transactions st) = false).
  { unfold Transaction.invoiceNumber_taken.
    apply not_true_is_false. intros E. apply existsb_exists in E.
    destruct E as (tx & Hin & E).
    destruct (Transaction.invoiceNumber tx) as [inv |] eqn:Einv; [| discriminate].
    apply String.eqb_eq in E. subst inv.
    rewrite List.Forall_forall in H4.
    exact (next_number_fresh _ _ tx H3 (H4 tx Hin) Einv). }
  split; [exact Hfree |]. intros key.
  unfold createTransaction.
  destruct (totalReceived (body req)) as [t |];
    destruct (commissionPercentValue_of env (body req)) as [p |].
  2-4: match goal with
       | |- context [calculate_not_a_number ?a ?b ?g] =>
           destruct (calculate_not_a_number a b g) as [e |] eqn:E
       end;
       [ destruct (calculate_not_a_number_error _ _ _ _ E) as [m ->]
       | ]; cbn; discriminate.
  destruct (calculateCommission t p (gstRate_of env)) as [e | c] eqn:Ec.
  { destruct (calculateCommission_error _ _ _ _ Ec) as [[m ->] _]. cbn. discriminate. }
  destruct (negb (validateCalculations t c)); [cbn; discriminate |].
  destruct (InvoiceNumber.generateInvoiceNumber _ _) as [invoiceNumber series] eqn:Eg.
  cbn [fst] in Hfree.
  destruct (negb (isValid _)); [cbn; discriminate |].
  unfold Transaction.create. cbn [Transaction.invoiceNumber].
  rewrite Hfree.
  match goal with
  | |- context [Transaction.validate ?d] => destruct (Transaction.validate d)
  end; cbn; discriminate.
Qed.

Lemma reachable_create_no_duplicate_key_witness :
  Transaction.invoiceNumber_taken
    (Some (fst (InvoiceNumber.generateInvoiceNumber Scenario.today
                  (invoiceNumbers
                     (snd (post_transaction (Json 400 false "Validation failed" NoData)
                             Scenario.env18 Scenario.today
                             (Scenario.post None 10000 (Some 1))
                             Scenario.empty_store))))))
    (transactions
       (snd (post_transaction (Json 400 false "Validation failed" NoData)
               Scenario.env18 Scenario.today
               (Scenario.post None 10000 (Some 1))
               Scenario.empty_store))) = false.
Proof.
  set (st1 := snd (post_transaction (Json 400 false "Validation failed" NoData)
                     Scenario.env18 Scenario.today
                     (Scenario.post None 10000 (Some 1)) Scenario.empty_store)).
  assert (R : reachable st1).
  { apply (reachable_step Scenario.empty_store); [apply reachable_empty | apply Post]. }
  exact (proj1 (reachable_create_no_duplicate_key st1 R Scenario.env18 Scenario.today
                  (Scenario.post None 20000 (Some 1)))).
Defined.




Lemma findById_last (id : N) (l : list Transaction.t) (tx : Transaction.t) :
  Transaction.findById id l = None -> Transaction._id tx = id ->
  Transaction.findById id (l ++ [tx]) = Some tx.
Proof.
  unfold Transaction.findById. intros Hl Hid.
  induction l as [| x l IH]; cbn in *.
  - now rewrite Hid, N.eqb_refl.
  - destruct (Transaction._id x =? id)%N; [discriminate | apply IH; exact Hl].
Qed.

Lemma findById_app_found (id : N) (l l' : list Transaction.t) (tx : Transaction.t) :
  Transaction.findById id l = Some tx -> Transaction.findById id (l ++ l') = Some tx.
Proof.
  unfold Transaction.findById. induction l as [| x l IH]; cbn; [discriminate |].
  destruct (Transaction._id x =? id)%N; [tauto | exact IH].
Qed.

(** X17.  In a reachable store a created transaction can be read back:
    after [createTransaction] has answered 201, [getTransaction] with the
    id of the answer finds exactly the transaction of the answer, and it
    still finds every transaction it found before. *)
Theorem created_transaction_is_found (env : Env) (today : Date.t) (req : Request)
    (st st' : Store) (tx : Transaction.t) :
  reachable st ->
  createTransaction env today req st
    = (Json 201 true "Transaction created successfully" (TransactionData tx), st') ->
  (forall req', params_id req' = Some (Transaction._id tx) ->
                TransactionQueries.getTransaction req' st'
                = (Json 200 true "" (TransactionData tx), st')) /\
  (forall req' old, TransactionQueries.getTransaction req' st
                    = (Json 200 true "" (TransactionData old), st) ->
                    TransactionQueries.getTransaction req' st'
                    = (Json 200 true "" (TransactionData old), st')).
Proof.
  intros Hr. destruct (reachable_Inv st Hr) as [H1 _ _ _ _ _ _].
  destruct (createTransaction_outcome env today req st)
    as [m | | t p c _ _ _ _ | err Hne | t p c entry _ _ _ _ _ _];
    try discriminate.
  intros [= <- <-].
  assert (Hnew : Transaction.findById (nextId st) (transactions st) = None).
  { apply findById_None. intros Hin. apply in_map_iff in Hin.
    destruct Hin as (x & E & Hin). rewrite List.Forall_forall in H1.
    specialize (H1 x Hin). cbn in H1. lia. }
  split.
  - intros req' Hid. unfold TransactionQueries.getTransaction.
    rewrite Hid. cbn [transactions document Transaction._id].
    fold (document today req st t p c).
    rewrite (findById_last (nextId st) _ (document today req st t p c) Hnew eq_refl).
    reflexivity.
  - intros req' old. unfold TransactionQueries.getTransaction.
    destruct (params_id req') as [id |]; [| discriminate].
    destruct (Transaction.findById id (transactions st)) as [found |] eqn:Hfind;
      [| discriminate].
    intros [= ->]. cbn [transactions].
    rewrite (findById_app_found _ _ _ _ Hfind). reflexivity.
Qed.

Lemma created_transaction_is_found_witness :
  exists tx st',
    createTransaction Scenario.env18 Scenario.today
        (Scenario.post None 10000 (Some 1)) Scenario.empty_store
      = (Json 201 true "Transaction created successfully" (TransactionData tx), st') /\
    TransactionQueries.getTransaction (Scenario.delete (Transaction._id tx)) st'
      = (Json 200 true "" (TransactionData tx), st').
Proof.
  assert (E : exists tx st',
             createTransaction Scenario.env18 Scenario.today
               (Scenario.post None 10000 (Some 1)) Scenario.empty_store
             = (Json 201 true "Transaction created successfully"
                  (TransactionData tx), st')).
  { eexists. eexists. vm_compute. reflexivity. }
  destruct E as (tx & st' & E). exists tx, st'. split; [exact E |].
  destruct (created_transaction_is_found _ _ _ _ _ _ reachable_empty E) as [H _].
  apply H. reflexivity.
Defined.

(** X18.  Whatever request is served, no invoice series is removed or
    reset and no counter goes down: the series of every fiscal year is still
    there afterwards, with the same prefix and a counter at least as high.
    In particular deleting a transaction does not give its sequence number
    back. *)
Theorem counters_never_go_down (st st' : Store) :
  step st st' ->
  forall fy s, invoiceNumbers st !! fy = Some s ->
    exists s', invoiceNumbers st' !! fy = Some s'
               /\ InvoiceNumber.prefix s' = InvoiceNumber.prefix s
               /\ (InvoiceNumber.lastSequenceNumber s
                   <= InvoiceNumber.lastSequenceNumber s')%Z.
Proof.
  assert (Hsame : forall st1 : Store, invoiceNumbers st1 = invoiceNumbers st ->
            forall fy s, invoiceNumbers st !! fy = Some s ->
              exists s', invoiceNumbers st1 !! fy = Some s'
                         /\ InvoiceNumber.prefix s' = InvoiceNumber.prefix s
                         /\ (InvoiceNumber.lastSequenceNumber s
                             <= InvoiceNumber.lastSequenceNumber s')%Z).
  { intros st1 E fy s Hs. exists s. rewrite E. split; [exact Hs |]. split; [reflexivity | lia]. }
  assert (Hguard : forall today req,
            invoiceNumbers (snd (checkFilingLock today req st)) = invoiceNumbers st).
  { intros today req. unfold checkFilingLock.
    repeat match goal with
           | |- context [match ?x with _ => _ end] => destruct x
           end; reflexivity. }
  intros [rejected env today req | rejected env today req | today req | now req | req].
  - unfold post_transaction. cbn [route]. unfold validateRequest.
    destruct (transactionValidation (body req)); [| apply Hsame; reflexivity].
    assert (Hnum : forall fy s, invoiceNumbers st !! fy = Some s ->
              exists s', invoiceNumbers (numbered today req st) !! fy = Some s'
                         /\ InvoiceNumber.prefix s' = InvoiceNumber.prefix s
                         /\ (InvoiceNumber.lastSequenceNumber s
                             <= InvoiceNumber.lastSequenceNumber s')%Z).
    { intros fy s Hs. unfold numbered, with_invoiceNumbers,
        InvoiceNumber.generateInvoiceNumber, InvoiceNumber.getNextInvoiceNumber.
      cbn [invoiceNumbers snd].
      destruct (decide (fy = InvoiceNumber.getFinancialYear
                               (default today (date (body req))))) as [<- | Hne].
      - rewrite lookup_insert_eq, Hs. eexists. split; [reflexivity |].
        cbn. split; [reflexivity | lia].
      - rewrite lookup_insert_ne by congruence. exists s.
        split; [exact Hs |]. split; [reflexivity | lia]. }
    destruct (createTransaction_outcome env today req st)
      as [m | | t p c _ _ _ _ | err Hne | t p c entry _ _ _ _ _ _];
      cbn [snd invoiceNumbers]; try (apply Hsame; reflexivity); exact Hnum.
  - unfold put_transaction. cbn [route].
    pose proof (Hguard today req) as HG.
    destruct (checkFilingLock today req st) as [[response |] st1];
      cbn [snd] in *; [apply Hsame; exact HG |].
    unfold validateRequest.
    destruct (transactionValidation (body req)); [| apply Hsame; exact HG].
    apply Hsame. rewrite <- HG.
    destruct (updateTransaction_outcome env req st1); reflexivity.
  - unfold delete_transaction. cbn [route].
    pose proof (Hguard today req) as HG.
    destruct (checkFilingLock today req st) as [[response |] st1];
      cbn [snd] in *; apply Hsame; exact HG.
  - apply Hsame. unfold FilingLockController.lockMonth.
    repeat match goal with
           | |- context [match ?x with _ => _ end] => destruct x
           end; reflexivity.
  - apply Hsame. unfold FilingUnlockController.unlockMonth.
    destruct (GSTFilingLock.unlockMonth _ _ _) as [[lock |] collection]; reflexivity.
Qed.

Lemma counters_never_go_down_witness :
  exists s',
    invoiceNumbers
      (snd (delete_transaction Scenario.today (Scenario.delete 1)
              (snd (createTransaction Scenario.env18 Scenario.today
                      (Scenario.post None 10000 (Some 1)) Scenario.empty_store))))
      !! "FY24"%string = Some s'
    /\ (1 <= InvoiceNumber.lastSequenceNumber s')%Z.
Proof.
  set (st1 := snd (createTransaction Scenario.env18 Scenario.today
                     (Scenario.post None 10000 (Some 1)) Scenario.empty_store)).
  assert (E : invoiceNumbers st1 !! "FY24"%string
              = Some {| InvoiceNumber.lastSequenceNumber := 1;
                        InvoiceNumber.prefix := "INV" |})
    by (vm_compute; reflexivity).
  destruct (counters_never_go_down st1 _ (Delete st1 Scenario.today (Scenario.delete 1))
              "FY24"%string _ E) as (s' & Hs' & _ & Hl).
  exists s'. split; [exact Hs' | exact Hl].
Defined.

End InvariantExtras.

(* ===================================================================== *)
(** ** Further properties: the pattern of [validateInvoiceNumber] *)
(* ===================================================================== *)

Module ReportExtras.
Import JS JSFacts JSString StringFacts GstValidation InvoiceNumber Allocation.
Import FiscalYearTheorems InvoiceTheorems FormatTheorems ComplianceTheorems.
Local Open Scope Q_scope.

Lemma parse_from_acc (s : string) : forall acc,
  parse_from acc s
  = (acc * 10 ^ N.of_nat (String.length s) + parse_from 0 s)%N.
Proof.
  induction s as [| c s IH]; intros acc; cbn [parse_from String.length].
  - cbn. lia.
  - rewrite IH, (IH (10 * 0 + digit_value c)%N).
    rewrite Nat2N.inj_succ, N.pow_succ_r'. lia.
Qed.

Lemma digit_value_lt (c : ascii) : is_digit c = true -> (digit_value c < 10)%N.
Proof.
  unfold is_digit, digit_value. intros H. apply andb_true_iff in H.
  destruct H as [H1 H2]. apply N.leb_le in H1, H2. lia.
Qed.

Lemma digit_value_inj (c d : ascii) :
  is_digit c = true -> is_digit d = true -> digit_value c = digit_value d -> c = d.
Proof.
  unfold is_digit, digit_value. intros Hc Hd E.
  apply andb_true_iff in Hc, Hd. destruct Hc as [C1 C2], Hd as [D1 D2].
  apply N.leb_le in C1, C2, D1, D2.
  rewrite <- (ascii_N_embedding c), <- (ascii_N_embedding d). f_equal. lia.
Qed.

Lemma parse_decimal_lt (s : string) :
  all_digits s = true -> (parse_from 0 s < 10 ^ N.of_nat (String.length s))%N.
Proof.
  induction s as [| c s IH]; cbn [all_digits parse_from String.length]; intros H.
  - cbn. lia.
  - apply andb_true_iff in H. destruct H as [Hc Hs].
    rewrite parse_from_acc, Nat2N.inj_succ, N.pow_succ_r'.
    pose proof (digit_value_lt c Hc). specialize (IH Hs). nia.
Qed.

(** Digit strings of one length that denote the same number are equal. *)
Lemma parse_decimal_inj (s : string) : forall t,
  all_digits s = true -> all_digits t = true ->
  String.length s = String.length t ->
  parse_from 0 s = parse_from 0 t -> s = t.
Proof.
  induction s as [| c s IH]; intros [| d t] Hs Ht Hl E; try discriminate;
    [reflexivity |].
  cbn [all_digits parse_from String.length] in *.
  apply andb_true_iff in Hs, Ht. destruct Hs as [Hc Hs], Ht as [Hd Ht].
  injection Hl as Hl.
  rewrite (parse_from_acc s), (parse_from_acc t), <- Hl in E.
  pose proof (parse_decimal_lt s Hs) as Ls.
  pose proof (parse_decimal_lt t Ht) as Lt. rewrite <- Hl in Lt.
  pose proof (digit_value_lt c Hc). pose proof (digit_value_lt d Hd).
  assert (Ed : digit_value c = digit_value d) by nia.
  assert (Er : parse_from 0 s = parse_from 0 t) by nia.
  rewrite (digit_value_inj c d Hc Hd Ed), (IH t Hs Ht Hl Er). reflexivity.
Qed.

(** Five digits are the padded decimal form of the number they denote. *)
Lemma padStart_parse (s : string) :
  all_digits s = true -> String.length s = 5%nat ->
  padStart 5 "0" (String_of_N (parse_decimal s)) = s /\ (parse_decimal s <= 99999)%N.
Proof.
  intros Hd Hl. pose proof (parse_decimal_lt s Hd) as Hlt. rewrite Hl in Hlt.
  change (10 ^ N.of_nat 5)%N with 100000%N in Hlt.
  assert (Hn : (parse_decimal s <= 99999)%N) by (unfold parse_decimal; lia).
  split; [| exact Hn].
  apply parse_decimal_inj.
  - rewrite all_digits_padStart. apply all_digits_String_of_N.
  - exact Hd.
  - rewrite Hl. apply Nat.eqb_eq. apply length_padStart_5. exact Hn.
  - apply (parse_padStart 5).
Qed.

(** X21.  [validateInvoiceNumber] accepts exactly the strings the series
    can format: "INV", a fiscal year of the form FY and two digits, and a
    sequence number from 0 to 99999 padded to five digits.  The sequence
    number can be read back from an accepted string. *)
Theorem validateInvoiceNumber_accepts (s : string) :
  validateInvoiceNumber s = true <->
  exists (fy : string) (n : N),
    test_FY fy = true /\ (n <= 99999)%N /\ s = format "INV" fy (Z.of_N n).
Proof.
  unfold validateInvoiceNumber. split.
  - unfold test_invoiceNumber.
    destruct (strip_prefix "INV-FY" s) as [rest |] eqn:E; [| discriminate].
    apply strip_prefix_inv in E. subst s.
    destruct rest as [| a [| b [| c rest]]]; try discriminate.
    cbn [String.length].
    change (substring 0 2 (String a (String b (String c rest))))
      with (String a (String b "")).
    change (substring 2 1 (String a (String b (String c rest))))
      with (String c (substring 0 0 rest)).
    replace (substring 0 0 rest) with EmptyString by (now destruct rest).
    change (substring 3 5 (String a (String b (String c rest))))
      with (substring 0 5 rest).
    intros H. repeat (apply andb_true_iff in H; destruct H as [H ?]).
    apply Nat.eqb_eq in H. injection H as Hl.
    match goal with E : String.eqb _ _ = true |- _ => apply String.eqb_eq in E;
      injection E as -> end.
    rewrite <- Hl, substring_all in *.
    match goal with E : all_digits (String a _) = true |- _ =>
      cbn [all_digits] in E; rewrite andb_true_r in E end.
    destruct (padStart_parse rest ltac:(assumption) Hl) as [Hpad Hn].
    exists (String "F" (String "Y" (String a (String b "")))), (parse_decimal rest).
    split; [| split; [exact Hn |]].
    + unfold test_FY. cbn. rewrite andb_true_r. assumption.
    + unfold format. rewrite String_of_Z_nonneg, N2Z.id, Hpad by lia. reflexivity.
  - intros (fy & n & Hfy & Hn & ->).
    rewrite test_invoiceNumber_format by exact Hfy.
    apply length_padStart_5. exact Hn.
Qed.

End ReportExtras.

(* ===================================================================== *)
(** ** Further properties: [validateGSTCompliance] in binary64 *)
(* ===================================================================== *)

Module Compliance64Theorems.
Import Binary64 GstValidation Compliance64.

Lemma length_concat_imap {A B : Type} (f : nat -> A -> list B) (g : A -> nat)
    (l : list A) :
  (forall i x, length (f i x) = g x) ->
  length (concat (imap f l)) = list_sum (map g l).
Proof.
  revert f. induction l as [| x l IH]; intros f H; [reflexivity |].
  cbn. rewrite List.length_app, H. f_equal. apply IH. intros i y. apply H.
Qed.

Lemma positive_iff (x : Number) :
  falsy x || leb x zero = false <-> ltb zero x = true.
Proof. destruct x as [s | [|] | | [|] m e]; cbn; split; congruence. Qed.

Lemma errors_of_nil (i : nat) (tx : Document) :
  errors_of i tx = [] <-> rules_hold tx = true.
Proof.
  unfold errors_of, rules_hold. cbv zeta.
  pose proof (positive_iff (commissionAmount tx)) as P.
  destruct (falsy _ || leb _ zero); destruct (ltb zero (commissionAmount tx));
    try (exfalso; destruct P as [P1 P2]; first [discriminate (P1 eq_refl) | discriminate (P2 eq_refl)]);
    destruct (ltb _ (abs (sub (gstAmount tx) _)));
    destruct (ltb _ (abs (sub (netIncome tx) _)));
    destruct (ltb _ (abs (sub (returnAmount tx) _))); cbn; split; congruence.
Qed.

Lemma length_errors_of (i : nat) (tx : Document) :
  length (errors_of i tx) = length (errors_of 0 tx)
  /\ (length (errors_of i tx) <= 4)%nat.
Proof.
  unfold errors_of. cbv zeta.
  destruct (falsy _ || leb _ zero); destruct (ltb _ _);
    destruct (ltb _ _); destruct (ltb _ _); cbn; lia.
Qed.

(** X20.  [validateGSTCompliance] answers [isValid] exactly when every
    transaction of the batch has a positive commission and no difference
    above 0.01, as binary64 evaluates it, between its GST and 18% of the
    commission, its net income and commission minus GST, and its return
    amount and total minus commission; warnings never make a batch invalid.
    Its summary counts errors, not transactions: [errorCount] is at most
    four times the number of transactions, and [validTransactions], the
    number of transactions minus the number of errors, is at most the number
    of transactions that raise no error and equals the number of all
    transactions exactly when the batch is valid. *)
Theorem validateGSTCompliance_summary (txs : list Document) :
  let r := validateGSTCompliance txs in
  (compliant r = true <-> forall tx, In tx txs -> rules_hold tx = true) /\
  (compliant r = true <-> findings r = []) /\
  (0 <= errorCount r <= 4 * totalTransactions r)%Z /\
  (validTransactions r <= Z.of_nat (length (error_free txs)))%Z /\
  (validTransactions r = totalTransactions r <-> compliant r = true).
Proof.
  cbv zeta. unfold validateGSTCompliance.
  cbn [compliant findings errorCount totalTransactions validTransactions].
  set (errors := concat (imap errors_of txs)).
  assert (Hlen : length errors
                 = list_sum (map (fun tx => length (errors_of 0 tx)) txs)).
  { apply length_concat_imap. intros i x. apply length_errors_of. }
  assert (Hnil : errors = [] <-> forall tx, In tx txs -> rules_hold tx = true).
  { split.
    - intros E tx Hin. apply (errors_of_nil 0).
      destruct (errors_of 0 tx) eqn:E0; [reflexivity |]. exfalso.
      apply (UpdateFacts.concat_imap_not_nil errors_of txs tx Hin); [| exact E].
      intros i Ei. pose proof (proj1 (length_errors_of i tx)) as L.
      rewrite Ei, E0 in L. discriminate.
    - intros H. apply ComplianceTheorems.concat_imap_nil. intros i tx Hin.
      apply errors_of_nil. apply H. exact Hin. }
  assert (Hzero : (length errors =? 0)%nat = true <-> errors = []).
  { rewrite Nat.eqb_eq. destruct errors; cbn; split; congruence. }
  assert (Hbound : (length errors <= 4 * length txs)%nat
                   /\ (length txs <= length errors + length (error_free txs))%nat).
  { rewrite Hlen. unfold error_free. clear.
    induction txs as [| tx txs [IH1 IH2]]; [cbn; lia |].
    cbn [map length List.filter].
    change (list_sum (?a :: ?l)) with (a + list_sum l)%nat.
    pose proof (proj2 (length_errors_of 0 tx)) as L.
    destruct (errors_of 0 tx); cbn [length] in *; lia. }
  split; [rewrite Hzero; exact Hnil |].
  split; [exact Hzero |].
  split; [lia |]. split; [lia |].
  rewrite Hzero. destruct errors; cbn [length]; split; try congruence; lia.
Qed.

(** The amounts [calculateCommission] gives for 1.01 at 50%, stored by an
    update: the batch of that one transaction raises two errors, and
    [validTransactions] is -1. *)
Example validTransactions_negative :
  let tx := {| _id := 1; totalReceived := decimal 101 100;
               commissionAmount := decimal 51 100; gstAmount := decimal 9 100;
               netIncome := decimal 41 100; returnAmount := decimal 51 100 |} in
  findings (validateGSTCompliance [tx])
    = [finding 0 tx "netIncome"; finding 0 tx "returnAmount"]
  /\ validTransactions (validateGSTCompliance [tx]) = (-1)%Z
  /\ error_free [tx] = [].
Proof. cbv zeta. repeat split; vm_compute; reflexivity. Qed.

(** The amounts of 10000 at 1% under a rate of 5%: one error, on the GST. *)
Example other_rate_fails_compliance :
  let tx := {| _id := 1; totalReceived := of_Z 10000;
               commissionAmount := of_Z 100; gstAmount := of_Z 5;
               netIncome := of_Z 95; returnAmount := of_Z 9900 |} in
  Calc64.calculateCommission (of_Z 10000) (of_Z 1) (of_Z 5)
    = inr {| Calc64.commissionAmount := of_Z 100; Calc64.gstAmount := of_Z 5;
             Calc64.netIncome := of_Z 95; Calc64.returnAmount := of_Z 9900 |}
  /\ findings (validateGSTCompliance [tx]) = [finding 0 tx "gstAmount"]
  /\ compliant (validateGSTCompliance [tx]) = false.
Proof. cbv zeta. repeat split; vm_compute; reflexivity. Qed.

End Compliance64Theorems.

(* ===================================================================== *)
(** ** Further properties: the routes behind their validation *)
(* ===================================================================== *)

Module RouteExtras.
Import JS JSFacts JSString Calc CalcFacts GstValidation TransactionController.
Import TransactionUpdates TransactionRoutes FilingLockMiddleware.
Import CreateFacts CreateTheorems UpdateOutcome UpdateFacts Reachable InvariantFacts.
Local Open Scope Q_scope.



(** X23.  Behind [transactionValidation] the guards of
    [calculateCommission] on the amount and on a percentage of the body are
    never the ones that fire: when [createTransaction] ends with an
    [InvalidInput] on a body the validation accepts, the configuration is
    at fault, a GST rate outside 0..100 or, for a body without
    [commissionPercent], a default percentage outside 0..100. *)
Theorem invalid_input_is_configuration (env : Env) (today : Date.t) (req : Request)
    (st : Store) (m : string) :
  transactionValidation (body req) = true ->
  fst (createTransaction env today req st) = Next (InvalidInput m) ->
  (gstRate_of env < 0 \/ 100 < gstRate_of env) \/
  (commissionPercent (body req) = None /\
   exists p, DEFAULT_COMMISSION_PERCENT env = Some p /\ (p < 0 \/ 100 < p)).
Proof.
  intros Hbody. unfold transactionValidation in Hbody.
  apply andb_true_iff in Hbody. destruct Hbody as [Hbody _].
  apply andb_true_iff in Hbody. destruct Hbody as [Hbody _].
  apply andb_true_iff in Hbody. destruct Hbody as [B1 B2].
  unfold createTransaction, commissionPercentValue_of.
  destruct (totalReceived (body req)) as [t |]; [| discriminate].
  apply Qle_bool_iff in B1.
  assert (Hcalc : forall p e,
             calculateCommission t p (gstRate_of env) = inl e ->
             p < 0 \/ 100 < p \/ gstRate_of env < 0 \/ 100 < gstRate_of env).
  { intros p e E. destruct (calculateCommission_error _ _ _ _ E) as [_ H].
    destruct H as [H | H]; [lra | exact H]. }
  assert (Hrest : forall p c,
             calculateCommission t p (gstRate_of env) = inr c ->
             fst (if negb (validateCalculations t c)
                  then (Json 400 false "Calculation validation failed" NoData, st)
                  else
                    let transactionDate := default today (date (body req)) in
                    let '(invoiceNumber, series) :=
                      InvoiceNumber.generateInvoiceNumber transactionDate
                        (invoiceNumbers st) in
                    let st1 := with_invoiceNumbers st series in
                    let financialYear :=
                      InvoiceNumber.getFinancialYear transactionDate in
                    let gstValidation :=
                      validateTransactionForGST (commissionAmount c) (gstAmount c) t in
                    if negb (isValid gstValidation) then
                      (Json 400 false "GST validation failed"
                            (Errors (errors gstValidation)), st1)
                    else
                      match Transaction.create (nextId st)
                              {| Transaction._id := nextId st;
                                 Transaction.date := transactionDate;
                                 Transaction.totalReceived := t;
                                 Transaction.commissionPercent := p;
                                 Transaction.commissionAmount := commissionAmount c;
                                 Transaction.gstAmount := gstAmount c;
                                 Transaction.netIncome := netIncome c;
                                 Transaction.returnAmount := returnAmount c;
                                 Transaction.paymentMode :=
                                   match paymentMode (body req) with
                                   | Some m => if String.eqb m "" then "QR" else m
                                   | None => "QR"
                                   end;
                                 Transaction.createdBy := user req;
                                 Transaction.remarks :=
                                   trim (default "" (remarks (body req)));
                                 Transaction.invoiceNumber := Some invoiceNumber;
                                 Transaction.financialYear := Some financialYear |}
                              (transactions st) with
                      | inl err => (Next err, st1)
                      | inr (transaction, collection) =>
                          (Json 201 true "Transaction created successfully"
                                (TransactionData transaction),
                           mkStore series (filingLocks st) collection
                             (GSTAuditLog.createLog
                                {| GSTAuditLog.action := "TRANSACTION_CREATED";
                                   GSTAuditLog.performedBy := user req;
                                   GSTAuditLog.entityType := "TRANSACTION";
                                   GSTAuditLog.entityId :=
                                     Some (Transaction._id transaction);
                                   GSTAuditLog.status := "SUCCESS";
                                   GSTAuditLog.errorMessage := None |}
                                (auditLogs st))
                             (nextId st + 1)%N)
                      end)
             <> Next (InvalidInput m)).
  { intros p c _. destruct (negb (validateCalculations t c)); [discriminate |].
    cbv zeta. destruct (InvoiceNumber.generateInvoiceNumber _ _) as [inv series].
    destruct (negb (isValid _)); [discriminate |].
    unfold Transaction.create.
    match goal with
    | |- context [Transaction.validate ?d] => destruct (Transaction.validate d)
    end; [| discriminate].
    destruct (Transaction.invoiceNumber_taken _ _); discriminate. }
  destruct (commissionPercent (body req)) as [p |].
  - apply andb_true_iff in B2. destruct B2 as [P1 P2].
    apply Qle_bool_iff in P1, P2.
    destruct (calculateCommission t p (gstRate_of env)) as [e | c] eqn:Ec.
    + intros _. destruct (Hcalc p e Ec) as [H | [H | H]]; [lra | lra | left; exact H].
    + intros E. exfalso. exact (Hrest p c Ec E).
  - destruct (DEFAULT_COMMISSION_PERCENT env) as [p |].
    + destruct (calculateCommission t p (gstRate_of env)) as [e | c] eqn:Ec.
      * intros _. destruct (Hcalc p e Ec) as [H | [H | H]];
          [right | right | left; exact H];
          (split; [reflexivity |]; exists p; split; [reflexivity |]); tauto.
      * intros E. exfalso. exact (Hrest p c Ec E).
    + unfold calculate_not_a_number.
      replace (Qle_bool t 0) with false
        by (symmetry; apply Qle_bool_false_iff; lra).
      destruct (Qlt_bool (gstRate_of env) 0 || Qlt_bool 100 (gstRate_of env)) eqn:Eg;
        [| discriminate].
      intros _. left. apply orb_true_iff in Eg.
      destruct Eg as [Eg | Eg]; apply Qlt_bool_iff in Eg; tauto.
Qed.

Lemma invalid_input_is_configuration_witness :
  fst (createTransaction
         {| DEFAULT_COMMISSION_PERCENT := Some 1; GST_RATE := Some 200 |}
         Scenario.today (Scenario.post None 10000 (Some 1)) Scenario.empty_store)
    = Next (InvalidInput "GST rate must be between 0 and 100") /\
  100 < gstRate_of {| DEFAULT_COMMISSION_PERCENT := Some 1; GST_RATE := Some 200 |}.
Proof.
  assert (E : fst (createTransaction
                     {| DEFAULT_COMMISSION_PERCENT := Some 1; GST_RATE := Some 200 |}
                     Scenario.today (Scenario.post None 10000 (Some 1))
                     Scenario.empty_store)
              = Next (InvalidInput "GST rate must be between 0 and 100"))
    by (vm_compute; reflexivity).
  split; [exact E |].
  assert (Hbody : transactionValidation
                    (body (Scenario.post None 10000 (Some 1))) = true)
    by (vm_compute; reflexivity).
  destruct (invalid_input_is_configuration
              {| DEFAULT_COMMISSION_PERCENT := Some 1; GST_RATE := Some 200 |}
              Scenario.today (Scenario.post None 10000 (Some 1))
              Scenario.empty_store _ Hbody E)
    as [[H | H] | (H & _)].
  - exfalso. revert H. vm_compute. discriminate.
  - exact H.
  - discriminate H.
Defined.



End RouteExtras.

(* ===================================================================== *)
(** ** Further properties: the lock status *)
(* ===================================================================== *)

Module StatusExtras.
Import JSString LockTheorems UpdateOutcome UpdateFacts LockFacts.
Import TransactionController TransactionUpdates TransactionRoutes FilingLockMiddleware.
Import CreateOutcome CreateFacts Reachable FilingLockStatus.

Lemma lock_keys_lockMonth (month year : Z) (lockedBy : N)
    (options : GSTFilingLock.Options) (now : Z) (id : N)
    (collection collection' : GSTFilingLock.Collection) (lock : GSTFilingLock.t) :
  lock_keys_consistent collection ->
  GSTFilingLock.lockMonth month year lockedBy options now id collection
    = inr (lock, collection') ->
  lock_keys_consistent collection'.
Proof.
  intros HI. unfold GSTFilingLock.lockMonth. cbv zeta.
  assert (Hins : forall l,
             GSTFilingLock.financialYear l
               = InvoiceNumber.getFinancialYear (Date.first_of_month year (month - 1)) ->
             GSTFilingLock.month l = month -> GSTFilingLock.year l = year ->
             lock_keys_consistent
               (<[(InvoiceNumber.getFinancialYear
                     (Date.first_of_month year (month - 1)), month, year) := l]>
                  collection)).
  { intros l E1 E2 E3 key r.
    destruct (decide (key = (InvoiceNumber.getFinancialYear
                               (Date.first_of_month year (month - 1)), month, year)))
      as [-> | Hne].
    - rewrite lookup_insert_eq. intros [= <-]. rewrite E1, E2, E3. tauto.
    - rewrite lookup_insert_ne by congruence. apply HI. }
  destruct (collection !! _) as [old |].
  - intros [= _ <-]. apply Hins; reflexivity.
  - destruct (GSTFilingLock.filingPeriod_taken _ _); [discriminate |].
    intros [= _ <-]. apply Hins; reflexivity.
Qed.

Lemma lock_keys_unlockMonth (month year : Z) (collection : GSTFilingLock.Collection) :
  lock_keys_consistent collection ->
  lock_keys_consistent (snd (GSTFilingLock.unlockMonth month year collection)).
Proof.
  intros HI. unfold GSTFilingLock.unlockMonth. cbv zeta.
  destruct (collection !! _) as [old |] eqn:Hold; [| exact HI].
  cbn [snd]. intros key r.
  destruct (decide (key = (InvoiceNumber.getFinancialYear
                             (Date.first_of_month year (month - 1)), month, year)))
    as [-> | Hne].
  - rewrite lookup_insert_eq. intros [= <-].
    destruct (HI _ _ Hold) as [E1 E2]. destruct old. exact (conj E1 E2).
  - rewrite lookup_insert_ne by congruence. apply HI.
Qed.

Lemma step_lock_keys (st st' : Store) :
  step st st' -> lock_keys_consistent (filingLocks st) ->
  lock_keys_consistent (filingLocks st').
Proof.
  assert (Hguard : forall today req,
            filingLocks (snd (checkFilingLock today req st)) = filingLocks st).
  { intros today req. unfold checkFilingLock.
    repeat match goal with
           | |- context [match ?x with _ => _ end] => destruct x
           end; reflexivity. }
  intros Hstep HI.
  assert (Hsame : forall st1 : Store, filingLocks st1 = filingLocks st ->
                    lock_keys_consistent (filingLocks st1))
    by (intros st1 E; rewrite E; exact HI).
  destruct Hstep
    as [rejected env today req | rejected env today req | today req | now req | req].
  - unfold post_transaction. cbn [route]. unfold validateRequest.
    destruct (transactionValidation (body req)); [| exact HI].
    apply Hsame. destruct (createTransaction_outcome env today req st); reflexivity.
  - unfold put_transaction. cbn [route].
    pose proof (Hguard today req) as HG.
    destruct (checkFilingLock today req st) as [[response |] st1];
      cbn [snd] in *; [apply Hsame; exact HG |].
    unfold validateRequest.
    destruct (transactionValidation (body req)); [| apply Hsame; exact HG].
    apply Hsame. rewrite <- HG.
    destruct (updateTransaction_outcome env req st1); reflexivity.
  - unfold delete_transaction. cbn [route].
    pose proof (Hguard today req) as HG.
    destruct (checkFilingLock today req st) as [[response |] st1];
      cbn [snd] in *; apply Hsame; exact HG.
  - unfold FilingLockController.lockMonth.
    destruct (_ || _); [exact HI |].
    destruct (GSTFilingLock.isDateLocked _ _); [exact HI |].
    destruct (GSTFilingLock.lockMonth _ _ _ _ _ _ _) as [err | [lock collection]] eqn:E;
      [exact HI |].
    cbn [snd filingLocks]. exact (lock_keys_lockMonth _ _ _ _ _ _ _ _ _ HI E).
  - unfold FilingUnlockController.unlockMonth.
    pose proof (lock_keys_unlockMonth (FilingUnlockController.unlock_month req)
                  (FilingUnlockController.unlock_year req) _ HI) as HU.
    destruct (GSTFilingLock.unlockMonth _ _ _) as [[lock |] collection];
      [exact HU | exact HI].
Qed.

Lemma reachable_lock_keys (st : Store) :
  reachable st -> lock_keys_consistent (filingLocks st).
Proof.
  induction 1 as [| st st' _ IH Hstep].
  - intros key lock H. cbn in H. rewrite lookup_empty in H. discriminate.
  - exact (step_lock_keys st st' Hstep IH).
Qed.

(** X25.  In a reachable store the answer of [getFilingLockStatus] for a
    month from 1 to 12 of a year from 2000 to 2100 is determined and
    consistent, although its two parts come from different queries: the
    lock it returns is the record of that month, [isLocked] is the flag of
    that record, and without a record [isLocked] is false. *)
Theorem lock_status_is_consistent (st : Store) (month year : Z) (data : Status) :
  reachable st ->
  (1 <= month <= 12)%Z -> (2000 <= year <= 2100)%Z ->
  getFilingLockStatus month year st data ->
  lock data
    = filingLocks st !! (InvoiceNumber.getFinancialYear
                           (Date.first_of_month year (month - 1)), month, year) /\
  isLocked data = match lock data with
                  | Some l => GSTFilingLock.isLocked l
                  | None => false
                  end.
Proof.
  intros Hr Hm Hy [Hlocked Hfind]. cbv zeta in Hlocked.
  pose proof (reachable_lock_keys st Hr) as HI.
  rewrite (isDateLocked_period month year (filingLocks st) Hm Hy) in Hlocked.
  cbv zeta in Hlocked.
  assert (E : lock data
              = filingLocks st !! (InvoiceNumber.getFinancialYear
                                     (Date.first_of_month year (month - 1)),
                                   month, year)).
  { unfold findOne in Hfind. destruct (lock data) as [l |].
    - destruct Hfind as ((key & Hkey) & E1 & E2).
      destruct (HI key l Hkey) as [-> Hfy]. rewrite Hfy, E1, E2 in Hkey.
      symmetry. exact Hkey.
    - destruct (filingLocks st !! _) as [l |] eqn:El; [| reflexivity].
      exfalso. destruct (HI _ _ El) as [Hk _]. apply (Hfind _ _ El).
      injection Hk as _ <- <-. tauto. }
  split; [exact E |]. rewrite Hlocked, <- E. reflexivity.
Qed.

Lemma lock_status_is_consistent_witness :
  exists l,
    filingLocks Scenario.january_locked !! ("FY23"%string, 1%Z, 2024%Z) = Some l /\
    getFilingLockStatus 1 2024 Scenario.january_locked
      {| isLocked := true; lock := Some l |} /\
    GSTFilingLock.isLocked l = true.
Proof.
  assert (R : reachable Scenario.january_locked).
  { unfold Scenario.january_locked.
    eapply reachable_step; [| apply Lock].
    apply (reachable_step Scenario.empty_store);
      [apply reachable_empty |
       exact (Post Scenario.empty_store (Json 400 false "Validation failed" NoData)
                Scenario.env18 Scenario.today
                (Scenario.post (Some Scenario.jan15) 10000 (Some 1%Q)))]. }
  assert (E : exists l,
             filingLocks Scenario.january_locked !! ("FY23"%string, 1%Z, 2024%Z)
             = Some l
             /\ GSTFilingLock.month l = 1%Z /\ GSTFilingLock.year l = 2024%Z).
  { eexists. split; [vm_compute; reflexivity |]. split; vm_compute; reflexivity. }
  destruct E as (l & El & E1 & E2). exists l. split; [exact El |].
  assert (S : getFilingLockStatus 1 2024 Scenario.january_locked
                {| isLocked := true; lock := Some l |}).
  { split; [vm_compute; reflexivity |]. cbn [lock findOne]. split; [eauto | tauto]. }
  split; [exact S |].
  destruct (lock_status_is_consistent Scenario.january_locked 1 2024 _ R
              ltac:(lia) ltac:(lia) S) as [_ H].
  cbn [isLocked lock] in H. symmetry. exact H.
Defined.

End StatusExtras.
